(** * The analysis wizard of the e-tongue front-end

    A shallow embedding of the React component [AnalysisPage]
    (the workflow orchestrator: init script, data collection with polling,
    training trigger, delayed prediction fetch) and the properties of its
    state machine. *)

From Stdlib Require Import Bool List String Ascii ZArith QArith Lia.
From Stdlib Require Import DecimalString.
Import ListNotations.

Set Implicit Arguments.
Set Warnings "-register-all".
Open Scope list_scope.
Open Scope string_scope.

(** ** JavaScript values *)

(** A JavaScript number: a double is a rational, an infinity or NaN.  The
    component only tests numbers for truthiness and compares them, so the
    finite ones are kept as exact rationals. *)
Inductive JsNumber : Type :=
| NaN
| PosInf
| NegInf
| Fin (q : Q).

Definition num (z : Z) : JsNumber := Fin (inject_Z z).

(** The values that [JSON.parse] produces, and [undefined] for a property
    that is not there.  An object keeps its own properties in order, each
    key once (of a repeated key [JSON.parse] keeps the last value). *)
Inductive JsVal : Type :=
| JUndefined
| JNull
| JBool (b : bool)
| JNum (n : JsNumber)
| JStr (s : string)
| JArr (items : list JsVal)
| JObj (props : list (string * JsVal)).

(** A thrown [Error]: its [name] and its [message]. *)
Record JsError : Type := mkError { ename : string; emessage : string }.

Inductive Result (A : Type) : Type :=
| Ok (a : A)
| Threw (e : JsError).
Arguments Ok {A} a.
Arguments Threw {A} e.

(** *** Objects as ordered property lists

    The own keys of an object come in the order of [OrdinaryOwnPropertyKeys]:
    the array indices first, ascending, then the other strings in the order
    they were created. *)

Definition digitOf (c : ascii) : option N :=
  let n := N_of_ascii c in
  if ((48 <=? n) && (n <=? 57))%N then Some (n - 48)%N else None.

Fixpoint numeral (s : string) (acc : N) : option N :=
  match s with
  | EmptyString => Some acc
  | String c rest =>
      match digitOf c with
      | Some d => numeral rest (10 * acc + d)%N
      | None => None
      end
  end.

(** The array index that the key [k] is, when it is one: a decimal numeral
    with no leading zero, at most 2^32 - 2. *)
Definition arrayIndex (k : string) : option N :=
  match k with
  | EmptyString => None
  | String c EmptyString => digitOf c
  | String c _ =>
      if Ascii.eqb c "0" then None
      else
        match numeral k 0 with
        | Some n => if (n <? 4294967295)%N then Some n else None
        | None => None
        end
  end.

Section Props.
Variable V : Type.

Fixpoint getProp (k : string) (o : list (string * V)) : option V :=
  match o with
  | [] => None
  | (k', v) :: rest => if String.eqb k k' then Some v else getProp k rest
  end.

(** An own property gets a new value and keeps its place. *)
Fixpoint replaceProp (k : string) (v : V) (o : list (string * V))
  : list (string * V) :=
  match o with
  | [] => []
  | (k', v') :: rest =>
      if String.eqb k k' then (k', v) :: rest
      else (k', v') :: replaceProp k v rest
  end.

(** A new property whose key is the array index [n] goes after the smaller
    indices. *)
Fixpoint insertIndex (n : N) (k : string) (v : V) (o : list (string * V))
  : list (string * V) :=
  match o with
  | [] => [(k, v)]
  | (k', v') :: rest =>
      match arrayIndex k' with
      | Some m =>
          if (m <? n)%N then (k', v') :: insertIndex n k v rest
          else (k, v) :: o
      | None => (k, v) :: o
      end
  end.

(** [{...o, [k]: v}]: an own property keeps its place; a new one goes last,
    unless its key is an array index. *)
Definition setProp (k : string) (v : V) (o : list (string * V))
  : list (string * V) :=
  match getProp k o with
  | Some _ => replaceProp k v o
  | None =>
      match arrayIndex k with
      | Some n => insertIndex n k v o
      | None => o ++ [(k, v)]
      end
  end.

End Props.

(** *** Host built-ins

    [Date.parse] is implementation-defined outside the ISO format, and
    [Number] applied to a string rounds to a double; the string that a number
    prints as is the host's as well.  The development is parametric in them. *)
Class Host : Type := {
  Date_parse_string : string -> JsNumber;
  StringToNumber : string -> JsNumber;
  NumberToString : JsNumber -> string
}.

(** *** Coercions *)

Definition truthyNum (n : JsNumber) : bool :=
  match n with
  | NaN => false
  | PosInf | NegInf => true
  | Fin q => negb (Qeq_bool q 0)
  end.

Definition truthyStr (s : string) : bool :=
  match s with
  | EmptyString => false
  | _ => true
  end.

(** [ToBoolean]. *)
Definition truthy (v : JsVal) : bool :=
  match v with
  | JUndefined | JNull => false
  | JBool b => b
  | JNum n => truthyNum n
  | JStr s => truthyStr s
  | JArr _ | JObj _ => true
  end.

(** [a || b]. *)
Definition jsOr (a b : JsVal) : JsVal := if truthy a then a else b.

(** [a ?? b]. *)
Definition nullish (v : JsVal) : bool :=
  match v with
  | JUndefined | JNull => true
  | _ => false
  end.

Definition jsCoalesce (a b : JsVal) : JsVal := if nullish a then b else a.

(** [a >= b] on numbers. *)
Definition geNum (a b : JsNumber) : bool :=
  match a, b with
  | NaN, _ | _, NaN => false
  | PosInf, _ => true
  | _, NegInf => true
  | NegInf, _ => false
  | _, PosInf => false
  | Fin x, Fin y => Qle_bool y x
  end.

(** [a === 0] on a number. *)
Definition isZeroNum (a : JsNumber) : bool :=
  match a with
  | Fin q => Qeq_bool q 0
  | _ => false
  end.

Section Coercions.
Context {H : Host}.

Definition joinWith (sep : string) (parts : list string) : string :=
  match parts with
  | [] => ""
  | p :: rest => fold_left (fun acc x => acc ++ sep ++ x) rest p
  end.

(** [String(v)]; an array joins its elements with a comma, [null] and
    [undefined] elements printing as nothing. *)
Fixpoint ToString (v : JsVal) : string :=
  match v with
  | JUndefined => "undefined"
  | JNull => "null"
  | JBool true => "true"
  | JBool false => "false"
  | JNum n => NumberToString n
  | JStr s => s
  | JArr items =>
      joinWith ","
        (map (fun x => match x with
                       | JUndefined | JNull => ""
                       | _ => ToString x
                       end) items)
  | JObj _ => "[object Object]"
  end.

(** [Number(v)]. *)
Definition Number (v : JsVal) : JsNumber :=
  match v with
  | JUndefined => NaN
  | JNull => num 0
  | JBool true => num 1
  | JBool false => num 0
  | JNum n => n
  | JStr s => StringToNumber s
  | JArr _ | JObj _ => StringToNumber (ToString v)
  end.

(** [Date.parse(v)]. *)
Definition Date_parse (v : JsVal) : JsNumber := Date_parse_string (ToString v).

(** Reading a property [e.k]: [undefined] when it is not there, a
    [TypeError] on [null] and [undefined]. *)
Definition nullPropError (e : JsVal) (k : string) : JsError :=
  mkError "TypeError"
    ("Cannot read properties of " ++ ToString e ++ " (reading '" ++ k ++ "')").

Definition readProp (e : JsVal) (k : string) : Result JsVal :=
  match e with
  | JNull | JUndefined => Threw (nullPropError e k)
  | JObj props =>
      match getProp k props with
      | Some v => Ok v
      | None => Ok JUndefined
      end
  | _ => Ok JUndefined
  end.

(** ** The timestamp filter (the callback of [entries.filter]) *)

(** [e.timestamp || e.time || e.created_at || e.createdAt || null] *)
Definition entryTs (e : JsVal) : Result JsVal :=
  match readProp e "timestamp" with
  | Threw x => Threw x
  | Ok a =>
      if truthy a then Ok a else
      match readProp e "time" with
      | Threw x => Threw x
      | Ok b =>
          if truthy b then Ok b else
          match readProp e "created_at" with
          | Threw x => Threw x
          | Ok c =>
              if truthy c then Ok c else
              match readProp e "createdAt" with
              | Threw x => Threw x
              | Ok d => Ok (jsOr d JNull)
              end
          end
      end
  end.

(** [Date.parse(ts) || Number(ts) || null]; [None] is the [null]. *)
Definition parseTs (ts : JsVal) : option JsNumber :=
  if truthyNum (Date_parse ts) then Some (Date_parse ts)
  else if truthyNum (Number ts) then Some (Number ts)
  else None.

(** The filter callback, with the start timestamp its closure holds
    ([null] is [None]).  The result is the truthiness of what the callback
    returns. *)
Definition keepEntry (startTs : option Z) (e : JsVal) : Result bool :=
  match startTs with
  | None => Ok true
  | Some start =>
      if Z.eqb start 0 then Ok true else
      match entryTs e with
      | Threw x => Threw x
      | Ok ts =>
          if negb (truthy ts) then Ok true else
          match parseTs ts with
          | None => Ok false
          | Some parsed => Ok (truthyNum parsed && geNum parsed (num start))
          end
      end
  end.

(** [entries.filter(cb)]: the first callback that throws ends it. *)
Fixpoint filterEntries (startTs : option Z) (entries : list JsVal)
  : Result (list JsVal) :=
  match entries with
  | [] => Ok []
  | e :: rest =>
      match keepEntry startTs e with
      | Threw x => Threw x
      | Ok keep =>
          match filterEntries startTs rest with
          | Threw x => Threw x
          | Ok kept => Ok (if keep then e :: kept else kept)
          end
      end
  end.

(** [Array.isArray(v) ? v : [v]] *)
Definition asArray (v : JsVal) : list JsVal :=
  match v with
  | JArr items => items
  | _ => [v]
  end.
End Coercions.

(** ** The component's state

    One field per [useState] hook of [AnalysisPage]. *)

(** The selected CSV file, by its name. *)
Definition File : Type := string.

Record State : Type := mkState {
  factoryName : string;
  medicineName : string;
  factoryMedicineId : string;
  scriptText : string;
  isFetchingScript : bool;
  collectionForm : list (string * JsNumber);
  isSubmittingCollection : bool;
  collectionStartTs : option Z;
  collectedEntries : list JsVal;
  csvFile : option File;
  isTraining : bool;
  trainMessage : string;
  isRequestingPrediction : bool;
  predictionStartTs : option Z;
  predictions : list JsVal;
  predictionMessage : string
}.

Definition setFactoryName (v : string) (s : State) : State :=
  mkState v (medicineName s) (factoryMedicineId s) (scriptText s)
    (isFetchingScript s) (collectionForm s) (isSubmittingCollection s)
    (collectionStartTs s) (collectedEntries s) (csvFile s) (isTraining s)
    (trainMessage s) (isRequestingPrediction s) (predictionStartTs s)
    (predictions s) (predictionMessage s).

Definition setMedicineName (v : string) (s : State) : State :=
  mkState (factoryName s) v (factoryMedicineId s) (scriptText s)
    (isFetchingScript s) (collectionForm s) (isSubmittingCollection s)
    (collectionStartTs s) (collectedEntries s) (csvFile s) (isTraining s)
    (trainMessage s) (isRequestingPrediction s) (predictionStartTs s)
    (predictions s) (predictionMessage s).

Definition setFactoryMedicineId (v : string) (s : State) : State :=
  mkState (factoryName s) (medicineName s) v (scriptText s)
    (isFetchingScript s) (collectionForm s) (isSubmittingCollection s)
    (collectionStartTs s) (collectedEntries s) (csvFile s) (isTraining s)
    (trainMessage s) (isRequestingPrediction s) (predictionStartTs s)
    (predictions s) (predictionMessage s).

Definition setScriptText (v : string) (s : State) : State :=
  mkState (factoryName s) (medicineName s) (factoryMedicineId s) v
    (isFetchingScript s) (collectionForm s) (isSubmittingCollection s)
    (collectionStartTs s) (collectedEntries s) (csvFile s) (isTraining s)
    (trainMessage s) (isRequestingPrediction s) (predictionStartTs s)
    (predictions s) (predictionMessage s).

Definition setIsFetchingScript (v : bool) (s : State) : State :=
  mkState (factoryName s) (medicineName s) (factoryMedicineId s) (scriptText
    s) v (collectionForm s) (isSubmittingCollection s) (collectionStartTs s)
    (collectedEntries s) (csvFile s) (isTraining s) (trainMessage s)
    (isRequestingPrediction s) (predictionStartTs s) (predictions s)
    (predictionMessage s).

Definition setCollectionForm (v : list (string * JsNumber)) (s : State) : State :=
  mkState (factoryName s) (medicineName s) (factoryMedicineId s) (scriptText
    s) (isFetchingScript s) v (isSubmittingCollection s) (collectionStartTs s)
    (collectedEntries s) (csvFile s) (isTraining s) (trainMessage s)
    (isRequestingPrediction s) (predictionStartTs s) (predictions s)
    (predictionMessage s).

Definition setIsSubmittingCollection (v : bool) (s : State) : State :=
  mkState (factoryName s) (medicineName s) (factoryMedicineId s) (scriptText
    s) (isFetchingScript s) (collectionForm s) v (collectionStartTs s)
    (collectedEntries s) (csvFile s) (isTraining s) (trainMessage s)
    (isRequestingPrediction s) (predictionStartTs s) (predictions s)
    (predictionMessage s).

Definition setCollectionStartTs (v : option Z) (s : State) : State :=
  mkState (factoryName s) (medicineName s) (factoryMedicineId s) (scriptText
    s) (isFetchingScript s) (collectionForm s) (isSubmittingCollection s) v
    (collectedEntries s) (csvFile s) (isTraining s) (trainMessage s)
    (isRequestingPrediction s) (predictionStartTs s) (predictions s)
    (predictionMessage s).

Definition setCollectedEntries (v : list JsVal) (s : State) : State :=
  mkState (factoryName s) (medicineName s) (factoryMedicineId s) (scriptText
    s) (isFetchingScript s) (collectionForm s) (isSubmittingCollection s)
    (collectionStartTs s) v (csvFile s) (isTraining s) (trainMessage s)
    (isRequestingPrediction s) (predictionStartTs s) (predictions s)
    (predictionMessage s).

Definition setCsvFile (v : option File) (s : State) : State :=
  mkState (factoryName s) (medicineName s) (factoryMedicineId s) (scriptText
    s) (isFetchingScript s) (collectionForm s) (isSubmittingCollection s)
    (collectionStartTs s) (collectedEntries s) v (isTraining s) (trainMessage
    s) (isRequestingPrediction s) (predictionStartTs s) (predictions s)
    (predictionMessage s).

Definition setIsTraining (v : bool) (s : State) : State :=
  mkState (factoryName s) (medicineName s) (factoryMedicineId s) (scriptText
    s) (isFetchingScript s) (collectionForm s) (isSubmittingCollection s)
    (collectionStartTs s) (collectedEntries s) (csvFile s) v (trainMessage s)
    (isRequestingPrediction s) (predictionStartTs s) (predictions s)
    (predictionMessage s).

Definition setTrainMessage (v : string) (s : State) : State :=
  mkState (factoryName s) (medicineName s) (factoryMedicineId s) (scriptText
    s) (isFetchingScript s) (collectionForm s) (isSubmittingCollection s)
    (collectionStartTs s) (collectedEntries s) (csvFile s) (isTraining s) v
    (isRequestingPrediction s) (predictionStartTs s) (predictions s)
    (predictionMessage s).

Definition setIsRequestingPrediction (v : bool) (s : State) : State :=
  mkState (factoryName s) (medicineName s) (factoryMedicineId s) (scriptText
    s) (isFetchingScript s) (collectionForm s) (isSubmittingCollection s)
    (collectionStartTs s) (collectedEntries s) (csvFile s) (isTraining s)
    (trainMessage s) v (predictionStartTs s) (predictions s)
    (predictionMessage s).

Definition setPredictionStartTs (v : option Z) (s : State) : State :=
  mkState (factoryName s) (medicineName s) (factoryMedicineId s) (scriptText
    s) (isFetchingScript s) (collectionForm s) (isSubmittingCollection s)
    (collectionStartTs s) (collectedEntries s) (csvFile s) (isTraining s)
    (trainMessage s) (isRequestingPrediction s) v (predictions s)
    (predictionMessage s).

Definition setPredictions (v : list JsVal) (s : State) : State :=
  mkState (factoryName s) (medicineName s) (factoryMedicineId s) (scriptText
    s) (isFetchingScript s) (collectionForm s) (isSubmittingCollection s)
    (collectionStartTs s) (collectedEntries s) (csvFile s) (isTraining s)
    (trainMessage s) (isRequestingPrediction s) (predictionStartTs s) v
    (predictionMessage s).

Definition setPredictionMessage (v : string) (s : State) : State :=
  mkState (factoryName s) (medicineName s) (factoryMedicineId s) (scriptText
    s) (isFetchingScript s) (collectionForm s) (isSubmittingCollection s)
    (collectionStartTs s) (collectedEntries s) (csvFile s) (isTraining s)
    (trainMessage s) (isRequestingPrediction s) (predictionStartTs s)
    (predictions s) v.

Definition initialForm : list (string * JsNumber) :=
  [("taste_sweet", num 0); ("taste_salty", num 0); ("taste_bitter", num 0);
   ("taste_sour", num 0); ("taste_umami", num 0); ("quality", num 0);
   ("dilution", num 0)].

Definition initialState : State :=
  mkState "" "" "" "" false initialForm false None [] None false "" false None
    [] "".

(** ** The world around the component *)

Inductive Method : Type := GET | POST.

Inductive Endpoint : Type := Shell | Picron | Getdata | Train | Predict.

(** A request: [fetch(`${BASE_URL}/<endpoint>/${rid}`, {method, body})]. *)
Record Request : Type := mkRequest {
  meth : Method;
  endpoint : Endpoint;
  rid : string;
  body : option JsVal
}.

Definition BASE_URL : string := "https://photontroppers.onrender.com".

Definition path (e : Endpoint) : string :=
  match e with
  | Shell => "/shell/"
  | Picron => "/picron/"
  | Getdata => "/getdata/"
  | Train => "/train/"
  | Predict => "/predict/"
  end.

(** The URL the request goes to. *)
Definition url (r : Request) : string := BASE_URL ++ path (endpoint r) ++ rid r.

(** A response: its status and what [res.text()] and [res.json()] give. *)
Record Response : Type := mkResponse {
  status : nat;
  text : Result string;
  json : Result JsVal
}.

(** [res.ok] *)
Definition ok (r : Response) : bool :=
  (200 <=? status r)%nat && (status r <=? 299)%nat.

(** How an awaited [fetch] ends. *)
Inductive Outcome : Type :=
| Resolved (r : Response)
| Rejected (e : JsError).

(** What the component does to the outside, in order. *)
Inductive Effect : Type :=
| Fetched (r : Request)
| Alerted (msg : string)
| ConsoleError (e : JsError)
| ConsoleWarn (msg : string) (e : JsError)
| IntervalSet (id : positive) (ms : Z)
| IntervalCleared (id : positive)
| TimeoutSet (ms : Z).

(** An async function suspended at an [await fetch(...)], with the values
    its closure holds: the state of the render that created the handler,
    and for the prediction the local [startTs]. *)
Inductive Task : Type :=
| AwaitShell (snap : State)
| AwaitSubmit (snap : State)
| AwaitGetdata (snap : State)
| AwaitStatus (snap : State)
| AwaitTrain (snap : State)
| AwaitPredictPost (snap : State) (startTs : Z)
| AwaitPredictGet (snap : State) (startTs : Z).

(** A running [setInterval(singleIteration, 15 * 1000)]. *)
Record Interval : Type := mkInterval {
  iid : positive;
  isnap : State;
  idue : Z
}.

(** A pending [setTimeout(..., 15 * 1000)] of [requestPredictionMode]. *)
Record Timeout : Type := mkTimeout {
  tsnap : State;
  tstart : Z;
  tdue : Z
}.

Inductive Phase : Type := Fresh | Live | Gone.

Record World : Type := mkWorld {
  ui : State;
  phase : Phase;
  pollingRef : option positive;
  intervals : list Interval;
  timeouts : list Timeout;
  pending : list Task;
  nextTimer : positive;
  clock : Z;
  log : list (Z * Effect)
}.

Definition Cmd : Type := World -> World.

Definition seq (c1 c2 : Cmd) : Cmd := fun w => c2 (c1 w).
Notation "c1 ;; c2" := (seq c1 c2) (at level 61, right associativity).

Definition skip : Cmd := fun w => w.

(** A state setter: [setX(v)] is [setState (setX v)], [setX(f)] with an
    updater reads the state of the moment. *)
Definition setState (f : State -> State) : Cmd :=
  fun w => mkWorld (f (ui w)) (phase w) (pollingRef w) (intervals w)
             (timeouts w) (pending w) (nextTimer w) (clock w) (log w).

Definition setPhase (p : Phase) : Cmd :=
  fun w => mkWorld (ui w) p (pollingRef w) (intervals w) (timeouts w)
             (pending w) (nextTimer w) (clock w) (log w).

Definition setPollingRef (r : option positive) : Cmd :=
  fun w => mkWorld (ui w) (phase w) r (intervals w) (timeouts w) (pending w)
             (nextTimer w) (clock w) (log w).

Definition setPending (p : list Task) : Cmd :=
  fun w => mkWorld (ui w) (phase w) (pollingRef w) (intervals w) (timeouts w)
             p (nextTimer w) (clock w) (log w).

Definition setIntervals (l : list Interval) : Cmd :=
  fun w => mkWorld (ui w) (phase w) (pollingRef w) l (timeouts w) (pending w)
             (nextTimer w) (clock w) (log w).

Definition setTimeouts (l : list Timeout) : Cmd :=
  fun w => mkWorld (ui w) (phase w) (pollingRef w) (intervals w) l (pending w)
             (nextTimer w) (clock w) (log w).

Definition setClock (t : Z) : Cmd :=
  fun w => mkWorld (ui w) (phase w) (pollingRef w) (intervals w) (timeouts w)
             (pending w) (nextTimer w) t (log w).

Definition emit (e : Effect) : Cmd :=
  fun w => mkWorld (ui w) (phase w) (pollingRef w) (intervals w) (timeouts w)
             (pending w) (nextTimer w) (clock w)
             (log w ++ [(clock w, e)])%list.

Definition alert (msg : string) : Cmd := emit (Alerted msg).

(** [await fetch(r)]: the request goes out and the function is suspended. *)
Definition fetch (r : Request) (k : Task) : Cmd :=
  emit (Fetched r) ;; fun w => setPending (pending w ++ [k])%list w.

Definition PERIOD : Z := 15 * 1000.

(** [setInterval(singleIteration, 15 * 1000)], then [k] with the handle. *)
Definition setInterval (snap : State) (k : positive -> Cmd) : Cmd :=
  fun w =>
    let id := nextTimer w in
    k id
      (emit (IntervalSet id PERIOD)
         (mkWorld (ui w) (phase w) (pollingRef w)
            (intervals w ++ [mkInterval id snap (clock w + PERIOD)])%list
            (timeouts w) (pending w) (Pos.succ id) (clock w) (log w))).

Definition clearInterval (id : positive) : Cmd :=
  emit (IntervalCleared id) ;;
  fun w => setIntervals
             (filter (fun iv => negb (Pos.eqb (iid iv) id)) (intervals w)) w.

(** [setTimeout(..., 15 * 1000)] *)
Definition setTimeout (snap : State) (startTs : Z) : Cmd :=
  emit (TimeoutSet PERIOD) ;;
  fun w => setTimeouts
             (timeouts w ++ [mkTimeout snap startTs (clock w + PERIOD)])%list w.

(** [${err.message || err}] *)
Definition errText (e : JsError) : string :=
  if truthyStr (emessage e) then emessage e else ename e.

(** [`${res.status}`] *)
Definition showNat (n : nat) : string := NilZero.string_of_uint (Nat.to_uint n).

(** [await res.text().catch(() => "")] *)
Definition textOrEmpty (r : Response) : string :=
  match text r with
  | Ok t => t
  | Threw _ => ""
  end.

(** [new Error(msg)] *)
Definition newError (msg : string) : JsError := mkError "Error" msg.

(** ** The handlers of [AnalysisPage]

    Every handler takes [snap], the state of the render that created it:
    the values its closure reads.  A state setter acts on the state of the
    moment.  An async handler is cut at each [await fetch(...)]: the part
    before it, and a [resume...] that takes how the fetch ended; reading the
    body ([res.text()], [res.json()]) is part of that end.  [downloadScript]
    and the clipboard button touch neither the state nor the network; they
    come with the rendered page, further down. *)

Section Handlers.
Context {H : Host}.

Definition MSG_NO_ID : string :=
  "Please set factory and medicine name on Home page first.".

(** *** Mount and unmount effects *)

(** [localStorage.getItem(k) || ""] *)
Definition orEmpty (x : option string) : string :=
  match x with
  | Some s => if truthyStr s then s else ""
  | None => ""
  end.

(** [useEffect(() => {...}, [])], the first one. *)
Definition mountEffect (lsFactory lsMedicine : option string) : Cmd :=
  let f := orEmpty lsFactory in
  let m := orEmpty lsMedicine in
  setState (setFactoryName f) ;;
  setState (setMedicineName m) ;;
  if truthyStr f && truthyStr m
  then setState (setFactoryMedicineId (f ++ "_" ++ m))
  else skip.

(** [useEffect(() => {...}, [factoryName, medicineName])] *)
Definition namesEffect (snap : State) : Cmd :=
  if truthyStr (factoryName snap) && truthyStr (medicineName snap)
  then setState
         (setFactoryMedicineId (factoryName snap ++ "_" ++ medicineName snap))
  else skip.

Definition depsChanged (old new : State) : bool :=
  negb (String.eqb (factoryName old) (factoryName new)
        && String.eqb (medicineName old) (medicineName new)).

(** The first commit runs both effects with the first render's values; the
    render that follows runs the second again when its dependencies
    changed. *)
Definition mount (lsFactory lsMedicine : option string) : Cmd :=
  fun w =>
    let snap0 := ui w in
    let w1 := (mountEffect lsFactory lsMedicine ;; namesEffect snap0) w in
    let snap1 := ui w1 in
    (if depsChanged snap0 snap1 then namesEffect snap1 else skip)
      (setPhase Live w1).

(** [if (pollingRef.current) { clearInterval(...); pollingRef.current = null }] *)
Definition clearPolling : Cmd :=
  fun w =>
    match pollingRef w with
    | Some id => (clearInterval id ;; setPollingRef None) w
    | None => w
    end.

(** The cleanup of the third effect. *)
Definition unmount : Cmd := clearPolling ;; setPhase Gone.

(** *** Step 1: the init script *)

Definition failShell (e : JsError) : Cmd :=
  emit (ConsoleError e) ;;
  setState (setScriptText ("# Error fetching script: " ++ errText e)).

Definition fetchShellScript (snap : State) : Cmd :=
  if negb (truthyStr (factoryMedicineId snap)) then alert MSG_NO_ID
  else
    setState (setIsFetchingScript true) ;;
    setState (setScriptText "") ;;
    fetch (mkRequest GET Shell (factoryMedicineId snap) None) (AwaitShell snap).

Definition resumeShell (snap : State) (o : Outcome) : Cmd :=
  match o with
  | Resolved res =>
      if negb (ok res) then
        failShell (newError ("Failed to fetch script (" ++ showNat (status res)
                             ++ "): " ++ textOrEmpty res))
      else
        match text res with
        | Ok txt =>
            setState (setScriptText
                        (if truthyStr txt then txt
                         else "# (empty script returned)"))
        | Threw e => failShell e
        end
  | Rejected e => failShell e
  end ;;
  setState (setIsFetchingScript false).

(** *** Step 2: data collection *)

Definition handleCollectionChange (name value : string) : Cmd :=
  setState (fun s =>
    setCollectionForm (setProp name (Number (JStr value)) (collectionForm s)) s).

(** What [JSON.stringify] writes for a number: [null] unless finite. *)
Definition jsonOfNum (n : JsNumber) : JsVal :=
  match n with
  | Fin q => JNum (Fin q)
  | _ => JNull
  end.

(** [factoryName || ""] *)
Definition factoryOrEmpty (snap : State) : string :=
  if truthyStr (factoryName snap) then factoryName snap else "".

(** The document [JSON.stringify({...collectionForm, status: 1, factory})]
    denotes. *)
Definition collectionPayload (snap : State) : JsVal :=
  JObj (setProp "factory" (JStr (factoryOrEmpty snap))
          (setProp "status" (JNum (num 1))
             (map (fun kv => (fst kv, jsonOfNum (snd kv)))
                (collectionForm snap)))).

Definition singleIteration (snap : State) : Cmd :=
  fetch (mkRequest GET Getdata (factoryMedicineId snap) None)
    (AwaitGetdata snap).

Definition pollForDataAndStatus (snap : State) : Cmd :=
  clearPolling ;;
  singleIteration snap ;;
  setInterval snap (fun id => setPollingRef (Some id)).

Definition failSubmit (e : JsError) : Cmd :=
  emit (ConsoleError e) ;;
  alert "Error submitting data collection. See console for details.".

Definition submitCollection (snap : State) : Cmd :=
  if negb (truthyStr (factoryMedicineId snap)) then alert MSG_NO_ID
  else
    setState (setIsSubmittingCollection true) ;;
    setState (setCollectedEntries []) ;;
    (fun w => setState (setCollectionStartTs (Some (clock w))) w) ;;
    setState (fun s => setCollectionForm (collectionForm s) s) ;;
    fetch (mkRequest POST Picron (factoryMedicineId snap)
             (Some (collectionPayload snap)))
      (AwaitSubmit snap).

Definition resumeSubmit (snap : State) (o : Outcome) : Cmd :=
  match o with
  | Resolved res =>
      if negb (ok res) then
        failSubmit (newError ("Failed to submit: " ++ showNat (status res)
                              ++ " " ++ textOrEmpty res))
      else pollForDataAndStatus snap
  | Rejected e => failSubmit e
  end ;;
  setState (setIsSubmittingCollection false).

Definition nonEmpty (A : Type) (l : list A) : bool :=
  match l with
  | [] => false
  | _ => true
  end.

(** The first [try] of [singleIteration], from the [/getdata] response on,
    then the fetch of the second. *)
Definition resumeGetdata (snap : State) (o : Outcome) : Cmd :=
  match o with
  | Resolved res =>
      if ok res then
        match json res with
        | Ok gd =>
            match filterEntries (collectionStartTs snap) (asArray gd) with
            | Ok filtered =>
                if nonEmpty filtered then
                  setState (fun prev =>
                    setCollectedEntries (collectedEntries prev ++ filtered)%list
                      prev)
                else skip
            | Threw e => emit (ConsoleWarn "getdata fetch failed" e)
            end
        | Threw e => emit (ConsoleWarn "getdata fetch failed" e)
        end
      else skip
  | Rejected e => emit (ConsoleWarn "getdata fetch failed" e)
  end ;;
  fetch (mkRequest GET Picron (factoryMedicineId snap) None)
    (AwaitStatus snap).

(** [pdata && (pdata.status ?? pdata.status_code ?? null)] *)
Definition statusValue (pdata : JsVal) : Result JsVal :=
  if negb (truthy pdata) then Ok pdata
  else
    match readProp pdata "status" with
    | Threw x => Threw x
    | Ok a =>
        if negb (nullish a) then Ok a
        else
          match readProp pdata "status_code" with
          | Threw x => Threw x
          | Ok b => Ok (jsCoalesce b JNull)
          end
    end.

(** [status !== null && Number(status) === 0] *)
Definition isDone (st : JsVal) : bool :=
  match st with
  | JNull => false
  | _ => isZeroNum (Number st)
  end.

(** The second [try] of [singleIteration], from the [/picron] response on. *)
Definition resumeStatus (snap : State) (o : Outcome) : Cmd :=
  match o with
  | Resolved res =>
      if ok res then
        match json res with
        | Ok pdata =>
            match statusValue pdata with
            | Ok st => if isDone st then clearPolling else skip
            | Threw e => emit (ConsoleWarn "picron status fetch failed" e)
            end
        | Threw e => emit (ConsoleWarn "picron status fetch failed" e)
        end
      else skip
  | Rejected e => emit (ConsoleWarn "picron status fetch failed" e)
  end.

Definition handleCsvSelect (f : option File) : Cmd := setState (setCsvFile f).

(** *** Step 3: model training

    The [trainUrl] built from [TRAIN_URL_TEMPLATE] is never used; the
    request goes to [/train/${factoryMedicineId}] and carries no body. *)

Definition TRAIN_URL_TEMPLATE : string := BASE_URL ++ "/train/train/".

(** [`${TRAIN_URL_TEMPLATE}${factoryMedicineId || factoryName}`] *)
Definition trainUrl (snap : State) : string :=
  TRAIN_URL_TEMPLATE
  ++ (if truthyStr (factoryMedicineId snap) then factoryMedicineId snap
      else factoryName snap).

Definition failTrain (e : JsError) : Cmd :=
  emit (ConsoleError e) ;;
  setState (setTrainMessage ("Error starting training: " ++ errText e)).

Definition startModelTraining (snap : State) : Cmd :=
  if negb (truthyStr (factoryName snap))
     && negb (truthyStr (factoryMedicineId snap))
  then alert "Factory/medicine not set. Please set them on Home page."
  else
    match csvFile snap with
    | None => alert "Please upload a CSV file first."
    | Some _ =>
        setState (setIsTraining true) ;;
        setState (setTrainMessage "") ;;
        fetch (mkRequest POST Train (factoryMedicineId snap) None)
          (AwaitTrain snap)
    end.

Definition resumeTrain (snap : State) (o : Outcome) : Cmd :=
  match o with
  | Resolved res =>
      if negb (ok res) then
        failTrain (newError ("Training request failed: "
                             ++ showNat (status res) ++ " " ++ textOrEmpty res))
      else setState (setTrainMessage "Model training started successfully.")
  | Rejected e => failTrain e
  end ;;
  setState (setIsTraining false).

(** *** Step 4: prediction *)

Definition predictionPayload (snap : State) : JsVal :=
  JObj [("taste_sweet", JNum (num 0)); ("taste_salty", JNum (num 0));
        ("taste_bitter", JNum (num 0)); ("taste_sour", JNum (num 0));
        ("taste_umami", JNum (num 0)); ("quality", JNum (num 0));
        ("dilution", JNum (num 0)); ("status", JNum (num 2));
        ("factory", JStr (factoryOrEmpty snap))].

Definition requestPredictionMode (snap : State) : Cmd :=
  if negb (truthyStr (factoryMedicineId snap)) then alert MSG_NO_ID
  else
    setState (setIsRequestingPrediction true) ;;
    setState (setPredictions []) ;;
    setState (setPredictionMessage "") ;;
    fun w =>
      let startTs := clock w in
      (setState (setPredictionStartTs (Some startTs)) ;;
       fetch (mkRequest POST Picron (factoryMedicineId snap)
                (Some (predictionPayload snap)))
         (AwaitPredictPost snap startTs)) w.

Definition failPredictPost (e : JsError) : Cmd :=
  emit (ConsoleError e) ;;
  setState (setPredictionMessage
              ("Error requesting prediction mode: " ++ errText e)) ;;
  setState (setIsRequestingPrediction false).

Definition resumePredictPost (snap : State) (startTs : Z) (o : Outcome) : Cmd :=
  match o with
  | Resolved res =>
      if negb (ok res) then
        failPredictPost
          (newError ("Failed to request prediction mode: "
                     ++ showNat (status res) ++ " " ++ textOrEmpty res))
      else setTimeout snap startTs
  | Rejected e => failPredictPost e
  end.

(** The callback of the [setTimeout], up to its [await fetch]. *)
Definition predictionCallback (snap : State) (startTs : Z) : Cmd :=
  fetch (mkRequest GET Predict (factoryMedicineId snap) None)
    (AwaitPredictGet snap startTs).

Definition failPredictGet (e : JsError) : Cmd :=
  emit (ConsoleError e) ;;
  setState (setPredictionMessage ("Error fetching prediction: " ++ errText e)).

Definition resumePredictGet (snap : State) (startTs : Z) (o : Outcome) : Cmd :=
  match o with
  | Resolved res =>
      if negb (ok res) then
        failPredictGet
          (newError ("Failed to fetch prediction: " ++ showNat (status res)
                     ++ " " ++ textOrEmpty res))
      else
        match json res with
        | Ok pred =>
            match filterEntries (Some startTs) (asArray pred) with
            | Ok filtered =>
                setState (setPredictions filtered) ;;
                setState (setPredictionMessage "Prediction fetched.")
            | Threw e => failPredictGet e
            end
        | Threw e => failPredictGet e
        end
  | Rejected e => failPredictGet e
  end ;;
  setState (setIsRequestingPrediction false).

(** ** The event loop

    One event at a time: the page renders between two events, so a handler
    that starts on an event reads the state the events before it left.
    Fetches in flight and timers outlive the page; the state of a page that
    is gone is still written, and no longer looked at. *)

(** What can happen next: the user acts on the rendered page, a fetch
    ends, a timer is due, time passes, the page goes away.
    [requestPredictionMode] has no button; [CallPrediction] is its call. *)
Inductive Event : Type :=
| Mount (lsFactory lsMedicine : option string)
| ClickFetchScript
| ChangeInput (name value : string)
| ClickSubmit
| SelectCsv (f : option File)
| ClickTrain
| CallPrediction
| Settle (i : nat) (o : Outcome)
| IntervalFires (id : positive)
| TimeoutFires (i : nat)
| Unmount
| Tick (d : N).

Fixpoint removeNth (A : Type) (i : nat) (l : list A) : list A :=
  match l, i with
  | [], _ => []
  | _ :: rest, O => rest
  | x :: rest, S j => x :: removeNth j rest
  end.

Definition resume (t : Task) (o : Outcome) : Cmd :=
  match t with
  | AwaitShell snap => resumeShell snap o
  | AwaitSubmit snap => resumeSubmit snap o
  | AwaitGetdata snap => resumeGetdata snap o
  | AwaitStatus snap => resumeStatus snap o
  | AwaitTrain snap => resumeTrain snap o
  | AwaitPredictPost snap startTs => resumePredictPost snap startTs o
  | AwaitPredictGet snap startTs => resumePredictGet snap startTs o
  end.

(** [csvFile] is truthy. *)
Definition hasFile (s : State) : bool :=
  match csvFile s with
  | Some _ => true
  | None => false
  end.

Definition isLive (w : World) : bool :=
  match phase w with
  | Live => true
  | _ => false
  end.

Definition findInterval (id : positive) (l : list Interval) : option Interval :=
  find (fun iv => Pos.eqb (iid iv) id) l.

(** The interval comes due again one period later. *)
Definition rearm (id : positive) : Cmd :=
  fun w =>
    setIntervals
      (map (fun iv => if Pos.eqb (iid iv) id
                      then mkInterval (iid iv) (isnap iv) (idue iv + PERIOD)
                      else iv) (intervals w)) w.

(** One event.  [None] when it cannot happen in [w]: a button that the
    render of [w] disables, a timer that is not due, a fetch that is not
    in flight.  A handler runs with the state of the last render. *)
Definition step (w : World) (e : Event) : option World :=
  let snap := ui w in
  match e with
  | Mount f m =>
      match phase w with
      | Fresh => Some (mount f m w)
      | _ => None
      end
  | ClickFetchScript =>
      if isLive w && truthyStr (factoryMedicineId snap)
         && negb (isFetchingScript snap)
      then Some (fetchShellScript snap w) else None
  | ChangeInput name value =>
      if isLive w then Some (handleCollectionChange name value w) else None
  | ClickSubmit =>
      if isLive w && negb (isSubmittingCollection snap)
         && truthyStr (factoryMedicineId snap)
      then Some (submitCollection snap w) else None
  | SelectCsv f =>
      if isLive w then Some (handleCsvSelect f w) else None
  | ClickTrain =>
      if isLive w && hasFile snap && negb (isTraining snap)
      then Some (startModelTraining snap w) else None
  | CallPrediction =>
      if isLive w then Some (requestPredictionMode snap w) else None
  | Settle i o =>
      match nth_error (pending w) i with
      | Some t => Some (resume t o (setPending (removeNth i (pending w)) w))
      | None => None
      end
  | IntervalFires id =>
      match findInterval id (intervals w) with
      | Some iv =>
          if Z.leb (idue iv) (clock w)
          then Some ((rearm id ;; singleIteration (isnap iv)) w)
          else None
      | None => None
      end
  | TimeoutFires i =>
      match nth_error (timeouts w) i with
      | Some t =>
          if Z.leb (tdue t) (clock w)
          then Some (predictionCallback (tsnap t) (tstart t)
                       (setTimeouts (removeNth i (timeouts w)) w))
          else None
      | None => None
      end
  | Unmount =>
      if isLive w then Some (unmount w) else None
  | Tick d => Some (setClock (clock w + Z.of_N d) w)
  end.

Fixpoint run (w : World) (es : list Event) : option World :=
  match es with
  | [] => Some w
  | e :: rest =>
      match step w e with
      | Some w' => run w' rest
      | None => None
      end
  end.

(** The page before its first effects ran, at time [t0]. *)
Definition initialWorld (t0 : Z) : World :=
  mkWorld initialState Fresh None [] [] [] 1%positive t0 [].

Definition reachable (w : World) : Prop :=
  exists t0 es, run (initialWorld t0) es = Some w.
End Handlers.

(** ** The rendered page

    What [AnalysisPage] returns for the state [s] of a render: the controls,
    with the attributes that depend on the state and the handlers they
    call, and the texts that depend on it.  A handler closes over [s].
    Markup that is the same in every render is not part of it. *)

(** What a handler does to the document and the browser, besides the
    effects of the world above. *)
Inductive DomEffect : Type :=
| CreateObjectURL (parts : list string) (type : string)
| AppendAnchor (download : string)
| ClickAnchor
| RemoveAnchor
| RevokeObjectURL
| ClipboardWrite (content : string).

(** [factoryMedicineId || "script"], then [.sh] *)
Definition scriptFilename (snap : State) : string :=
  (if truthyStr (factoryMedicineId snap) then factoryMedicineId snap
   else "script") ++ ".sh".

(** [downloadScript]: nothing without a script; else a blob of the script
    text, an anchor on its URL that is appended, clicked and removed, and
    the URL revoked. *)
Definition downloadScript (snap : State) : list DomEffect :=
  if negb (truthyStr (scriptText snap)) then []
  else [CreateObjectURL [scriptText snap] "text/x-sh;charset=utf-8";
        AppendAnchor (scriptFilename snap);
        ClickAnchor; RemoveAnchor; RevokeObjectURL].

(** The handler of the Copy button: the clipboard write, then the alert. *)
Definition copyScript (snap : State) : list DomEffect * Cmd :=
  ([ClipboardWrite (scriptText snap)], alert "Script copied to clipboard!").

(** The line feed. *)
Definition LF : string := String "010"%char EmptyString.

(** [`chmod +x ${factoryMedicineId}.sh\n./${factoryMedicineId}.sh`] *)
Definition runHint (snap : State) : string :=
  "chmod +x " ++ factoryMedicineId snap ++ ".sh" ++ LF
  ++ "./" ++ factoryMedicineId snap ++ ".sh".

(** A button as rendered: its text, its [disabled] attribute, its class
    and the handler of its [onClick]. *)
Record Button : Type := mkButton {
  caption : string;
  disabled : bool;
  className : string;
  onClick : Cmd
}.

(** A text input of the form; [ivalue] is [collectionForm[f.name]], [None]
    for [undefined]. *)
Record Input : Type := mkInput {
  ilabel : string;
  iname : string;
  ivalue : option JsNumber;
  onChange : string -> Cmd
}.

(** What [scriptText && (...)] shows under the buttons of step 1. *)
Record ScriptPanel : Type := mkScriptPanel {
  shown : string;
  onCopy : list DomEffect * Cmd;
  instructions : string
}.

(** The page.  [headerId] and [introId] are the identifier or the words
    that stand for a missing one; [downloadButton] is [None] when the
    button is not rendered, else what a click on it does; [started] is the
    instant whose local date follows [Started:], when there is one;
    [recentData] is the entries that are printed as JSON, [None] when the
    page says [No data yet.]; [onFile] is the handler of the file input;
    [trainText] is the training message. *)
Record View : Type := mkView {
  headerId : string;
  introId : string;
  fetchButton : Button;
  downloadButton : option (list DomEffect);
  scriptPanel : option ScriptPanel;
  inputs : list Input;
  submitButton : Button;
  started : option Z;
  recentData : option (list JsVal);
  onFile : option File -> Cmd;
  trainButton : Button;
  trainText : string
}.

(** [`px-4 py-2 rounded-lg font-medium ${on ? ... : ...}`] *)
Definition buttonClass (on : bool) : string :=
  "px-4 py-2 rounded-lg font-medium "
  ++ (if on then "bg-green-700 text-white hover:bg-green-800"
      else "bg-gray-200 text-gray-500 cursor-not-allowed").

(** The fields that [renderCollectionInputs] lists, each with its label. *)
Definition FIELDS : list (string * string) :=
  [("taste_sweet", "Sweet"); ("taste_salty", "Salty");
   ("taste_bitter", "Bitter"); ("taste_sour", "Sour");
   ("taste_umami", "Umami"); ("quality", "Quality");
   ("dilution", "Dilution")].

Section Render.
Context {H : Host}.

(** One input per field, with the value the form holds for it. *)
Definition renderCollectionInputs (s : State) : list Input :=
  map (fun f => mkInput (snd f) (fst f) (getProp (fst f) (collectionForm s))
                  (handleCollectionChange (fst f)))
    FIELDS.

(** The [return (...)] of [AnalysisPage]. *)
Definition render (s : State) : View :=
  mkView
    (if truthyStr (factoryMedicineId s) then factoryMedicineId s
     else "not set")
    (if truthyStr (factoryMedicineId s) then factoryMedicineId s
     else "(set names on Home)")
    (mkButton
       (if isFetchingScript s then "Fetching..." else "Get Init Script")
       (negb (truthyStr (factoryMedicineId s)) || isFetchingScript s)
       (buttonClass
          (truthyStr (factoryMedicineId s) && negb (isFetchingScript s)))
       (fetchShellScript s))
    (if truthyStr (scriptText s) then Some (downloadScript s) else None)
    (if truthyStr (scriptText s)
     then Some (mkScriptPanel (scriptText s) (copyScript s) (runHint s))
     else None)
    (renderCollectionInputs s)
    (mkButton
       (if isSubmittingCollection s then "Submitting..."
        else "Submit Collection (status=1)")
       (isSubmittingCollection s || negb (truthyStr (factoryMedicineId s)))
       (buttonClass
          (negb (isSubmittingCollection s)
           && truthyStr (factoryMedicineId s)))
       (submitCollection s))
    (match collectionStartTs s with
     | Some t => if Z.eqb t 0 then None else Some t
     | None => None
     end)
    (if nonEmpty (collectedEntries s) then Some (collectedEntries s)
     else None)
    handleCsvSelect
    (mkButton
       (if isTraining s then "Starting training..."
        else "Start Model Training")
       (negb (hasFile s) || isTraining s)
       (buttonClass (hasFile s && negb (isTraining s)))
       (startModelTraining s))
    (trainMessage s).
End Render.

(** ** A host for the examples

    It reads decimal integers as [Number] does and knows one ISO date, as
    every engine does; a number prints in decimal.  The theorems below hold
    for every host; this one only feeds the examples. *)
Module Sample.
Definition digit (c : ascii) : option Z :=
  let n := nat_of_ascii c in
  if ((48 <=? n) && (n <=? 57))%nat then Some (Z.of_nat (n - 48)) else None.

Fixpoint digits (s : string) (acc : Z) : option Z :=
  match s with
  | EmptyString => Some acc
  | String c rest =>
      match digit c with
      | Some d => digits rest (10 * acc + d)
      | None => None
      end
  end.

Definition stringToNumber (s : string) : JsNumber :=
  match digits s 0 with
  | Some z => num z
  | None => NaN
  end.

Definition dateParse (s : string) : JsNumber :=
  if String.eqb s "2024-01-01T00:00:00.000Z" then num 1704067200000 else NaN.

Definition numberToString (n : JsNumber) : string :=
  match n with
  | NaN => "NaN"
  | PosInf => "Infinity"
  | NegInf => "-Infinity"
  | Fin q => NilZero.string_of_int (Z.to_int (Qnum q / Zpos (Qden q)))
  end.

Definition host : Host := Build_Host dateParse stringToNumber numberToString.
End Sample.

(** ** Data for the examples *)

(** The scenario of the specification: ACME and Tonic1 in local storage. *)
Definition acmeTonic : list Event := [Mount (Some "ACME") (Some "Tonic1")].

(** A factory name in local storage, no medicine name, and a CSV file. *)
Definition acmeAlone : list Event :=
  [Mount (Some "ACME") None; SelectCsv (Some "readings.csv")].

(** A medicine name in local storage and no factory name. *)
Definition tonicAlone : list Event := [Mount None (Some "Tonic1")].

(** A record stamped with the first instant of 2024, in ISO format. *)
Definition newYearRecord : JsVal :=
  JObj [("dilution", JNum (num 50));
        ("timestamp", JStr "2024-01-01T00:00:00.000Z")].

(** A record whose timestamp no parser reads. *)
Definition garbledRecord : JsVal := JObj [("timestamp", JStr "not a date")].

(** A 200 answer whose body parses to [v]. *)
Definition okJson (v : JsVal) : Response := mkResponse 200 (Ok "") (Ok v).

(** A record a day older than the start of 2024. *)
Definition oldRecord : JsVal :=
  JObj [("dilution", JNum (num 50)); ("timestamp", JNum (num 1703980800000))].

(** A record with no timestamp. *)
Definition untimedRecord : JsVal := JObj [("dilution", JNum (num 50))].

(** The first submission of the scenario, clicked at the first instant of
    2024; its POST succeeds, and the first [/getdata] answer holds a record
    of the day before. *)
Definition firstSubmission : list Event :=
  (acmeTonic ++ [Tick 1704067200000; ClickSubmit;
                 Settle 0 (Resolved (okJson JNull));
                 Settle 0 (Resolved (okJson (JArr [oldRecord])))])%list.

(** An answer with status [n] and the body [t], which is not JSON. *)
Definition serverError (n : nat) (t : string) : Response :=
  mkResponse n (Ok t) (Threw (mkError "SyntaxError" "Unexpected token")).

(** The world a run from time 0 ends in, with the host of the examples. *)
Definition final (es : list Event) : World :=
  match run (H := Sample.host) (initialWorld 0) es with
  | Some w => w
  | None => initialWorld 0
  end.

(** The page of the scenario after a submission whose POST succeeded: the
    first cycle's [/getdata] fetch is in flight and the interval runs. *)
Definition submitted : list Event :=
  (acmeTonic ++ [ChangeInput "dilution" "50"; ClickSubmit;
                 Settle 0 (Resolved (okJson JNull))])%list.

(** A status poll that says the collection is done: [{status: 0}]. *)
Definition doneAnswer : Outcome :=
  Resolved (okJson (JObj [("status", JNum (num 0))])).

(** A 200 answer whose body is the text [t], which is not JSON. *)
Definition okScript (t : string) : Response :=
  mkResponse 200 (Ok t) (Threw (mkError "SyntaxError" "Unexpected token")).

(** The page of the scenario with the init script it fetched. *)
Definition scriptFetched : list Event :=
  (acmeTonic ++ [ClickFetchScript;
                 Settle 0 (Resolved (okScript "echo start"))])%list.

(** A [/getdata] answer with no record. *)
Definition noData : Outcome := Resolved (okJson (JArr [])).

(** The first cycle got no data and waits for the status. *)
Definition oneCycle : list Event := (submitted ++ [Settle 0 noData])%list.

(** The same, with the answer that the collection is done. *)
Definition afterDone : list Event :=
  (oneCycle ++ [Settle 0 doneAnswer])%list.

(** What follows: time passes, a new submission is clicked, and its POST
    fails. *)
Definition afterwards : list Event :=
  [Tick 15000; ClickSubmit; Settle 0 (Resolved (serverError 503 "busy"));
   Tick 15000].

(** The interval fires while the first cycle still waits for [/getdata];
    then the first cycle gets its data and asks for the status. *)
Definition overlappingCycles : list Event :=
  (submitted ++ [Tick 15000; IntervalFires 1; Settle 0 noData])%list.

(** The first submission of the scenario with two cycles: the one the
    submission starts and the one the interval starts; each gets the record
    of the day before. *)
Definition twoCycles : list Event :=
  (firstSubmission
   ++ [Settle 0 noData; Tick 15000; IntervalFires 1;
       Settle 0 (Resolved (okJson (JArr [oldRecord])))])%list.

(** ** The vocabulary of the properties *)

Section Vocabulary.
Context {H : Host}.

(** [c] takes every world to one that [R] relates it to. *)
Definition respects (R : World -> World -> Prop) (c : Cmd) : Prop :=
  forall w, R w (c w).

(** What [factoryMedicineId] is, from the two names. *)
Definition derivedId (f m : string) : string :=
  if truthyStr f && truthyStr m then f ++ "_" ++ m else "".

(** The identifier is the derived one. *)
Definition idInv (s : State) : Prop :=
  factoryMedicineId s = derivedId (factoryName s) (medicineName s).

(** The two names and the identifier. *)
Definition names (w : World) : string * string * string :=
  (factoryName (ui w), medicineName (ui w), factoryMedicineId (ui w)).

(** Names, identifier and phase are untouched. *)
Definition sameNames (w w' : World) : Prop :=
  names w' = names w /\ phase w' = phase w.

(** Until the mount the three fields are empty. *)
Definition identityInv (w : World) : Prop :=
  idInv (ui w) /\ (phase w = Fresh -> names w = ("", "", "")).

(** A handler that turns the request down: it alerts, and neither the state
    nor the fetches in flight change. *)
Definition rejected (c : Cmd) (w : World) : Prop :=
  (exists msg, log (c w) = (log w ++ [(clock w, Alerted msg)])%list)
  /\ pending (c w) = pending w
  /\ ui (c w) = ui w.

(** A handler that sends [r], and nothing else, to the outside. *)
Definition sends (c : Cmd) (w : World) (r : Request) : Prop :=
  log (c w) = (log w ++ [(clock w, Fetched r)])%list.

(** [a < b] on numbers. *)
Definition ltNum (a b : JsNumber) : Prop :=
  match a, b with
  | Fin x, Fin y => (x < y)%Q
  | NegInf, Fin _ | NegInf, PosInf | Fin _, PosInf => True
  | _, _ => False
  end.

(** One polling cycle: the [/getdata] half, then the [/picron] half. *)
Definition pollCycle (snap : State) (getdata picron : Outcome) : Cmd :=
  resumeGetdata snap getdata ;; resumeStatus snap picron.

(** A fetch that failed: the transport rejected, or the status is not 2xx. *)
Definition failed (o : Outcome) : Prop :=
  match o with
  | Rejected _ => True
  | Resolved res => ok res = false
  end.

(** The alert of a failed submission. *)
Definition ALERT_SUBMIT : string :=
  "Error submitting data collection. See console for details.".

(** [sub] occurs in [s]. *)
Definition contains (sub s : string) : Prop :=
  exists pre post, s = pre ++ sub ++ post.

(** The training message of a 2xx answer. *)
Definition MSG_TRAIN_OK : string := "Model training started successfully.".

(** The handle that [pollingRef] holds, as a list. *)
Definition refIds (w : World) : list positive :=
  match pollingRef w with
  | Some id => [id]
  | None => []
  end.

(** The running intervals are the one [pollingRef] holds, if any, and handles
    are fresh. *)
Definition timerInv (w : World) : Prop :=
  map iid (intervals w) = refIds w
  /\ Forall (fun iv => (iid iv < nextTimer w)%positive) (intervals w).

(** The timer is untouched. *)
Definition sameTimers (w w' : World) : Prop :=
  pollingRef w' = pollingRef w
  /\ intervals w' = intervals w
  /\ nextTimer w' = nextTimer w.

(** What an event does to the polling timer. *)
Inductive TimerKind : Type := Stops | Restarts | Keeps.

(** The tasks that never touch the timer. *)
Definition timerFree (t : Task) : bool :=
  match t with
  | AwaitSubmit _ | AwaitStatus _ => false
  | _ => true
  end.

(** The answer to a status poll that says the collection is done:
    [pRes.ok], and [status !== null && Number(status) === 0] for the status
    read off the parsed body. *)
Definition statusZero (res : Response) : bool :=
  ok res
  && match json res with
     | Ok pdata =>
         match statusValue pdata with
         | Ok st => isDone st
         | Threw _ => false
         end
     | Threw _ => false
     end.

(** The page goes away: [Stops].  The POST of a submission succeeds:
    [Restarts].  A status poll answers that the collection is done:
    [Stops]. *)
Definition timerKind (w : World) (e : Event) : TimerKind :=
  match e with
  | Unmount => Stops
  | Settle i (Resolved res) =>
      match nth_error (pending w) i with
      | Some (AwaitSubmit _) => if ok res then Restarts else Keeps
      | Some (AwaitStatus _) => if statusZero res then Stops else Keeps
      | _ => Keeps
      end
  | _ => Keeps
  end.

(** How many entries of the log are [p]. *)
Definition count (p : Z * Effect -> bool) (l : list (Z * Effect)) : nat :=
  List.length (filter p l).

(** A call to [GET /getdata/{id}]. *)
Definition isGetdataCall (x : Z * Effect) : bool :=
  match snd x with
  | Fetched r =>
      match meth r, endpoint r with
      | GET, Getdata => true
      | _, _ => false
      end
  | _ => false
  end.

(** A status poll: a call to [GET /picron/{id}]. *)
Definition isStatusCall (x : Z * Effect) : bool :=
  match snd x with
  | Fetched r =>
      match meth r, endpoint r with
      | GET, Picron => true
      | _, _ => false
      end
  | _ => false
  end.

(** A polling call: one or the other. *)
Definition isPollFetch (x : Z * Effect) : bool :=
  isGetdataCall x || isStatusCall x.

Definition awaitsGetdata (t : Task) : bool :=
  match t with
  | AwaitGetdata _ => true
  | _ => false
  end.

Definition awaitsSubmit (t : Task) : bool :=
  match t with
  | AwaitSubmit _ => true
  | _ => false
  end.

(** The cycles in flight that have not asked for the status yet. *)
Definition inFlight (w : World) : nat :=
  List.length (filter awaitsGetdata (pending w)).

(** The event makes polling start again. *)
Definition restarts (w : World) (e : Event) : bool :=
  match timerKind w e with
  | Restarts => true
  | _ => false
  end.

(** No event of the run [es] from [w] makes polling start again. *)
Fixpoint noRestart (w : World) (es : list Event) : bool :=
  match es with
  | [] => true
  | e :: rest =>
      negb (restarts w e)
      && match step w e with
         | Some w' => noRestart w' rest
         | None => true
         end
  end.

(** From a world in which no interval runs: no interval, no call to
    [/getdata] on the way, and a status poll only for a cycle that was in
    flight. *)
Definition windsDown (w w' : World) : Prop :=
  intervals w = [] ->
  intervals w' = []
  /\ count isGetdataCall (log w') = count isGetdataCall (log w)
  /\ (count isStatusCall (log w') + inFlight w'
      = count isStatusCall (log w) + inFlight w)%nat.

(** The tasks of a collection: its POST and the two fetches of a cycle. *)
Definition pollTask (t : Task) : bool :=
  match t with
  | AwaitSubmit _ | AwaitGetdata _ | AwaitStatus _ => true
  | _ => false
  end.

(** The click on Submit. *)
Definition isSubmit (e : Event) : bool :=
  match e with
  | ClickSubmit => true
  | _ => false
  end.

(** An interval that ran in [w] no longer runs in [w']. *)
Definition cleared (w w' : World) : Prop :=
  exists iv, In iv (intervals w) /\ ~ In (iid iv) (map iid (intervals w')).

(** The POST of a submission comes back 2xx: polling restarts. *)
Definition restartsPolling (w : World) (e : Event) : Prop :=
  exists i snap res,
    e = Settle i (Resolved res)
    /\ nth_error (pending w) i = Some (AwaitSubmit snap)
    /\ ok res = true.

(** A status poll comes back with a status that is numerically 0. *)
Definition reportsDone (w : World) (e : Event) : Prop :=
  exists i snap res,
    e = Settle i (Resolved res)
    /\ nth_error (pending w) i = Some (AwaitStatus snap)
    /\ statusZero res = true.

(** [pdata.k] of an object. *)
Definition field (k : string) (props : list (string * JsVal)) : JsVal :=
  match getProp k props with
  | Some v => v
  | None => JUndefined
  end.

(** A prediction fetch: a request to [/predict/{id}]. *)
Definition isPredictGet (x : Z * Effect) : bool :=
  match snd x with
  | Fetched r =>
      match endpoint r with
      | Predict => true
      | _ => false
      end
  | _ => false
  end.

(** The scheduling of a timeout. *)
Definition isTimeoutSet (x : Z * Effect) : bool :=
  match snd x with
  | TimeoutSet _ => true
  | _ => false
  end.

(** Neither a prediction fetch nor the scheduling of one. *)
Definition plain (x : Z * Effect) : bool :=
  negb (isPredictGet x) && negb (isTimeoutSet x).

(** The pending timeouts are untouched, and what is added to the log is
    neither a prediction fetch nor the scheduling of one. *)
Definition samePrediction (w w' : World) : Prop :=
  timeouts w' = timeouts w
  /\ exists delta, log w' = (log w ++ delta)%list /\ forallb plain delta = true.

(** The one resumption that schedules a timeout: that of a prediction POST
    that came back 2xx. *)
Definition schedules (t : Task) (o : Outcome) : bool :=
  match t, o with
  | AwaitPredictPost _ _, Resolved res => ok res
  | _, _ => false
  end.

(** The prediction fetches so far and the timeouts still pending are the
    timeouts scheduled so far; a pending timeout was scheduled 15 seconds
    before it is due; a prediction fetch went out at least 15 seconds after
    a timeout was scheduled. *)
Definition predictionInv (w : World) : Prop :=
  (count isPredictGet (log w) + List.length (timeouts w))%nat
  = count isTimeoutSet (log w)
  /\ (forall t, In t (timeouts w) ->
      In (tdue t - PERIOD, TimeoutSet PERIOD)%Z (log w))
  /\ (forall c r, In (c, Fetched r) (log w) -> endpoint r = Predict ->
      exists c0, In (c0, TimeoutSet PERIOD) (log w) /\ (c0 + PERIOD <= c)%Z).

(** The delayed GET failed: the transport rejected, the status is not 2xx,
    the body is not JSON, or the filter threw on a record. *)
Definition getFailed (startTs : Z) (o : Outcome) : Prop :=
  match o with
  | Rejected _ => True
  | Resolved res =>
      ok res = false
      \/ (exists e, json res = Threw e)
      \/ (exists pred e, json res = Ok pred
                         /\ filterEntries (Some startTs) (asArray pred) = Threw e)
  end.

(** The parsed body of a 2xx status poll ends the polling. *)
Definition stopsOn (pdata : JsVal) : bool :=
  match statusValue pdata with
  | Ok st => isDone st
  | Threw _ => false
  end.

(** The callback of the filter returned something truthy. *)
Definition passes (startTs : option Z) (e : JsVal) : bool :=
  match keepEntry startTs e with
  | Ok true => true
  | _ => false
  end.

(** [null] or [undefined] *)
Definition isNullish (e : JsVal) : Prop := nullish e = true.

(** The callback returns, on every record of the list. *)
Definition allReturn (startTs : option Z) (entries : list JsVal) : Prop :=
  Forall (fun e => exists b, keepEntry startTs e = Ok b) entries.

(** An event that the user causes: the page is opened or left, a button is
    clicked, an input is changed, a file is selected. *)
Definition fromUser (e : Event) : bool :=
  match e with
  | Settle _ _ | IntervalFires _ | TimeoutFires _ | Tick _ => false
  | CallPrediction => false
  | _ => true
  end.

(** The character [c] occurs in [s]. *)
Fixpoint mentions (c : ascii) (s : string) : bool :=
  match s with
  | EmptyString => false
  | String a rest => Ascii.eqb a c || mentions c rest
  end.

(** The state in five parts: the identity and the four steps. *)
Inductive Part : Type := Names | Script | Collection | Training | Prediction.

(** The part [p] of the state is the same in [s'] as in [s]. *)
Definition samePart (p : Part) (s s' : State) : Prop :=
  match p with
  | Names =>
      factoryName s' = factoryName s /\ medicineName s' = medicineName s
      /\ factoryMedicineId s' = factoryMedicineId s
  | Script =>
      scriptText s' = scriptText s
      /\ isFetchingScript s' = isFetchingScript s
  | Collection =>
      collectionForm s' = collectionForm s
      /\ isSubmittingCollection s' = isSubmittingCollection s
      /\ collectionStartTs s' = collectionStartTs s
      /\ collectedEntries s' = collectedEntries s
  | Training =>
      csvFile s' = csvFile s /\ isTraining s' = isTraining s
      /\ trainMessage s' = trainMessage s
  | Prediction =>
      isRequestingPrediction s' = isRequestingPrediction s
      /\ predictionStartTs s' = predictionStartTs s
      /\ predictions s' = predictions s
      /\ predictionMessage s' = predictionMessage s
  end.

(** The part [p] of the state is the same after as before. *)
Definition keepsPart (p : Part) (w w' : World) : Prop :=
  samePart p (ui w) (ui w').

(** The step that a suspended function belongs to. *)
Definition partOfTask (t : Task) : Part :=
  match t with
  | AwaitShell _ => Script
  | AwaitSubmit _ | AwaitGetdata _ | AwaitStatus _ => Collection
  | AwaitTrain _ => Training
  | AwaitPredictPost _ _ | AwaitPredictGet _ _ => Prediction
  end.

(** The part that an event may write, if any. *)
Definition partOfEvent (w : World) (e : Event) : option Part :=
  match e with
  | Mount _ _ => Some Names
  | ClickFetchScript => Some Script
  | ChangeInput _ _ | ClickSubmit | IntervalFires _ => Some Collection
  | SelectCsv _ | ClickTrain => Some Training
  | CallPrediction | TimeoutFires _ => Some Prediction
  | Settle i _ => option_map partOfTask (nth_error (pending w) i)
  | Unmount | Tick _ => None
  end.

(** [f] reads the same in the world after as in the world before. *)
Definition keeps (A : Type) (f : World -> A) (w w' : World) : Prop :=
  f w' = f w.

(** The form of the collection step. *)
Definition formOf (w : World) : list (string * JsNumber) :=
  collectionForm (ui w).

(** A change event of one of the rendered inputs, or any other event. *)
Definition fromPage (e : Event) : bool :=
  match e with
  | ChangeInput name _ => existsb (String.eqb name) (map fst FIELDS)
  | _ => true
  end.

(** The three busy flags of the page. *)
Inductive Busy : Type := BusyScript | BusySubmit | BusyTrain.

(** The suspended function that clears the flag when its fetch ends. *)
Definition awaits (k : Busy) (t : Task) : bool :=
  match k, t with
  | BusyScript, AwaitShell _ => true
  | BusySubmit, AwaitSubmit _ => true
  | BusyTrain, AwaitTrain _ => true
  | _, _ => false
  end.

(** The flag itself. *)
Definition flag (k : Busy) (s : State) : bool :=
  match k with
  | BusyScript => isFetchingScript s
  | BusySubmit => isSubmittingCollection s
  | BusyTrain => isTraining s
  end.

(** How many requests of the button are in flight. *)
Definition waiting (k : Busy) (w : World) : nat :=
  List.length (filter (awaits k) (pending w)).

(** The flag in the state of the world. *)
Definition flagOf (k : Busy) (w : World) : bool := flag k (ui w).

(** The flag is set exactly while one request of its button is in flight. *)
Definition busyInv (w : World) : Prop :=
  forall k, waiting k w = if flagOf k w then 1%nat else 0%nat.

(** While the script is fetched there is no script text. *)
Definition scriptInv (w : World) : Prop :=
  isFetchingScript (ui w) = true -> scriptText (ui w) = "".

(** The closure [s] holds the identifier [id], and it is not empty. *)
Definition snapOk (id : string) (s : State) : Prop :=
  factoryMedicineId s = id /\ id <> "".

(** The suspended function holds [id]; short of a training request, whose
    guard lets an empty identifier through, it is not empty. *)
Definition taskOk (id : string) (t : Task) : Prop :=
  match t with
  | AwaitTrain s => factoryMedicineId s = id
  | AwaitShell s | AwaitSubmit s | AwaitGetdata s | AwaitStatus s => snapOk id s
  | AwaitPredictPost s _ | AwaitPredictGet s _ => snapOk id s
  end.

(** The request goes to [id], which is empty for a training request at
    most. *)
Definition requestOk (id : string) (r : Request) : Prop :=
  rid r = id /\ (endpoint r = Train \/ id <> "").

(** An entry of the log that is a request is one to [id]. *)
Definition effectOk (id : string) (x : Z * Effect) : Prop :=
  match snd x with
  | Fetched r => requestOk id r
  | _ => True
  end.

(** Everything in the world was made for the identifier [id]: the state
    holds it, and so do the suspended functions, the timers and the
    requests sent; and there is a script text only if [id] is not empty. *)
Definition carries (id : string) (w : World) : Prop :=
  factoryMedicineId (ui w) = id
  /\ (scriptText (ui w) <> "" -> id <> "")
  /\ Forall (taskOk id) (pending w)
  /\ Forall (fun iv => snapOk id (isnap iv)) (intervals w)
  /\ Forall (fun t => snapOk id (tsnap t)) (timeouts w)
  /\ Forall (effectOk id) (log w).

(** What was made for [id] before is made for [id] after. *)
Definition keepsId (id : string) (w w' : World) : Prop :=
  carries id w -> carries id w'.

(** Before the mount nothing has happened. *)
Definition untouched (w : World) : Prop :=
  pending w = [] /\ intervals w = [] /\ timeouts w = [] /\ log w = []
  /\ scriptText (ui w) = "".

(** Untouched before the mount; made for the identifier of the state from
    then on. *)
Definition identityCarried (w : World) : Prop :=
  match phase w with
  | Fresh => untouched w
  | _ => carries (factoryMedicineId (ui w)) w
  end.

(** The state that a suspended function closed over. *)
Definition closure (t : Task) : State :=
  match t with
  | AwaitShell s | AwaitSubmit s | AwaitGetdata s | AwaitStatus s => s
  | AwaitTrain s => s
  | AwaitPredictPost s _ | AwaitPredictGet s _ => s
  end.

(** A suspended function of the prediction step. *)
Definition predictionTask (t : Task) : bool :=
  match t with
  | AwaitPredictPost _ _ | AwaitPredictGet _ _ => true
  | _ => false
  end.

(** The body is an object whose [status] is 2. *)
Definition statusTwo (b : option JsVal) : bool :=
  match b with
  | Some (JObj props) =>
      match getProp "status" props with
      | Some (JNum (Fin q)) => Qeq_bool q 2
      | _ => false
      end
  | _ => false
  end.

(** An effect of the prediction step: a request to [/predict], a request
    that sets [status: 2], or the scheduling of a timeout. *)
Definition ofPrediction (x : Z * Effect) : bool :=
  match snd x with
  | Fetched r =>
      match endpoint r with
      | Predict => true
      | _ => statusTwo (body r)
      end
  | TimeoutSet _ => true
  | _ => false
  end.

(** Nothing of the prediction step has happened. *)
Definition idle (w : World) : Prop :=
  timeouts w = []
  /\ forallb (fun t => negb (predictionTask t)) (pending w) = true
  /\ samePart Prediction initialState (ui w)
  /\ forallb (fun x => negb (ofPrediction x)) (log w) = true.

(** Nothing of the prediction step happens on the way. *)
Definition keepsIdle (w w' : World) : Prop := idle w -> idle w'.

(** Any event but the call of [requestPredictionMode]. *)
Definition notCall (e : Event) : bool :=
  match e with
  | CallPrediction => false
  | _ => true
  end.

(** An entry of the console. *)
Definition isConsole (x : Z * Effect) : bool :=
  match snd x with
  | ConsoleError _ | ConsoleWarn _ _ => true
  | _ => false
  end.

(** An alert. *)
Definition isAlert (x : Z * Effect) : bool :=
  match snd x with
  | Alerted _ => true
  | _ => false
  end.

(** The status polls made, the cycles that wait for [/getdata], and the
    calls to [/getdata] made. *)
Definition pollCounts (w : World) : nat * nat * nat :=
  (count isStatusCall (log w), inFlight w, count isGetdataCall (log w)).

(** Every call to [/getdata] is still awaited or was followed by one
    status poll. *)
Definition cycleInv (w : World) : Prop :=
  (count isStatusCall (log w) + inFlight w = count isGetdataCall (log w))%nat.

(** A world with the state [s] in which nothing else has happened. *)
Definition blank (s : State) : World :=
  mkWorld s Live None [] [] [] 1%positive 0%Z [].

(** While the training request is in flight there is no training message. *)
Definition trainInv (w : World) : Prop :=
  isTraining (ui w) = true -> trainMessage (ui w) = "".

(** The state that a function of the collection closed over. *)
Definition pollSnap (t : Task) : option State :=
  match t with
  | AwaitSubmit s | AwaitGetdata s | AwaitStatus s => Some s
  | _ => None
  end.

(** The states that the functions of the collection hold: the ones
    suspended at a fetch, and [singleIteration] in the running intervals. *)
Definition closures (w : World) : list State :=
  (flat_map (fun t => match pollSnap t with
                      | Some s => [s]
                      | None => []
                      end) (pending w)
   ++ map isnap (intervals w))%list.

(** A state that a function of the collection holds after is one that one
    held before, or is [o]. *)
Definition addsOnly (o : option State) (w w' : World) : Prop :=
  forall s, In s (closures w') -> In s (closures w) \/ o = Some s.

(** The start timestamp of the state. *)
Definition startOf (w : World) : option Z := collectionStartTs (ui w).

(** As long as the state holds no start timestamp, no function of the
    collection holds one. *)
Definition firstInv (w : World) : Prop :=
  startOf w = None ->
  forall s, In s (closures w) -> collectionStartTs s = None.

End Vocabulary.

(** * Proofs *)

(** ** Facts about property lists *)

Section PropFacts.
Variable V : Type.

Lemma getProp_replaceProp_same (k : string) (v : V) (o : list (string * V)) :
  getProp k o <> None -> getProp k (replaceProp k v o) = Some v.
Proof.
  induction o as [|[k' v'] rest IH]; simpl; intros Hin.
  - congruence.
  - destruct (String.eqb k k') eqn:E; simpl; rewrite E; auto.
Qed.

Lemma getProp_replaceProp_other (k k' : string) (v : V) (o : list (string * V)) :
  k' <> k -> getProp k' (replaceProp k v o) = getProp k' o.
Proof.
  intros Hne. induction o as [|[k0 v0] rest IH]; simpl; auto.
  destruct (String.eqb k k0) eqn:E; simpl.
  - apply String.eqb_eq in E. subst k0.
    destruct (String.eqb k' k) eqn:E'; auto.
    apply String.eqb_eq in E'. contradiction.
  - now rewrite IH.
Qed.

Lemma getProp_insertIndex_same n (k : string) (v : V) (o : list (string * V)) :
  getProp k o = None -> getProp k (insertIndex n k v o) = Some v.
Proof.
  induction o as [|[k' v'] rest IH]; simpl; intros Hout.
  - now rewrite String.eqb_refl.
  - destruct (String.eqb k k') eqn:E; [discriminate|].
    destruct (arrayIndex k') as [m|]; [destruct (m <? n)%N|]; simpl;
      rewrite ?E, ?String.eqb_refl; auto.
Qed.

Lemma getProp_insertIndex_other n (k k' : string) (v : V)
    (o : list (string * V)) :
  k' <> k -> getProp k' (insertIndex n k v o) = getProp k' o.
Proof.
  intros Hne.
  assert (E : String.eqb k' k = false) by now apply String.eqb_neq.
  induction o as [|[k0 v0] rest IH]; simpl.
  - now rewrite E.
  - destruct (arrayIndex k0) as [m|]; [destruct (m <? n)%N|]; simpl;
      rewrite ?E, ?IH; auto.
Qed.

Lemma getProp_app (k : string) (o1 o2 : list (string * V)) :
  getProp k (o1 ++ o2)
  = match getProp k o1 with
    | Some v => Some v
    | None => getProp k o2
    end.
Proof.
  induction o1 as [|[k' v'] rest IH]; simpl; auto.
  destruct (String.eqb k k'); auto.
Qed.

Lemma getProp_setProp_same (k : string) (v : V) (o : list (string * V)) :
  getProp k (setProp k v o) = Some v.
Proof.
  unfold setProp. destruct (getProp k o) as [v0|] eqn:E.
  - apply getProp_replaceProp_same. congruence.
  - destruct (arrayIndex k) as [n|].
    + now apply getProp_insertIndex_same.
    + rewrite getProp_app, E. simpl. now rewrite String.eqb_refl.
Qed.

Lemma getProp_setProp_other (k k' : string) (v : V) (o : list (string * V)) :
  k' <> k -> getProp k' (setProp k v o) = getProp k' o.
Proof.
  intros Hne. unfold setProp. destruct (getProp k o) as [v0|].
  - now apply getProp_replaceProp_other.
  - destruct (arrayIndex k) as [n|].
    + now apply getProp_insertIndex_other.
    + rewrite getProp_app. destruct (getProp k' o); auto. simpl.
      destruct (String.eqb k' k) eqn:E; auto.
      apply String.eqb_eq in E. contradiction.
Qed.

Lemma setProp_keys (k : string) (v : V) (o : list (string * V)) :
  getProp k o <> None -> map fst (setProp k v o) = map fst o.
Proof.
  unfold setProp. destruct (getProp k o) as [v0|]; [|congruence]. intros _.
  induction o as [|[k0 v1] rest IH]; simpl; auto.
  destruct (String.eqb k k0) eqn:E; simpl; auto.
  now rewrite IH.
Qed.
End PropFacts.

(** ** Proof tools *)

Ltac break_match :=
  match goal with
  | |- context [match ?x with _ => _ end] => destruct x eqn:?
  end.

Ltac break_hyp H :=
  match type of H with
  | context [match ?x with _ => _ end] => destruct x eqn:?
  end.

(** Inverts [step w e = Some w']: one goal per event that can happen, with
    [w'] replaced by what the event's handler makes of [w]. *)
Ltac step_inv e Hs :=
  destruct e; cbn [step] in Hs;
  repeat (break_hyp Hs; try discriminate);
  inversion Hs; subst; clear Hs.

(** *** Commands that respect a relation between the world before and after *)

Section Frames.
Variable R : World -> World -> Prop.
Hypothesis R_refl : forall w, R w w.
Hypothesis R_trans : forall a b c, R a b -> R b c -> R a c.

Lemma respects_seq c1 c2 :
  respects R c1 -> respects R c2 -> respects R (c1 ;; c2).
Proof. intros H1 H2 w. unfold seq. eapply R_trans; [apply H1 | apply H2]. Qed.

Lemma respects_skip : respects R skip.
Proof. intros w. apply R_refl. Qed.
End Frames.

(** Splits [respects R c] along the sequences and the branches of [c]. *)
Ltac frame_split :=
  repeat match goal with
    | |- respects _ skip => apply respects_skip; solve [eauto]
    | |- respects _ (seq _ _) => apply respects_seq; [solve [eauto] | |]
    | |- respects _ (match ?x with _ => _ end) => destruct x
    end.

Ltac unfold_resume :=
  unfold resumeShell, resumeSubmit, resumeGetdata, resumeStatus, resumeTrain,
    resumePredictPost, resumePredictGet, failShell, failSubmit, failTrain,
    failPredictPost, failPredictGet.

Ltac unfold_start :=
  unfold fetchShellScript, submitCollection, startModelTraining,
    requestPredictionMode, handleCollectionChange, handleCsvSelect,
    predictionCallback, singleIteration.

Section Reachability.
Context {H : Host}.

(** An invariant of the initial worlds that every event keeps holds in
    every reachable world. *)
Lemma reachable_inv (P : World -> Prop) :
  (forall t0, P (initialWorld t0)) ->
  (forall w e w', P w -> step w e = Some w' -> P w') ->
  forall w, reachable w -> P w.
Proof.
  intros Hinit Hstep w (t0 & es & Hrun).
  specialize (Hinit t0). revert Hrun Hinit.
  generalize (initialWorld t0) as w0.
  induction es as [|e es IH]; simpl; intros w0 Hrun Hw0.
  - now inversion Hrun; subst.
  - destruct (step w0 e) as [w1|] eqn:E; [|discriminate].
    eapply IH; eauto.
Qed.

Lemma reachable_step w e w' :
  reachable w -> step w e = Some w' -> reachable w'.
Proof.
  intros (t0 & es & Hrun) Hs. exists t0, (es ++ [e])%list.
  revert Hrun. generalize (initialWorld t0) as w0.
  induction es as [|e0 es IH]; simpl; intros w0 Hrun.
  - inversion Hrun; subst. now rewrite Hs.
  - destruct (step w0 e0) as [w1|]; [|discriminate]. now apply IH.
Qed.

(** *** The session identity *)

Lemma sameNames_refl w : sameNames w w.
Proof. split; reflexivity. Qed.

Lemma sameNames_trans a b c : sameNames a b -> sameNames b c -> sameNames a c.
Proof. unfold sameNames. intuition congruence. Qed.

Hint Resolve sameNames_refl sameNames_trans : core.

Ltac names_prim :=
  try (intro; split; reflexivity);
  try (intros w; unfold clearPolling; destruct (pollingRef w);
       split; reflexivity).

Lemma resume_names t o : respects sameNames (resume t o).
Proof.
  destruct t; cbn [resume]; unfold_resume;
    unfold pollForDataAndStatus, singleIteration, fetch, alert, setTimeout;
    frame_split; names_prim.
Qed.

Lemma start_names snap :
  respects sameNames (fetchShellScript snap)
  /\ respects sameNames (submitCollection snap)
  /\ respects sameNames (startModelTraining snap)
  /\ respects sameNames (requestPredictionMode snap)
  /\ (forall t, respects sameNames (predictionCallback snap t))
  /\ respects sameNames (singleIteration snap).
Proof.
  repeat match goal with |- _ /\ _ => split end;
    intros; unfold_start; unfold fetch, alert; frame_split; names_prim.
Qed.

(** Only the mount touches the names and the identifier, and no event
    brings the page back to before its mount. *)
Lemma step_names w e w' :
  step w e = Some w' ->
  (exists f m, e = Mount f m /\ phase w = Fresh /\ w' = mount f m w)
  \/ (names w' = names w /\ (phase w' = phase w \/ phase w' = Gone)).
Proof.
  intros Hs.
  step_inv e Hs; try (left; eauto; fail); right;
    try (split; [reflexivity | left; reflexivity]);
    match goal with
    | |- context [resume ?t ?o ?w0] => destruct (resume_names t o w0)
    | |- context [singleIteration ?s (rearm ?id ?w0)] =>
        destruct (proj2 (proj2 (proj2 (proj2 (proj2 (start_names s)))))
                    (rearm id w0))
    | |- context [predictionCallback ?s ?t ?w0] =>
        destruct (proj1 (proj2 (proj2 (proj2 (proj2 (start_names s))))) t w0)
    | |- context [fetchShellScript ?s ?w0] =>
        destruct (proj1 (start_names s) w0)
    | |- context [submitCollection ?s ?w0] =>
        destruct (proj1 (proj2 (start_names s)) w0)
    | |- context [startModelTraining ?s ?w0] =>
        destruct (proj1 (proj2 (proj2 (start_names s))) w0)
    | |- context [requestPredictionMode ?s ?w0] =>
        destruct (proj1 (proj2 (proj2 (proj2 (start_names s)))) w0)
    | |- context [unmount ?w0] =>
        unfold unmount, clearPolling, seq; destruct (pollingRef w0)
    | _ => idtac
    end; try (split; auto; fail).
Qed.

Lemma mount_idInv f m w :
  names w = ("", "", "") -> idInv (ui (mount f m w)).
Proof.
  unfold names. intros Hn. injection Hn as Hf Hm Hid.
  unfold mount, mountEffect, namesEffect, depsChanged, idInv,
    derivedId, seq, skip.
  rewrite Hf, Hm. cbn [truthyStr andb].
  destruct (truthyStr (orEmpty f)) eqn:Ef,
           (truthyStr (orEmpty m)) eqn:Em; cbn;
    rewrite ?Ef, ?Em; cbn;
    repeat (break_match; cbn; rewrite ?Ef, ?Em; cbn; auto).
  all: congruence.
Qed.

Lemma mount_phase f m w : phase (mount f m w) = Live.
Proof.
  unfold mount, mountEffect, namesEffect, seq, skip.
  repeat (break_match; cbn); reflexivity.
Qed.

Lemma identityInv_reachable w : reachable w -> identityInv w.
Proof.
  apply reachable_inv.
  - intros t0. split; reflexivity.
  - intros w0 e w1 [Hid Hfresh] Hs.
    destruct (step_names _ _ Hs) as [(f & m & -> & Hp & ->) | [Hn Hp]].
    + split.
      * apply mount_idInv. auto.
      * rewrite mount_phase. discriminate.
    + split.
      * unfold idInv in *. unfold names in Hn. congruence.
      * intros Hfr. destruct Hp as [Hp | Hp]; [|congruence].
        rewrite Hn. apply Hfresh. congruence.
Qed.
End Reachability.

(** ** Session identity and the guards of the remote operations *)

Lemma truthyStr_empty s : s = "" <-> truthyStr s = false.
Proof. destruct s; simpl; split; congruence. Qed.

Section IdentityClaims.
Context {H : Host}.

(** C2: in every reachable state [factoryMedicineId] is
    [factoryName ++ "_" ++ medicineName] when both names are non-empty and
    empty when either is; after every event the identifier is the one
    derived from the names of the new state; and the effect that runs when
    a name changed writes the identifier of the two names it sees, when
    both are non-empty. *)
Theorem identity_derived (w : World) :
  reachable w ->
  (factoryName (ui w) <> "" -> medicineName (ui w) <> "" ->
   factoryMedicineId (ui w) = factoryName (ui w) ++ "_" ++ medicineName (ui w))
  /\ (factoryName (ui w) = "" \/ medicineName (ui w) = "" ->
      factoryMedicineId (ui w) = "")
  /\ (forall e w', step w e = Some w' ->
      factoryMedicineId (ui w')
      = derivedId (factoryName (ui w')) (medicineName (ui w')))
  /\ (forall snap, factoryName snap <> "" -> medicineName snap <> "" ->
      factoryMedicineId (ui (namesEffect snap w))
      = factoryName snap ++ "_" ++ medicineName snap).
Proof.
  intros Hr. destruct (identityInv_reachable Hr) as [Hid _].
  unfold idInv, derivedId in Hid.
  repeat match goal with |- _ /\ _ => split end;
    [| | |intros snap Hf Hm; unfold namesEffect;
          destruct (truthyStr (factoryName snap)) eqn:Ef;
            [|apply truthyStr_empty in Ef; contradiction];
          destruct (truthyStr (medicineName snap)) eqn:Em;
            [|apply truthyStr_empty in Em; contradiction];
          reflexivity].
  - intros Hf Hm. rewrite Hid.
    destruct (truthyStr (factoryName (ui w))) eqn:Ef;
      [|apply truthyStr_empty in Ef; contradiction].
    destruct (truthyStr (medicineName (ui w))) eqn:Em;
      [|apply truthyStr_empty in Em; contradiction].
    reflexivity.
  - intros [E | E]; apply truthyStr_empty in E; rewrite Hid, E;
      [|rewrite andb_false_r]; reflexivity.
  - intros e w' Hs.
    apply identityInv_reachable. eapply reachable_step; eauto.
Qed.

(** C1, amended: in every reachable state with an empty [factoryName] or an
    empty [medicineName], [fetchShellScript], [submitCollection] and
    [requestPredictionMode] are rejected with no network call;
    [startModelTraining] is rejected exactly when [factoryName] is empty or
    no CSV file is selected, and otherwise posts to [/train/] with an empty
    identifier. *)
Theorem guards_without_identity (w : World) :
  reachable w ->
  factoryName (ui w) = "" \/ medicineName (ui w) = "" ->
  rejected (fetchShellScript (ui w)) w
  /\ rejected (submitCollection (ui w)) w
  /\ rejected (requestPredictionMode (ui w)) w
  /\ (rejected (startModelTraining (ui w)) w
      <-> factoryName (ui w) = "" \/ csvFile (ui w) = None)
  /\ (factoryName (ui w) <> "" -> csvFile (ui w) <> None ->
      sends (startModelTraining (ui w)) w (mkRequest POST Train "" None)).
Proof.
  intros Hr Hempty.
  assert (Hid : factoryMedicineId (ui w) = "").
  { destruct (identityInv_reachable Hr) as [Hid _].
    unfold idInv, derivedId in Hid. rewrite Hid.
    destruct Hempty as [E | E]; apply truthyStr_empty in E; rewrite E;
      [|rewrite andb_false_r]; reflexivity. }
  unfold rejected, sends, fetchShellScript, submitCollection,
    requestPredictionMode, startModelTraining.
  rewrite Hid. cbn [truthyStr negb andb].
  repeat match goal with |- _ /\ _ => split end;
    try (cbn; eauto; fail).
  - rewrite andb_true_r. split.
    + destruct (truthyStr (factoryName (ui w))) eqn:Ef; cbn [negb].
      * destruct (csvFile (ui w)) eqn:Ec.
        -- intros ((msg & Hlog) & _). exfalso. cbn in Hlog.
           apply app_inv_head in Hlog. discriminate.
        -- intros _. now right.
      * intros _. left. now apply truthyStr_empty.
    + intros [Hf | Hc].
      * apply truthyStr_empty in Hf. rewrite Hf. cbn. eauto.
      * rewrite Hc. destruct (truthyStr (factoryName (ui w))); cbn; eauto.
  - intros Hf Hc. rewrite andb_true_r.
    destruct (truthyStr (factoryName (ui w))) eqn:Ef;
      [|apply truthyStr_empty in Ef; contradiction].
    destruct (csvFile (ui w)); [|contradiction]. reflexivity.
Qed.
End IdentityClaims.

Lemma identity_derived_witness :
  run (H := Sample.host) (initialWorld 0) acmeTonic = Some (final acmeTonic)
  /\ factoryMedicineId (ui (final acmeTonic)) = "ACME_Tonic1".
Proof.
  split; [vm_compute; reflexivity|].
  apply (identity_derived (H := Sample.host) (w := final acmeTonic)).
  - exists 0%Z, acmeTonic. vm_compute. reflexivity.
  - discriminate.
  - discriminate.
Defined.

Lemma guards_without_identity_witness :
  run (H := Sample.host) (initialWorld 0) tonicAlone = Some (final tonicAlone)
  /\ rejected (submitCollection (ui (final tonicAlone))) (final tonicAlone)
  /\ sends (startModelTraining (ui (final acmeAlone))) (final acmeAlone)
       (mkRequest POST Train "" None).
Proof.
  split; [vm_compute; reflexivity|]. split.
  - apply (guards_without_identity (H := Sample.host) (w := final tonicAlone)).
    + exists 0%Z, tonicAlone. vm_compute. reflexivity.
    + left. reflexivity.
  - apply (guards_without_identity (H := Sample.host) (w := final acmeAlone)).
    + exists 0%Z, acmeAlone. vm_compute. reflexivity.
    + right. reflexivity.
    + discriminate.
    + discriminate.
Defined.

(** C1 as stated fails: with a factory name, no medicine name and a file
    selected, [startModelTraining] is not rejected and a request goes out. *)
Lemma training_not_rejected :
  run (H := Sample.host) (initialWorld 0) acmeAlone = Some (final acmeAlone)
  /\ medicineName (ui (final acmeAlone)) = ""
  /\ ~ rejected (startModelTraining (ui (final acmeAlone))) (final acmeAlone)
  /\ step (H := Sample.host) (final acmeAlone) ClickTrain
     = Some (final (acmeAlone ++ [ClickTrain]))
  /\ log (final (acmeAlone ++ [ClickTrain]))
     = [(0%Z, Fetched (mkRequest POST Train "" None))].
Proof.
  split; [vm_compute; reflexivity|]. split; [vm_compute; reflexivity|].
  split; [|split; vm_compute; reflexivity].
  intros ((msg & Hlog) & _). vm_compute in Hlog. discriminate.
Qed.

(** ** The timestamp filter *)

Lemma ltNum_not_ge a b : ltNum a b -> geNum a b = false.
Proof.
  destruct a, b; simpl; try tauto; intros Hlt.
  destruct (Qle_bool q0 q) eqn:E; auto.
  apply Qle_bool_iff in E. exfalso. eapply Qlt_not_le; eauto.
Qed.

Section FilterClaims.
Context {H : Host}.

(** What [filter] returns when no callback throws: the entries kept, in
    their order. *)
Lemma filterEntries_In startTs entries kept :
  filterEntries startTs entries = Ok kept ->
  forall e, In e kept <-> In e entries /\ keepEntry startTs e = Ok true.
Proof.
  revert kept. induction entries as [|x rest IH]; simpl; intros kept Hf e.
  - inversion Hf; subst. simpl. tauto.
  - destruct (keepEntry startTs x) as [keep|] eqn:Ek; [|discriminate].
    destruct (filterEntries startTs rest) as [kept'|] eqn:Er; [|discriminate].
    inversion Hf; subst; clear Hf. specialize (IH kept' eq_refl e).
    destruct keep; simpl; rewrite IH; split.
    + intros [-> | [Hin Hk]]; auto.
    + intros [[-> | Hin] Hk]; auto.
    + intros [Hin Hk]; auto.
    + intros [[-> | Hin] Hk]; [congruence | auto].
Qed.

Lemma filterEntries_length startTs entries kept :
  filterEntries startTs entries = Ok kept ->
  (List.length kept <= List.length entries)%nat.
Proof.
  revert kept. induction entries as [|x rest IH]; simpl; intros kept Hf.
  - inversion Hf; subst. auto.
  - destruct (keepEntry startTs x) as [keep|]; [|discriminate].
    destruct (filterEntries startTs rest) as [kept'|]; [|discriminate].
    inversion Hf; subst; clear Hf. specialize (IH kept' eq_refl).
    destruct keep; simpl; lia.
Qed.

(** With no start timestamp, or a start of 0, nothing is filtered out. *)
Lemma keepEntry_unset startTs e :
  startTs = None \/ startTs = Some 0%Z -> keepEntry startTs e = Ok true.
Proof. intros [-> | ->]; reflexivity. Qed.

Lemma readProp_returns e k :
  nullish e = false -> exists v, readProp e k = Ok v.
Proof.
  destruct e; cbn; try discriminate; eauto.
  destruct (getProp k props); eauto.
Qed.

Lemma readProp_throws e k x : readProp e k = Threw x -> ename x = "TypeError".
Proof.
  destruct e; cbn; try discriminate; try (intros E; now inversion E).
  destruct (getProp k props); discriminate.
Qed.

Lemma entryTs_returns e : nullish e = false -> exists ts, entryTs e = Ok ts.
Proof.
  intros Hn. unfold entryTs.
  destruct (readProp_returns e "timestamp" Hn) as [a ->].
  destruct (truthy a); eauto.
  destruct (readProp_returns e "time" Hn) as [b ->].
  destruct (truthy b); eauto.
  destruct (readProp_returns e "created_at" Hn) as [c ->].
  destruct (truthy c); eauto.
  destruct (readProp_returns e "createdAt" Hn) as [d ->]. eauto.
Qed.

Lemma keepEntry_throws startTs e :
  (exists x, keepEntry startTs e = Threw x)
  <-> (exists start, startTs = Some start /\ start <> 0%Z) /\ isNullish e.
Proof.
  unfold keepEntry, isNullish. split.
  - intros [x Hx]. destruct startTs as [start|]; [|discriminate].
    destruct (Z.eqb start 0) eqn:Ez; [discriminate|].
    apply Z.eqb_neq in Ez. split; [eauto|].
    destruct (nullish e) eqn:En; [reflexivity|]. exfalso.
    destruct (entryTs_returns e En) as [ts Hts]. rewrite Hts in Hx.
    repeat (break_hyp Hx; try discriminate).
  - intros [(start & -> & Hne) Hn]. apply Z.eqb_neq in Hne. rewrite Hne.
    destruct e; try discriminate; cbn; eauto.
Qed.

Lemma filterEntries_throws startTs entries :
  (exists x, filterEntries startTs entries = Threw x)
  <-> (exists start, startTs = Some start /\ start <> 0%Z)
      /\ Exists isNullish entries.
Proof.
  induction entries as [|e rest IH]; simpl.
  - split; [intros [x Hx]; discriminate | intros [_ Hex]; inversion Hex].
  - split.
    + intros [x Hx].
      destruct (keepEntry startTs e) as [keep|y] eqn:Ek.
      * destruct (filterEntries startTs rest) as [kept|z]; [discriminate|].
        destruct (proj1 IH) as [Hs Hex]; eauto.
      * destruct (proj1 (keepEntry_throws startTs e)) as [Hs Hn]; eauto.
    + intros [Hs Hex].
      destruct (keepEntry startTs e) as [keep|y] eqn:Ek; [|eauto].
      destruct (filterEntries startTs rest) as [kept|z] eqn:Er; [|eauto].
      exfalso. inversion Hex as [? ? Hn | ? ? Hrest]; subst.
      * destruct (proj2 (keepEntry_throws startTs e)) as [x Hx]; auto.
        congruence.
      * destruct (proj2 IH) as [x Hx]; auto. discriminate.
Qed.

(** The filter runs through a response with no [null] and no [undefined]
    among its entries. *)
Lemma filterEntries_whole startTs entries x :
  Forall (fun e => nullish e = false) entries ->
  filterEntries startTs entries = Threw x -> False.
Proof.
  intros Hnn Hthrow.
  destruct (proj1 (filterEntries_throws startTs entries)) as [_ Hex]; [eauto|].
  apply Exists_exists in Hex. destruct Hex as (y & Hy & Hn).
  rewrite Forall_forall in Hnn. specialize (Hnn y Hy).
  unfold isNullish in Hn. congruence.
Qed.

(** A record with no truthy timestamp passes, whatever the start. *)
Lemma keepEntry_untimed startTs e ts :
  entryTs e = Ok ts -> truthy ts = false -> keepEntry startTs e = Ok true.
Proof.
  intros Hts Hf. unfold keepEntry. destruct startTs as [start|]; auto.
  destruct (Z.eqb start 0); auto. now rewrite Hts, Hf.
Qed.

End FilterClaims.



(** ** Collection: accumulation, submission failure, form changes *)

Section CollectionClaims.
Context {H : Host}.

Lemma resumeStatus_ui snap o w : ui (resumeStatus snap o w) = ui w.
Proof.
  unfold resumeStatus, clearPolling, skip.
  repeat (break_match; try reflexivity).
Qed.

Lemma resumeGetdata_entries snap o w :
  exists added,
    collectedEntries (ui (resumeGetdata snap o w))
    = (collectedEntries (ui w) ++ added)%list.
Proof.
  unfold resumeGetdata, skip.
  repeat (break_match; try (exists []; cbn; now rewrite app_nil_r)).
  eexists. reflexivity.
Qed.

Lemma resumeGetdata_kept snap res gd kept w :
  ok res = true -> json res = Ok gd ->
  filterEntries (collectionStartTs snap) (asArray gd) = Ok kept ->
  collectedEntries (ui (resumeGetdata snap (Resolved res) w))
  = (collectedEntries (ui w) ++ kept)%list.
Proof.
  intros Hok Hj Hf. unfold resumeGetdata. rewrite Hok, Hj, Hf.
  destruct kept; cbn; auto. now rewrite app_nil_r.
Qed.

(** C5: a polling cycle leaves the entries it finds in place and appends
    after them, whatever its two fetches return; a successful cycle appends
    exactly its filtered records; and two successful cycles in a row, from an
    empty sequence, leave the records of the first followed by those of the
    second, as many as the two filtered counts together. *)
Theorem entries_append_only (snap : State) (w : World) :
  (forall o1 o2, exists added,
     collectedEntries (ui (pollCycle snap o1 o2 w))
     = (collectedEntries (ui w) ++ added)%list)
  /\ (forall res gd kept o2,
      ok res = true -> json res = Ok gd ->
      filterEntries (collectionStartTs snap) (asArray gd) = Ok kept ->
      collectedEntries (ui (pollCycle snap (Resolved res) o2 w))
      = (collectedEntries (ui w) ++ kept)%list)
  /\ (forall res1 gd1 kept1 p1 res2 gd2 kept2 p2,
      collectedEntries (ui w) = [] ->
      ok res1 = true -> json res1 = Ok gd1 ->
      filterEntries (collectionStartTs snap) (asArray gd1) = Ok kept1 ->
      ok res2 = true -> json res2 = Ok gd2 ->
      filterEntries (collectionStartTs snap) (asArray gd2) = Ok kept2 ->
      let w2 := (pollCycle snap (Resolved res1) p1 ;;
                 pollCycle snap (Resolved res2) p2) w in
      collectedEntries (ui w2) = (kept1 ++ kept2)%list
      /\ List.length (collectedEntries (ui w2))
         = (List.length kept1 + List.length kept2)%nat).
Proof.
  repeat match goal with |- _ /\ _ => split end.
  - intros o1 o2. unfold pollCycle, seq. rewrite resumeStatus_ui.
    apply resumeGetdata_entries.
  - intros res gd kept o2 Hok Hj Hf. unfold pollCycle, seq.
    rewrite resumeStatus_ui. now apply resumeGetdata_kept with (gd := gd).
  - intros res1 gd1 kept1 p1 res2 gd2 kept2 p2 He Hok1 Hj1 Hf1 Hok2 Hj2 Hf2 w2.
    assert (Hw2 : collectedEntries (ui w2) = (kept1 ++ kept2)%list).
    { unfold w2, pollCycle, seq. rewrite resumeStatus_ui.
      rewrite resumeGetdata_kept with (gd := gd2) (kept := kept2)
        by assumption.
      rewrite resumeStatus_ui.
      rewrite resumeGetdata_kept with (gd := gd1) (kept := kept1)
        by assumption.
      rewrite He. reflexivity. }
    split; [exact Hw2|]. rewrite Hw2. apply length_app.
Qed.


Lemma getProp_map (A B : Type) (f : A -> B) k (o : list (string * A)) :
  getProp k (map (fun kv => (fst kv, f (snd kv))) o)
  = option_map f (getProp k o).
Proof.
  induction o as [|[k' v] rest IH]; simpl; auto.
  destruct (String.eqb k k'); auto.
Qed.

(** C10: a change event sets the field it names to [Number(value)] and
    leaves every other field of the form, and everything else, as it was;
    when [Number(value)] is NaN the field holds NaN, and the payload of the
    submission that follows carries [null] for it. *)
Theorem collection_change (name value : string) (w : World) :
  let w' := handleCollectionChange name value w in
  getProp name (collectionForm (ui w')) = Some (Number (JStr value))
  /\ (forall k, k <> name ->
      getProp k (collectionForm (ui w')) = getProp k (collectionForm (ui w)))
  /\ w' = setState (setCollectionForm (collectionForm (ui w'))) w
  /\ (StringToNumber value = NaN ->
      getProp name (collectionForm (ui w')) = Some NaN
      /\ (name <> "status" -> name <> "factory" ->
          exists props,
            collectionPayload (ui w') = JObj props
            /\ getProp name props = Some JNull
            /\ (truthyStr (factoryMedicineId (ui w')) = true ->
                sends (submitCollection (ui w')) w'
                  (mkRequest POST Picron (factoryMedicineId (ui w'))
                     (Some (JObj props)))))).
Proof.
  cbn zeta. unfold handleCollectionChange, setState. cbn [ui collectionForm setCollectionForm].
  repeat match goal with |- _ /\ _ => split end.
  - apply getProp_setProp_same.
  - intros k Hk. now apply getProp_setProp_other.
  - reflexivity.
  - intros Hnan. cbn [Number]. rewrite Hnan. split.
    + apply getProp_setProp_same.
    + intros Hs Hf. eexists. split; [reflexivity|]. split.
      * rewrite getProp_setProp_other by auto.
        rewrite getProp_setProp_other by auto.
        cbn [collectionForm setCollectionForm].
        rewrite getProp_map, getProp_setProp_same.
        reflexivity.
      * intros Hid. unfold sends, submitCollection.
        cbn [factoryMedicineId] in *. rewrite Hid. reflexivity.
Qed.
End CollectionClaims.

Lemma entries_append_only_witness :
  collectedEntries
    (ui ((pollCycle (H := Sample.host) initialState
            (Resolved (okJson (JArr [newYearRecord])))
            (Resolved (okJson (JObj [("status", JNum (num 1))]))) ;;
          pollCycle (H := Sample.host) initialState
            (Resolved (okJson garbledRecord))
            (Rejected (mkError "TypeError" "Failed to fetch")))
           (initialWorld 0)))
  = [newYearRecord; garbledRecord].
Proof.
  refine (proj1 (proj2 (proj2 (entries_append_only (H := Sample.host)
                                 initialState (initialWorld 0)))
                  (okJson (JArr [newYearRecord])) (JArr [newYearRecord])
                  [newYearRecord] _
                  (okJson garbledRecord) garbledRecord [garbledRecord] _
                  _ _ _ _ _ _ _));
    reflexivity.
Defined.


Lemma collection_change_witness :
  getProp "dilution"
    (collectionForm
       (ui (handleCollectionChange (H := Sample.host) "dilution" "fifty"
              (initialWorld 0))))
  = Some NaN.
Proof.
  refine (proj1 (proj2 (proj2 (proj2
            (collection_change (H := Sample.host) "dilution" "fifty"
               (initialWorld 0)))) _)).
  reflexivity.
Defined.

(** ** Training *)

Lemma append_assoc (a b c : string) : (a ++ b) ++ c = a ++ (b ++ c).
Proof. induction a; simpl; congruence. Qed.

Lemma append_empty_r (a : string) : a ++ "" = a.
Proof. induction a; simpl; congruence. Qed.

(** C8: a non-2xx answer to [POST /train/{id}] sets the training message to
    an error string that contains the status code and the body; a 2xx
    answer sets the fixed success message; every outcome clears the
    training flag; and the flag is only ever set together with the request
    whose outcome clears it. *)
Theorem training_outcome (snap : State) (w : World) :
  (forall res, ok res = false ->
     trainMessage (ui (resumeTrain snap (Resolved res) w))
     = "Error starting training: Training request failed: "
       ++ showNat (status res) ++ " " ++ textOrEmpty res
     /\ contains (showNat (status res))
          (trainMessage (ui (resumeTrain snap (Resolved res) w)))
     /\ contains (textOrEmpty res)
          (trainMessage (ui (resumeTrain snap (Resolved res) w))))
  /\ trainMessage (ui (resumeTrain snap (Resolved (serverError 500 "bad csv")) w))
     = "Error starting training: Training request failed: 500 bad csv"
  /\ (forall res, ok res = true ->
      trainMessage (ui (resumeTrain snap (Resolved res) w)) = MSG_TRAIN_OK)
  /\ (forall o, isTraining (ui (resumeTrain snap o w)) = false)
  /\ (ui (startModelTraining snap w) = ui w
      /\ pending (startModelTraining snap w) = pending w
      \/ isTraining (ui (startModelTraining snap w)) = true
         /\ pending (startModelTraining snap w)
            = (pending w ++ [AwaitTrain snap])%list).
Proof.
  repeat match goal with |- _ /\ _ => split end.
  - intros res Hok.
    assert (Hm : trainMessage (ui (resumeTrain snap (Resolved res) w))
                 = "Error starting training: Training request failed: "
                   ++ showNat (status res) ++ " " ++ textOrEmpty res).
    { unfold resumeTrain. rewrite Hok. reflexivity. }
    rewrite Hm. repeat split.
    + exists "Error starting training: Training request failed: ",
        (" " ++ textOrEmpty res). reflexivity.
    + exists ("Error starting training: Training request failed: "
              ++ showNat (status res) ++ " "), "".
      rewrite append_empty_r, !append_assoc. reflexivity.
  - reflexivity.
  - intros res Hok. unfold resumeTrain. rewrite Hok. reflexivity.
  - intros o. unfold resumeTrain.
    destruct o as [res|e]; [destruct (ok res)|]; reflexivity.
  - unfold startModelTraining.
    destruct (negb (truthyStr (factoryName snap))
              && negb (truthyStr (factoryMedicineId snap)));
      [left; split; reflexivity|].
    destruct (csvFile snap); [right | left]; split; reflexivity.
Qed.

Lemma training_outcome_witness :
  contains "bad csv"
    (trainMessage
       (ui (resumeTrain initialState (Resolved (serverError 500 "bad csv"))
              (initialWorld 0)))).
Proof.
  refine (proj2 (proj2 (proj1 (training_outcome initialState (initialWorld 0))
                          (serverError 500 "bad csv") _))).
  reflexivity.
Defined.

(** ** The polling timer *)

Lemma sameTimers_refl w : sameTimers w w.
Proof. repeat split. Qed.

Lemma sameTimers_trans a b c : sameTimers a b -> sameTimers b c -> sameTimers a c.
Proof. unfold sameTimers. intuition congruence. Qed.

Lemma sameTimers_inv w w' : sameTimers w w' -> timerInv w -> timerInv w'.
Proof.
  intros (Hr & Hi & Hn). unfold timerInv, refIds. now rewrite Hr, Hi, Hn.
Qed.

Section Timers.
Context {H : Host}.

#[local] Hint Resolve sameTimers_refl sameTimers_trans : core.

Ltac timers_prim := try (intro; repeat split; reflexivity).

Lemma start_timers snap :
  respects sameTimers (fetchShellScript snap)
  /\ respects sameTimers (submitCollection snap)
  /\ respects sameTimers (startModelTraining snap)
  /\ respects sameTimers (requestPredictionMode snap)
  /\ (forall t, respects sameTimers (predictionCallback snap t))
  /\ respects sameTimers (singleIteration snap)
  /\ (forall n v, respects sameTimers (handleCollectionChange n v))
  /\ (forall f, respects sameTimers (handleCsvSelect f))
  /\ (forall f m, respects sameTimers (mount f m)).
Proof.
  repeat match goal with |- _ /\ _ => split end;
    intros; unfold_start; unfold fetch, alert; frame_split; timers_prim.
  intros w. unfold mount, mountEffect, namesEffect, seq, skip.
  repeat (break_match; cbn); repeat split; reflexivity.
Qed.

Lemma resume_timers t o :
  timerFree t = true -> respects sameTimers (resume t o).
Proof.
  destruct t; cbn [resume timerFree]; try discriminate; intros _;
    unfold_resume; unfold fetch, alert, setTimeout; frame_split; timers_prim.
Qed.

(** [clearPolling] leaves no interval running. *)
Lemma clearPolling_timers w :
  timerInv w ->
  intervals (clearPolling w) = []
  /\ pollingRef (clearPolling w) = None
  /\ nextTimer (clearPolling w) = nextTimer w.
Proof.
  unfold timerInv, refIds, clearPolling. intros [Hids _].
  destruct (pollingRef w) as [id|] eqn:Er.
  - destruct (intervals w) as [|iv [|iv' rest]] eqn:Ei; try discriminate.
    cbn. rewrite Ei. cbn. injection Hids as ->.
    rewrite Pos.eqb_refl. cbn. auto.
  - cbn. rewrite Er. destruct (intervals w); [auto | discriminate].
Qed.

Lemma clearPolling_log w :
  log (clearPolling w)
  = (log w ++ map (fun id => (clock w, IntervalCleared id)) (refIds w))%list.
Proof.
  unfold clearPolling, refIds. destruct (pollingRef w); cbn; auto.
  now rewrite app_nil_r.
Qed.

(** [pollForDataAndStatus] leaves exactly the interval it sets. *)
Lemma pollForDataAndStatus_timers snap w :
  timerInv w ->
  intervals (pollForDataAndStatus snap w)
  = [mkInterval (nextTimer w) snap (clock w + PERIOD)]
  /\ pollingRef (pollForDataAndStatus snap w) = Some (nextTimer w)
  /\ nextTimer (pollForDataAndStatus snap w) = Pos.succ (nextTimer w).
Proof.
  intros Hinv. destruct (clearPolling_timers Hinv) as (Hi & Hr & Hn).
  unfold pollForDataAndStatus, singleIteration, fetch, seq, setInterval.
  cbn. rewrite Hi, Hn.
  assert (Hc : clock (clearPolling w) = clock w).
  { unfold clearPolling. destruct (pollingRef w); reflexivity. }
  rewrite Hc. auto.
Qed.

Lemma pollForDataAndStatus_log snap w :
  log (pollForDataAndStatus snap w)
  = (log w
     ++ map (fun id => (clock w, IntervalCleared id)) (refIds w)
     ++ [(clock w, Fetched (mkRequest GET Getdata (factoryMedicineId snap) None));
         (clock w, IntervalSet (nextTimer w) PERIOD)])%list.
Proof.
  unfold pollForDataAndStatus, singleIteration, fetch, seq, setInterval.
  cbn. rewrite clearPolling_log.
  assert (Hc : clock (clearPolling w) = clock w).
  { unfold clearPolling. destruct (pollingRef w); reflexivity. }
  assert (Hn : nextTimer (clearPolling w) = nextTimer w).
  { unfold clearPolling. destruct (pollingRef w); reflexivity. }
  rewrite Hc, Hn, <- !app_assoc. reflexivity.
Qed.

Lemma resumeStatus_timers snap o w :
  timerInv w ->
  match o with
  | Resolved res =>
      if statusZero res
      then intervals (resumeStatus snap o w) = []
           /\ pollingRef (resumeStatus snap o w) = None
           /\ nextTimer (resumeStatus snap o w) = nextTimer w
      else sameTimers w (resumeStatus snap o w)
  | Rejected _ => sameTimers w (resumeStatus snap o w)
  end.
Proof.
  intros Hinv. unfold statusZero, resumeStatus.
  destruct o as [res|e]; [|repeat split].
  destruct (ok res); cbn [andb]; [|repeat split].
  destruct (json res) as [pdata|x]; [|repeat split].
  destruct (statusValue pdata) as [st|x]; [|repeat split].
  destruct (isDone st); [|repeat split].
  now apply clearPolling_timers.
Qed.

Lemma resumeSubmit_timers snap o w :
  timerInv w ->
  match o with
  | Resolved res =>
      if ok res
      then intervals (resumeSubmit snap o w)
           = [mkInterval (nextTimer w) snap (clock w + PERIOD)]
           /\ pollingRef (resumeSubmit snap o w) = Some (nextTimer w)
           /\ nextTimer (resumeSubmit snap o w) = Pos.succ (nextTimer w)
      else sameTimers w (resumeSubmit snap o w)
  | Rejected _ => sameTimers w (resumeSubmit snap o w)
  end.
Proof.
  intros Hinv. unfold resumeSubmit.
  destruct o as [res|e]; [|repeat split].
  destruct (ok res); cbn [negb]; [|repeat split].
  exact (pollForDataAndStatus_timers snap Hinv).
Qed.

Lemma rearm_ids id w :
  map iid (intervals (rearm id w)) = map iid (intervals w)
  /\ pollingRef (rearm id w) = pollingRef w
  /\ nextTimer (rearm id w) = nextTimer w.
Proof.
  unfold rearm. cbn. repeat split.
  rewrite map_map. apply map_ext. intros iv.
  destruct (Pos.eqb (iid iv) id); reflexivity.
Qed.

(** What each event does to the timer. *)
Lemma step_timers w e w' :
  timerInv w -> step w e = Some w' ->
  match timerKind w e with
  | Stops =>
      intervals w' = [] /\ pollingRef w' = None
      /\ nextTimer w' = nextTimer w
  | Restarts =>
      (exists snap due, intervals w' = [mkInterval (nextTimer w) snap due])
      /\ pollingRef w' = Some (nextTimer w)
      /\ nextTimer w' = Pos.succ (nextTimer w)
  | Keeps =>
      map iid (intervals w') = map iid (intervals w)
      /\ pollingRef w' = pollingRef w
      /\ nextTimer w' = nextTimer w
  end.
Proof.
  intros Hinv Hs.
  pose proof (start_timers (ui w)) as (S1 & S2 & S3 & S4 & _ & _ & S7 & S8 & S9).
  assert (Hsame : forall w1, sameTimers w w1 ->
            map iid (intervals w1) = map iid (intervals w)
            /\ pollingRef w1 = pollingRef w /\ nextTimer w1 = nextTimer w).
  { intros w1 (Hr & Hi & Hn). now rewrite Hr, Hi, Hn. }
  step_inv e Hs; cbn [timerKind];
    try (apply Hsame;
         first [apply S1 | apply S2 | apply S3 | apply S4 | apply S7
               | apply S8 | apply S9 | repeat split]; fail).
  - rewrite Heqo0.
    set (w0 := setPending (removeNth i (pending w)) w).
    assert (Hinv0 : timerInv w0) by exact Hinv.
    change (nextTimer w) with (nextTimer w0).
    change (intervals w) with (intervals w0).
    change (pollingRef w) with (pollingRef w0).
    assert (Hsame0 : forall w1, sameTimers w0 w1 ->
              map iid (intervals w1) = map iid (intervals w0)
              /\ pollingRef w1 = pollingRef w0 /\ nextTimer w1 = nextTimer w0)
      by exact Hsame.
    clearbody w0. clear Hsame.
    destruct t; cbn [resume];
      try (destruct o; cbv iota; apply Hsame0;
           match goal with
           | |- sameTimers _ (?c ?o ?x) =>
               first [ exact (resume_timers (AwaitShell snap) o eq_refl x)
                     | exact (resume_timers (AwaitGetdata snap) o eq_refl x)
                     | exact (resume_timers (AwaitTrain snap) o eq_refl x)
                     | exact (resume_timers (AwaitPredictPost snap startTs) o
                                eq_refl x)
                     | exact (resume_timers (AwaitPredictGet snap startTs) o
                                eq_refl x) ]
           end; fail).
    + pose proof (resumeSubmit_timers snap o Hinv0) as Hsub.
      destruct o as [res|x]; [destruct (ok res)|]; try now apply Hsame0.
      destruct Hsub as (Hi & Hr & Hn). eauto.
    + pose proof (resumeStatus_timers snap o Hinv0) as Hst.
      destruct o as [res|x]; [destruct (statusZero res)|]; try now apply Hsame0.
      exact Hst.
  - unfold seq.
    match goal with
    | |- context [singleIteration ?s (rearm ?id ?w0)] =>
        destruct (proj1 (proj2 (proj2 (proj2 (proj2 (proj2 (start_timers s))))))
                    (rearm id w0)) as (Hr & Hi & Hn);
        destruct (rearm_ids id w0) as (Hi' & Hr' & Hn')
    end.
    rewrite Hr, Hi, Hn. auto.
  - unfold unmount, seq. cbn. now apply clearPolling_timers.
Qed.

Lemma step_timerInv w e w' : timerInv w -> step w e = Some w' -> timerInv w'.
Proof.
  intros Hinv Hs. pose proof (step_timers _ Hinv Hs) as Hk.
  destruct Hinv as [Hids Hfresh]. unfold timerInv, refIds in *.
  destruct (timerKind w e).
  - destruct Hk as (-> & -> & _). split; constructor.
  - destruct Hk as ((snap & due & ->) & -> & ->). split; cbn; auto.
    repeat constructor. cbn. lia.
  - destruct Hk as (Hi & -> & ->). split; [congruence|].
    rewrite Forall_forall in *. intros iv Hin.
    apply (in_map iid) in Hin. rewrite Hi in Hin.
    apply in_map_iff in Hin. destruct Hin as (iv0 & <- & Hin0). auto.
Qed.

Lemma timerInv_reachable w : reachable w -> timerInv w.
Proof.
  apply reachable_inv.
  - intros t0. split; constructor.
  - intros w0 e w1. apply step_timerInv.
Qed.

(** *** After the collection is done *)

Lemma count_app p l1 l2 : count p (l1 ++ l2) = (count p l1 + count p l2)%nat.
Proof. unfold count. now rewrite filter_app, length_app. Qed.

Lemma windsDown_refl w : windsDown w w.
Proof. intros Hc. auto. Qed.

Lemma windsDown_trans a b c : windsDown a b -> windsDown b c -> windsDown a c.
Proof.
  unfold windsDown. intros Hab Hbc Hc.
  destruct (Hab Hc) as (Hcb & Hg1 & Hs1). destruct (Hbc Hcb) as (Hcc & Hg2 & Hs2).
  repeat split; try congruence; lia.
Qed.

#[local] Hint Resolve windsDown_refl windsDown_trans : core.

Ltac calm_prim :=
  try (intros w Hi; unfold inFlight, count;
       cbn; rewrite ?filter_app, ?length_app; cbn;
       rewrite ?app_nil_r, ?Nat.add_0_r, ?Hi; auto; fail).

Lemma clearPolling_calm : respects windsDown clearPolling.
Proof.
  intros w Hi. unfold clearPolling, inFlight, count.
  destruct (pollingRef w); cbn; rewrite ?filter_app, ?length_app, ?Hi; cbn;
    rewrite ?app_nil_r, ?Nat.add_0_r; auto.
Qed.

Lemma start_calm snap :
  respects windsDown (fetchShellScript snap)
  /\ respects windsDown (startModelTraining snap)
  /\ respects windsDown (requestPredictionMode snap)
  /\ (forall t, respects windsDown (predictionCallback snap t))
  /\ (forall n v, respects windsDown (handleCollectionChange n v))
  /\ (forall f, respects windsDown (handleCsvSelect f))
  /\ (forall f m, respects windsDown (mount f m))
  /\ respects windsDown unmount
  /\ respects windsDown (submitCollection snap).
Proof.
  repeat match goal with |- _ /\ _ => split end;
    intros; unfold_start; unfold unmount, fetch, alert; frame_split;
    calm_prim; try apply clearPolling_calm.
  intros w Hc. unfold mount, mountEffect, namesEffect, seq, skip.
  repeat (break_match; cbn); repeat split; apply Hc || reflexivity.
Qed.

Lemma resume_calm t o :
  pollTask t = false -> respects windsDown (resume t o).
Proof.
  destruct t; cbn [resume pollTask]; try discriminate; intros _;
    unfold_resume; unfold fetch, alert, setTimeout; frame_split; calm_prim.
Qed.

Lemma resumeStatus_calm snap o : respects windsDown (resumeStatus snap o).
Proof.
  unfold resumeStatus. frame_split; calm_prim; apply clearPolling_calm.
Qed.

(** A submission whose POST failed starts no polling. *)
Lemma resumeSubmit_calm snap o :
  failed o -> respects windsDown (resumeSubmit snap o).
Proof.
  intros Hf. unfold resumeSubmit, failSubmit, alert.
  destruct o as [res|x]; cbn in Hf; rewrite ?Hf; cbn [negb];
    frame_split; calm_prim.
Qed.

(** The [/getdata] half of a cycle asks for the status: one status poll
    more, one cycle fewer that has yet to ask. *)
Lemma resumeGetdata_calm snap o w :
  intervals w = [] ->
  intervals (resumeGetdata snap o w) = []
  /\ count isGetdataCall (log (resumeGetdata snap o w))
     = count isGetdataCall (log w)
  /\ count isStatusCall (log (resumeGetdata snap o w))
     = S (count isStatusCall (log w))
  /\ inFlight (resumeGetdata snap o w) = inFlight w.
Proof.
  intros Hi.
  unfold resumeGetdata, inFlight, count, fetch, seq, skip.
  repeat (break_match; cbn;
          rewrite ?filter_app, ?length_app; cbn;
          rewrite ?app_nil_r, ?Nat.add_0_r);
    repeat split; auto; lia.
Qed.

Lemma removeNth_forallb (A : Type) (p : A -> bool) i (l : list A) :
  forallb p l = true -> forallb p (removeNth i l) = true.
Proof.
  revert i. induction l as [|x rest IH]; intros i Hp.
  - destruct i; reflexivity.
  - simpl in Hp. apply andb_true_iff in Hp. destruct Hp as [Hx Hr].
    destruct i; simpl; auto. rewrite Hx. now apply IH.
Qed.

Lemma nth_error_forallb (A : Type) (p : A -> bool) i (l : list A) x :
  forallb p l = true -> nth_error l i = Some x -> p x = true.
Proof.
  intros Hp Hn. rewrite forallb_forall in Hp. apply Hp.
  eapply nth_error_In; eauto.
Qed.

Lemma removeNth_filter (A : Type) (p : A -> bool) i (l : list A) x :
  nth_error l i = Some x ->
  (List.length (filter p (removeNth i l)) + (if p x then 1 else 0)
   = List.length (filter p l))%nat.
Proof.
  revert i. induction l as [|y rest IH]; intros [|i] Hn; simpl in *;
    try discriminate.
  - inversion Hn; subst. destruct (p x); simpl; lia.
  - specialize (IH i Hn). destruct (p y); simpl; lia.
Qed.

(** The end of a submission's POST that does not start polling again is a
    failure. *)
Lemma restarts_failed w i snap o :
  nth_error (pending w) i = Some (AwaitSubmit snap) ->
  restarts w (Settle i o) = false -> failed o.
Proof.
  intros Hn. unfold restarts. cbn [timerKind]. destruct o as [res|x]; cbn; auto.
  rewrite Hn. destruct (ok res); [discriminate | reflexivity].
Qed.

(** Short of a restart of the polling, an event winds a world with no
    interval down. *)
Lemma step_calm w e w' :
  restarts w e = false -> step w e = Some w' -> windsDown w w'.
Proof.
  intros He Hs.
  pose proof (start_calm (ui w))
    as (S1 & S2 & S3 & _ & S5 & S6 & S7 & S8 & S9).
  step_inv e Hs;
    try (first [apply S1 | apply S2 | apply S3 | apply S5 | apply S6
               | apply S7 | apply S8 | apply S9]; fail).
  - intros Hi.
    set (w0 := setPending (removeNth i (pending w)) w).
    assert (Hi0 : intervals w0 = []) by exact Hi.
    assert (Hlog0 : log w0 = log w) by reflexivity.
    pose proof (removeNth_filter awaitsGetdata _ _ Heqo0) as Hfl.
    change (List.length (filter awaitsGetdata (pending w)))
      with (inFlight w) in Hfl.
    change (List.length (filter awaitsGetdata (removeNth i (pending w))))
      with (inFlight w0) in Hfl.
    destruct (pollTask t) eqn:Et.
    + destruct t; try discriminate; cbn [resume].
      * pose proof (@resumeSubmit_calm snap o (@restarts_failed w i snap o Heqo0 He))
          as Hrs.
        unfold respects in Hrs. destruct (Hrs w0 Hi0) as (Hi1 & Hg & Hst).
        cbn [awaitsGetdata] in Hfl. rewrite Hlog0 in *.
        split; [exact Hi1 | split; [congruence | lia]].
      * destruct (resumeGetdata_calm snap o _ Hi0) as (Hi1 & Hg & Hst & Hin).
        cbn [awaitsGetdata] in Hfl. rewrite Hlog0 in *.
        split; [exact Hi1 | split; [congruence | lia]].
      * pose proof (resumeStatus_calm snap o) as Hrs. unfold respects in Hrs.
        destruct (Hrs w0 Hi0) as (Hi1 & Hg & Hst).
        cbn [awaitsGetdata] in Hfl. rewrite Hlog0 in *.
        split; [exact Hi1 | split; [congruence | lia]].
    + pose proof (@resume_calm t o Et) as Hrs. unfold respects in Hrs.
      destruct (Hrs w0 Hi0) as (Hi1 & Hg & Hst).
      assert (Hng : awaitsGetdata t = false) by (destruct t; auto; discriminate).
      rewrite Hng in Hfl. rewrite Hlog0 in *.
      split; [exact Hi1 | split; [congruence | lia]].
  - intros Hi. rewrite Hi in *. discriminate.
  - intros Hi.
    match goal with
    | |- context [predictionCallback ?s ?ts ?w0] =>
        pose proof (proj1 (proj2 (proj2 (proj2 (start_calm s)))) ts) as Hcb;
        unfold respects in Hcb;
        destruct (Hcb w0 Hi) as (Hi1 & Hg & Hst)
    end.
    split; [exact Hi1 | split; assumption].
  - intros Hi. split; [exact Hi | split; reflexivity].
Qed.

Lemma run_calm es : forall w w',
  noRestart w es = true -> run w es = Some w' -> windsDown w w'.
Proof.
  induction es as [|e rest IH]; simpl; intros w w' Hes Hr.
  - inversion Hr; subst. apply windsDown_refl.
  - apply andb_true_iff in Hes. destruct Hes as [He Hrest].
    apply negb_true_iff in He.
    destruct (step w e) as [w1|] eqn:Es; [|discriminate].
    eapply windsDown_trans; [eapply step_calm; eauto | eapply IH; eauto].
Qed.

(** *** When the timer is cleared *)

Lemma timerKind_spec w e :
  (timerKind w e = Stops <-> e = Unmount \/ reportsDone w e)
  /\ (timerKind w e = Restarts <-> restartsPolling w e).
Proof.
  unfold reportsDone, restartsPolling. split; split.
  - destruct e; cbn; try discriminate; auto.
    destruct o as [res|x]; try discriminate.
    destruct (nth_error (pending w) i) as [[]|] eqn:En; try discriminate.
    + destruct (ok res); discriminate.
    + destruct (statusZero res) eqn:Ez; try discriminate.
      intros _. right. eauto 6.
  - intros [-> | (i & snap & res & -> & Hn & Hz)]; cbn; auto.
    now rewrite Hn, Hz.
  - destruct e; cbn; try discriminate.
    destruct o as [res|x]; try discriminate.
    destruct (nth_error (pending w) i) as [[]|] eqn:En; try discriminate.
    + destruct (ok res) eqn:Eo; try discriminate. intros _. eauto 6.
    + destruct (statusZero res); discriminate.
  - intros (i & snap & res & -> & Hn & Ho). cbn. now rewrite Hn, Ho.
Qed.

Lemma statusZero_object res props :
  ok res = true -> json res = Ok (JObj props) ->
  statusZero res
  = isDone (jsCoalesce (field "status" props)
              (jsCoalesce (field "status_code" props) JNull)).
Proof.
  intros Ho Hj. unfold statusZero, statusValue, readProp, field, jsCoalesce.
  rewrite Ho, Hj. cbn [andb truthy negb].
  destruct (getProp "status" props) as [a|];
    [destruct (nullish a) eqn:Ea|]; cbn [negb nullish];
    destruct (getProp "status_code" props); reflexivity.
Qed.


(** C9: in every reachable state at most one polling interval runs, the
    one [pollingRef] holds; and an invocation of [pollForDataAndStatus]
    first clears that one, then fetches, then sets the new interval, which
    is the only one left. *)
Theorem single_polling_timer (w : World) :
  reachable w ->
  (List.length (intervals w) <= 1)%nat
  /\ map iid (intervals w) = refIds w
  /\ (forall snap,
      intervals (pollForDataAndStatus snap w)
      = [mkInterval (nextTimer w) snap (clock w + PERIOD)]
      /\ pollingRef (pollForDataAndStatus snap w) = Some (nextTimer w)
      /\ log (pollForDataAndStatus snap w)
         = (log w
            ++ map (fun id => (clock w, IntervalCleared id)) (refIds w)
            ++ [(clock w,
                 Fetched (mkRequest GET Getdata (factoryMedicineId snap) None));
                (clock w, IntervalSet (nextTimer w) PERIOD)])%list).
Proof.
  intros Hr. pose proof (timerInv_reachable Hr) as Hinv.
  pose proof Hinv as [Hids _]. repeat split.
  - rewrite <- (length_map iid), Hids. unfold refIds.
    destruct (pollingRef w); cbn; lia.
  - exact Hids.
  - now apply pollForDataAndStatus_timers.
  - now apply pollForDataAndStatus_timers.
  - apply pollForDataAndStatus_log.
Qed.
End Timers.

(** ** Runs of the scenario *)

Lemma single_polling_timer_witness :
  run (H := Sample.host) (initialWorld 0) submitted = Some (final submitted)
  /\ map iid (intervals (final submitted)) = [1%positive]
  /\ (List.length (intervals (final submitted)) <= 1)%nat.
Proof.
  split; [(vm_compute; reflexivity)|]. split; [(vm_compute; reflexivity)|].
  apply (single_polling_timer (H := Sample.host) (w := final submitted)).
  exists 0%Z, submitted. (vm_compute; reflexivity).
Defined.



(** ** The prediction fetch *)

Lemma count_plain p l :
  (forall x, plain x = true -> p x = false) ->
  forallb plain l = true -> count p l = 0%nat.
Proof.
  intros Hp. unfold count. induction l as [|x rest IH]; simpl; auto.
  intros Hl. apply andb_true_iff in Hl. destruct Hl as [Hx Hr].
  rewrite (Hp x Hx). auto.
Qed.

Lemma samePrediction_refl w : samePrediction w w.
Proof. split; auto. exists []. now rewrite app_nil_r. Qed.

Lemma samePrediction_trans a b c :
  samePrediction a b -> samePrediction b c -> samePrediction a c.
Proof.
  intros (Ht1 & d1 & Hl1 & Hp1) (Ht2 & d2 & Hl2 & Hp2). split; [congruence|].
  exists (d1 ++ d2)%list. rewrite Hl2, Hl1, <- app_assoc, forallb_app, Hp1, Hp2.
  auto.
Qed.

Section Prediction.
Context {H : Host}.

#[local] Hint Resolve samePrediction_refl samePrediction_trans : core.

Ltac pred_prim :=
  try (intros w; split; [reflexivity|];
       first [ exists []; split; [cbn; now rewrite app_nil_r | reflexivity]
             | eexists [_]; split; reflexivity ]; fail).

Lemma clearPolling_prediction : respects samePrediction clearPolling.
Proof.
  intros w. unfold clearPolling. destruct (pollingRef w).
  - split; [reflexivity|]. eexists [_]. split; reflexivity.
  - apply samePrediction_refl.
Qed.

Lemma start_prediction snap :
  respects samePrediction (fetchShellScript snap)
  /\ respects samePrediction (submitCollection snap)
  /\ respects samePrediction (startModelTraining snap)
  /\ respects samePrediction (requestPredictionMode snap)
  /\ respects samePrediction (singleIteration snap)
  /\ (forall n v, respects samePrediction (handleCollectionChange n v))
  /\ (forall f, respects samePrediction (handleCsvSelect f))
  /\ (forall f m, respects samePrediction (mount f m))
  /\ respects samePrediction unmount
  /\ (forall id, respects samePrediction (rearm id)).
Proof.
  repeat match goal with |- _ /\ _ => split end;
    intros; unfold_start; unfold unmount, fetch, alert; frame_split;
    pred_prim; try apply clearPolling_prediction.
  intros w. unfold mount, mountEffect, namesEffect, seq, skip.
  repeat (break_match; cbn);
    (split; [reflexivity | exists []; split;
                           [cbn; now rewrite app_nil_r | reflexivity]]).
Qed.

Lemma pollForDataAndStatus_prediction snap :
  respects samePrediction (pollForDataAndStatus snap).
Proof.
  unfold pollForDataAndStatus, singleIteration, fetch. frame_split; pred_prim.
  apply clearPolling_prediction.
Qed.

Lemma resume_prediction t o :
  schedules t o = false -> respects samePrediction (resume t o).
Proof.
  destruct t, o as [res|e]; cbn [resume schedules]; intros Hs; unfold_resume;
    try rewrite Hs; cbn [negb];
    unfold fetch, alert; frame_split; pred_prim;
    try apply clearPolling_prediction;
    try apply pollForDataAndStatus_prediction.
Qed.

Lemma plain_not_get x : plain x = true -> isPredictGet x = false.
Proof.
  unfold plain. intros Hp. apply andb_true_iff in Hp.
  now apply negb_true_iff.
Qed.

Lemma plain_not_set x : plain x = true -> isTimeoutSet x = false.
Proof.
  unfold plain. intros Hp. apply andb_true_iff in Hp.
  now apply negb_true_iff.
Qed.

Lemma samePrediction_inv w w' :
  samePrediction w w' -> predictionInv w -> predictionInv w'.
Proof.
  intros (Ht & d & Hl & Hp) (Hc & Hdue & Hget). unfold predictionInv.
  rewrite Ht, Hl, !count_app.
  rewrite (@count_plain isPredictGet d plain_not_get Hp).
  rewrite (@count_plain isTimeoutSet d plain_not_set Hp).
  repeat split.
  - lia.
  - intros t Hin. apply in_or_app. left. auto.
  - intros c r Hin Hr. apply in_app_or in Hin. destruct Hin as [Hin | Hin].
    + destruct (Hget c r Hin Hr) as (c0 & Hin0 & Hle).
      exists c0. split; [apply in_or_app; now left | exact Hle].
    + exfalso. rewrite forallb_forall in Hp. specialize (Hp _ Hin).
      apply plain_not_get in Hp. unfold isPredictGet in Hp. cbn in Hp.
      rewrite Hr in Hp. discriminate.
Qed.

Lemma length_removeNth (A : Type) i (l : list A) x :
  nth_error l i = Some x ->
  S (List.length (removeNth i l)) = List.length l.
Proof.
  revert i. induction l as [|y rest IH]; intros [|i]; simpl;
    try discriminate; auto.
Qed.

Lemma In_removeNth (A : Type) i (l : list A) x :
  In x (removeNth i l) -> In x l.
Proof.
  revert i. induction l as [|y rest IH]; intros [|i]; simpl; auto.
  intros [-> | Hin]; eauto.
Qed.

Lemma setTimeout_log snap startTs w :
  log (setTimeout snap startTs w)
  = (log w ++ [(clock w, TimeoutSet PERIOD)])%list.
Proof. reflexivity. Qed.

Lemma setTimeout_timeouts snap startTs w :
  timeouts (setTimeout snap startTs w)
  = (timeouts w ++ [mkTimeout snap startTs (clock w + PERIOD)])%list.
Proof. reflexivity. Qed.

Lemma predictionCallback_log snap startTs w :
  log (predictionCallback snap startTs w)
  = (log w ++ [(clock w,
                Fetched (mkRequest GET Predict (factoryMedicineId snap) None))])%list.
Proof. reflexivity. Qed.

Lemma predictionCallback_timeouts snap startTs w :
  timeouts (predictionCallback snap startTs w) = timeouts w.
Proof. reflexivity. Qed.

Lemma step_predictionInv w e w' :
  predictionInv w -> step w e = Some w' -> predictionInv w'.
Proof.
  intros Hinv Hs.
  pose proof (start_prediction (ui w))
    as (S1 & S2 & S3 & S4 & _ & S6 & S7 & S8 & S9 & _).
  step_inv e Hs;
    try (eapply samePrediction_inv; [|exact Hinv];
         first [apply S1 | apply S2 | apply S3 | apply S4 | apply S6
               | apply S7 | apply S8 | apply S9]; fail).
  - set (w0 := setPending (removeNth i (pending w)) w).
    assert (Hinv0 : predictionInv w0) by exact Hinv.
    destruct (schedules t o) eqn:Esch.
    + destruct t, o as [res|x]; try discriminate. cbn in Esch.
      cbn [resume]. unfold resumePredictPost. rewrite Esch. cbn [negb].
      destruct Hinv0 as (Hc & Hdue & Hget).
      unfold predictionInv. rewrite setTimeout_log, setTimeout_timeouts.
      rewrite !count_app, length_app.
      change (count isPredictGet [(clock w0, TimeoutSet PERIOD)]) with 0%nat.
      change (count isTimeoutSet [(clock w0, TimeoutSet PERIOD)]) with 1%nat.
      repeat split.
      * cbn [List.length]. lia.
      * intros t Hin. apply in_app_or in Hin. apply in_or_app.
        destruct Hin as [Hin | [<- | []]]; [left; auto | right].
        cbn [tdue]. left. f_equal. lia.
      * intros c r Hin Hr. apply in_app_or in Hin.
        destruct Hin as [Hin | [Hin | []]]; [|discriminate].
        destruct (Hget c r Hin Hr) as (c0 & Hin0 & Hle).
        exists c0. split; [apply in_or_app; now left | exact Hle].
    + eapply samePrediction_inv; [|exact Hinv0].
      apply (resume_prediction t o Esch).
  - eapply samePrediction_inv; [|exact Hinv]. unfold seq.
    eapply samePrediction_trans.
    + apply (proj2 (proj2 (proj2 (proj2 (proj2 (proj2 (proj2 (proj2 (proj2
               (start_prediction (ui w))))))))))).
    + match goal with
      | |- samePrediction _ (singleIteration ?s ?w0) =>
          apply (proj1 (proj2 (proj2 (proj2 (proj2 (start_prediction s))))) w0)
      end.
  - destruct Hinv as (Hc & Hdue & Hget).
    match goal with
    | Hn : nth_error (timeouts w) _ = Some _ |- _ =>
        pose proof (length_removeNth _ _ Hn) as Hlen;
        pose proof (nth_error_In _ _ Hn) as Hint
    end.
    match goal with
    | Hle : (_ <=? _)%Z = true |- _ => apply Z.leb_le in Hle
    end.
    unfold predictionInv.
    rewrite predictionCallback_log, predictionCallback_timeouts.
    cbn [log timeouts clock setTimeouts].
    rewrite !count_app.
    match goal with
    | |- context [count isPredictGet [?x]] =>
        change (count isPredictGet [x]) with 1%nat;
        change (count isTimeoutSet [x]) with 0%nat
    end.
    repeat split.
    + lia.
    + intros t' Hin. apply in_or_app. left. apply Hdue.
      eapply In_removeNth; eauto.
    + intros c r Hin Hr. apply in_app_or in Hin.
      destruct Hin as [Hin | [Hin | []]].
      * destruct (Hget c r Hin Hr) as (c0 & Hin0 & Hle0).
        exists c0. split; [apply in_or_app; now left | exact Hle0].
      * injection Hin as <- _. exists (tdue t - PERIOD)%Z.
        split; [apply in_or_app; left; now apply Hdue | lia].
  - exact Hinv.
Qed.

Lemma predictionInv_reachable w : reachable w -> predictionInv w.
Proof.
  apply reachable_inv.
  - intros t0. split; [reflexivity|]. split; cbn; intros; contradiction.
  - intros w0 e w1. apply step_predictionInv.
Qed.

(** C6: a successful predict-mode POST schedules exactly one timeout, due
    15 seconds later, and fetches nothing; the timeout fires no earlier
    than it is due, is gone once it fired, and its callback sends the one
    [GET /predict/{id}]; what follows that GET schedules nothing and sends
    nothing; in every reachable state the prediction fetches made and the
    timeouts pending add up to the timeouts scheduled, and every prediction
    fetch went out at least 15 seconds after a timeout was scheduled; a
    failed POST and a failed GET each set an error message and clear the
    in-flight flag, as every end of the GET does. *)
Theorem prediction_once (snap : State) (startTs : Z) (w : World) :
  (forall res, ok res = true ->
     timeouts (resumePredictPost snap startTs (Resolved res) w)
     = (timeouts w ++ [mkTimeout snap startTs (clock w + 15 * 1000)])%list
     /\ log (resumePredictPost snap startTs (Resolved res) w)
        = (log w ++ [(clock w, TimeoutSet (15 * 1000))])%list
     /\ pending (resumePredictPost snap startTs (Resolved res) w) = pending w
     /\ intervals (resumePredictPost snap startTs (Resolved res) w)
        = intervals w)
  /\ (forall i w', step w (TimeoutFires i) = Some w' ->
      exists t,
        nth_error (timeouts w) i = Some t
        /\ (tdue t <= clock w)%Z
        /\ timeouts w' = removeNth i (timeouts w)
        /\ log w'
           = (log w ++ [(clock w,
                         Fetched (mkRequest GET Predict
                                    (factoryMedicineId (tsnap t)) None))])%list
        /\ pending w'
           = (pending w ++ [AwaitPredictGet (tsnap t) (tstart t)])%list)
  /\ (forall o,
      timeouts (resumePredictGet snap startTs o w) = timeouts w
      /\ intervals (resumePredictGet snap startTs o w) = intervals w
      /\ pending (resumePredictGet snap startTs o w) = pending w
      /\ (log (resumePredictGet snap startTs o w) = log w
          \/ exists e, log (resumePredictGet snap startTs o w)
                       = (log w ++ [(clock w, ConsoleError e)])%list)
      /\ isRequestingPrediction (ui (resumePredictGet snap startTs o w)) = false)
  /\ (forall w0, reachable w0 -> predictionInv w0)
  /\ (forall o, failed o ->
      (exists e, predictionMessage (ui (resumePredictPost snap startTs o w))
                 = "Error requesting prediction mode: " ++ errText e)
      /\ isRequestingPrediction (ui (resumePredictPost snap startTs o w)) = false
      /\ timeouts (resumePredictPost snap startTs o w) = timeouts w)
  /\ (forall o, getFailed startTs o ->
      exists e, predictionMessage (ui (resumePredictGet snap startTs o w))
                = "Error fetching prediction: " ++ errText e).
Proof.
  repeat match goal with |- _ /\ _ => split end.
  - intros res Hok. unfold resumePredictPost. rewrite Hok. cbn [negb].
    repeat split.
  - intros i w' Hs. cbn [step] in Hs.
    destruct (nth_error (timeouts w) i) as [t|] eqn:En; [|discriminate].
    destruct (Z.leb (tdue t) (clock w)) eqn:El; [|discriminate].
    inversion Hs; subst; clear Hs. exists t. apply Z.leb_le in El.
    repeat split; auto.
  - intros o. unfold resumePredictGet, failPredictGet.
    destruct o as [res|e]; [destruct (ok res); cbn [negb];
      [destruct (json res) as [pred|e];
       [destruct (filterEntries (Some startTs) (asArray pred))|]|]|];
      repeat split; cbn; eauto.
  - intros w0. apply predictionInv_reachable.
  - intros o Hf. unfold resumePredictPost, failPredictPost.
    destruct o as [res|e]; cbn in Hf; rewrite ?Hf; cbn [negb];
      (split; [eexists; reflexivity | split; reflexivity]).
  - intros o Hf. unfold resumePredictGet, failPredictGet.
    destruct o as [res|e]; cbn in Hf; [|eexists; reflexivity].
    destruct Hf as [Hok | [(e & Hj) | (pred & e & Hj & Hfl)]].
    + rewrite Hok. eexists; reflexivity.
    + destruct (ok res); cbn [negb]; [rewrite Hj|]; eexists; reflexivity.
    + destruct (ok res); cbn [negb]; [rewrite Hj, Hfl|]; eexists; reflexivity.
Qed.
End Prediction.

Lemma prediction_once_witness :
  (exists e,
     predictionMessage
       (ui (resumePredictGet (H := Sample.host) initialState 0
              (Resolved (serverError 502 "bad gateway")) (initialWorld 15000)))
     = "Error fetching prediction: " ++ errText e)
  /\ predictionInv (final (acmeTonic ++ [CallPrediction;
                                         Settle 0 (Resolved (okJson JNull));
                                         Tick 15000; TimeoutFires 0])).
Proof.
  pose proof (prediction_once (H := Sample.host) initialState 0
                (initialWorld 15000)) as (_ & _ & _ & Hinv & _ & Hget).
  split.
  - apply Hget. left. reflexivity.
  - apply Hinv.
    exists 0%Z, (acmeTonic ++ [CallPrediction;
                               Settle 0 (Resolved (okJson JNull));
                               Tick 15000; TimeoutFires 0])%list.
    vm_compute. reflexivity.
Defined.

(** ** Further properties of the handlers *)

Section Further.
Context {H : Host}.

Lemma filterEntries_unset entries : filterEntries None entries = Ok entries.
Proof.
  induction entries as [|e rest IH]; simpl; auto. now rewrite IH.
Qed.

(** X2: the init script: the fetching flag is cleared however the fetch ends;
    a non-2xx answer leaves an error placeholder with the status code and
    the body; a 2xx answer leaves the body, or a placeholder when it is
    empty. *)
Theorem init_script_outcome (snap : State) (w : World) :
  (forall o, isFetchingScript (ui (resumeShell snap o w)) = false)
  /\ (forall res, ok res = false ->
      scriptText (ui (resumeShell snap (Resolved res) w))
      = "# Error fetching script: Failed to fetch script ("
        ++ showNat (status res) ++ "): " ++ textOrEmpty res)
  /\ (forall res txt, ok res = true -> text res = Ok txt ->
      scriptText (ui (resumeShell snap (Resolved res) w))
      = if truthyStr txt then txt else "# (empty script returned)").
Proof.
  repeat match goal with |- _ /\ _ => split end.
  - intros o. unfold resumeShell, failShell.
    destruct o as [res|e]; [destruct (ok res); [destruct (text res)|]|];
      reflexivity.
  - intros res Hok. unfold resumeShell. rewrite Hok. reflexivity.
  - intros res txt Hok Ht. unfold resumeShell. rewrite Hok, Ht. reflexivity.
Qed.

(** X3: a cycle survives the failure of either fetch: a [/getdata] fetch that
    failed is logged at most, leaves the entries alone and is followed by
    the [/picron] fetch all the same; a [/picron] fetch that failed leaves
    the timer as it is. *)
Theorem cycle_survives_failure (snap : State) (o : Outcome) (w : World) :
  failed o ->
  collectedEntries (ui (resumeGetdata snap o w)) = collectedEntries (ui w)
  /\ pending (resumeGetdata snap o w) = (pending w ++ [AwaitStatus snap])%list
  /\ (exists warned,
       log (resumeGetdata snap o w)
       = (log w ++ warned
          ++ [(clock w,
               Fetched (mkRequest GET Picron (factoryMedicineId snap) None))])%list
       /\ forallb (fun x => negb (isPollFetch x)) warned = true)
  /\ sameTimers w (resumeGetdata snap o w)
  /\ sameTimers w (resumeStatus snap o w)
  /\ pending (resumeStatus snap o w) = pending w.
Proof.
  intros Hf. unfold resumeGetdata, resumeStatus.
  destruct o as [res|e]; cbn in Hf; rewrite ?Hf;
    repeat match goal with |- _ /\ _ => split end;
    try reflexivity; try (repeat split; fail).
  - exists []. split; reflexivity.
  - exists [(clock w, ConsoleWarn "getdata fetch failed" e)].
    split; [|reflexivity]. cbn. now rewrite <- app_assoc.
Qed.

(** X4: when the page goes away no interval is left running. *)
Theorem unmount_clears_timer (w w' : World) :
  reachable w -> step w Unmount = Some w' ->
  intervals w' = [] /\ pollingRef w' = None /\ phase w' = Gone
  /\ forall id, step w' (IntervalFires id) = None.
Proof.
  intros Hr Hs. pose proof (timerInv_reachable Hr) as Hinv.
  cbn [step] in Hs. destruct (isLive w); [|discriminate].
  inversion Hs; subst; clear Hs.
  destruct (clearPolling_timers Hinv) as (Hi & Hp & _).
  unfold unmount, seq. cbn. rewrite Hi, Hp. repeat split.
Qed.

(** X5: what the two POSTs to [/picron] carry.  Past its guard
    [submitCollection] sends the form of its render: every field with its
    number, or [null] when the number is not finite, then [status: 1] and
    the factory name; for a form with the seven fields these nine keys in
    this order.  Past its guard [requestPredictionMode] sends seven zeros,
    [status: 2] and the factory name. *)
Theorem request_payloads (snap : State) (w : World) :
  truthyStr (factoryMedicineId snap) = true ->
  (exists props,
     sends (submitCollection snap) w
       (mkRequest POST Picron (factoryMedicineId snap) (Some (JObj props)))
     /\ (forall k n, k <> "status" -> k <> "factory" ->
         getProp k (collectionForm snap) = Some n ->
         getProp k props
         = Some match n with
                | Fin q => JNum (Fin q)
                | _ => JNull
                end)
     /\ (forall k, k <> "status" -> k <> "factory" ->
         getProp k (collectionForm snap) = None -> getProp k props = None)
     /\ getProp "status" props = Some (JNum (num 1))
     /\ getProp "factory" props = Some (JStr (factoryName snap))
     /\ (map fst (collectionForm snap) = map fst initialForm ->
         map fst props
         = ["taste_sweet"; "taste_salty"; "taste_bitter"; "taste_sour";
            "taste_umami"; "quality"; "dilution"; "status"; "factory"]))
  /\ sends (requestPredictionMode snap) w
       (mkRequest POST Picron (factoryMedicineId snap)
          (Some (JObj [("taste_sweet", JNum (num 0));
                       ("taste_salty", JNum (num 0));
                       ("taste_bitter", JNum (num 0));
                       ("taste_sour", JNum (num 0));
                       ("taste_umami", JNum (num 0));
                       ("quality", JNum (num 0));
                       ("dilution", JNum (num 0));
                       ("status", JNum (num 2));
                       ("factory", JStr (factoryName snap))]))).
Proof.
  intros Hid.
  assert (Hfac : factoryOrEmpty snap = factoryName snap).
  { unfold factoryOrEmpty. now destruct (factoryName snap). }
  split.
  - eexists. split; [|split; [|split; [|split; [|split]]]].
    + unfold sends, submitCollection. rewrite Hid. cbn [negb].
      unfold collectionPayload. reflexivity.
    + intros k n Hs Hf Hk.
      rewrite !getProp_setProp_other by auto.
      rewrite getProp_map, Hk. destruct n; reflexivity.
    + intros k Hs Hf Hk.
      rewrite !getProp_setProp_other by auto.
      now rewrite getProp_map, Hk.
    + rewrite getProp_setProp_other by discriminate.
      apply getProp_setProp_same.
    + rewrite getProp_setProp_same. now rewrite Hfac.
    + intros Hkeys.
      destruct (collectionForm snap) as [|[k1 v1] [|[k2 v2] [|[k3 v3]
        [|[k4 v4] [|[k5 v5] [|[k6 v6] [|[k7 v7] [|]]]]]]]];
        try discriminate.
      cbn in Hkeys. injection Hkeys as -> -> -> -> -> -> ->. reflexivity.
  - unfold sends, requestPredictionMode, predictionPayload.
    rewrite Hid, Hfac. reflexivity.
Qed.

Lemma append_inv_head (a b c : string) : a ++ b = a ++ c -> b = c.
Proof. induction a; simpl; intros E; [exact E | injection E; auto]. Qed.

Lemma length_append (a b : string) :
  String.length (a ++ b) = (String.length a + String.length b)%nat.
Proof. induction a; simpl; auto. Qed.

(** X6: past its guards [startModelTraining] sends one POST with no body to
    [/train/{factoryMedicineId}], which is never the [trainUrl] it built. *)
Theorem training_request (snap : State) (w : World) :
  factoryName snap <> "" \/ factoryMedicineId snap <> "" ->
  csvFile snap <> None ->
  exists r,
    sends (startModelTraining snap) w r
    /\ meth r = POST /\ body r = None
    /\ url r = "https://photontroppers.onrender.com/train/"
               ++ factoryMedicineId snap
    /\ url r <> trainUrl snap.
Proof.
  intros Hn Hc. exists (mkRequest POST Train (factoryMedicineId snap) None).
  repeat match goal with |- _ /\ _ => split end; try reflexivity.
  - unfold sends, startModelTraining.
    destruct (csvFile snap); [|contradiction].
    destruct (truthyStr (factoryName snap)) eqn:Ef,
             (truthyStr (factoryMedicineId snap)) eqn:Ei; try reflexivity.
    apply truthyStr_empty in Ef, Ei. destruct Hn; contradiction.
  - unfold url, trainUrl, TRAIN_URL_TEMPLATE. cbn [endpoint rid path].
    intros E. rewrite append_assoc in E. apply append_inv_head in E.
    change "/train/train/" with ("/train/" ++ "train/") in E.
    rewrite !append_assoc in E. apply append_inv_head in E.
    apply (f_equal String.length) in E. rewrite !length_append in E.
    destruct (truthyStr (factoryMedicineId snap)) eqn:Ei.
    + cbn in E. lia.
    + apply truthyStr_empty in Ei. rewrite Ei in E. cbn in E. lia.
Qed.
End Further.

Lemma cycle_survives_failure_witness :
  sameTimers (final oneCycle)
    (resumeStatus (H := Sample.host) (ui (final acmeTonic))
       (Rejected (mkError "TypeError" "Failed to fetch")) (final oneCycle)).
Proof.
  refine (proj1 (proj2 (proj2 (proj2 (proj2
            (@cycle_survives_failure Sample.host (ui (final acmeTonic))
               (Rejected (mkError "TypeError" "Failed to fetch"))
               (final oneCycle) _)))))).
  exact I.
Defined.

Lemma unmount_clears_timer_witness :
  map iid (intervals (final oneCycle)) = [1%positive]
  /\ intervals (final (oneCycle ++ [Unmount])) = [].
Proof.
  split; [vm_compute; reflexivity|].
  refine (proj1 (@unmount_clears_timer Sample.host (final oneCycle)
                   (final (oneCycle ++ [Unmount])) _ _)).
  - exists 0%Z, oneCycle. vm_compute. reflexivity.
  - vm_compute. reflexivity.
Defined.

Lemma request_payloads_witness :
  exists props,
    sends (submitCollection
             (ui (final (acmeTonic ++ [ChangeInput "dilution" "50"]))))
      (final (acmeTonic ++ [ChangeInput "dilution" "50"]))
      (mkRequest POST Picron "ACME_Tonic1" (Some (JObj props)))
    /\ getProp "dilution" props = Some (JNum (num 50))
    /\ getProp "quality" props = Some (JNum (num 0)).
Proof.
  destruct (proj1 (@request_payloads
                     (ui (final (acmeTonic ++ [ChangeInput "dilution" "50"])))
                     (final (acmeTonic ++ [ChangeInput "dilution" "50"]))
                     eq_refl))
    as (props & Hsend & Hfields & _).
  exists props. split; [exact Hsend|]. split.
  - apply (Hfields "dilution" (num 50)); [discriminate | discriminate |].
    vm_compute. reflexivity.
  - apply (Hfields "quality" (num 0)); [discriminate | discriminate |].
    vm_compute. reflexivity.
Defined.

Lemma training_request_witness :
  exists r,
    sends (startModelTraining (ui (final acmeAlone))) (final acmeAlone) r
    /\ url r = "https://photontroppers.onrender.com/train/".
Proof.
  destruct (@training_request (ui (final acmeAlone)) (final acmeAlone))
    as (r & Hs & _ & _ & Hu & _).
  - left. discriminate.
  - discriminate.
  - exists r. split; [exact Hs | exact Hu].
Defined.

Lemma init_script_outcome_witness :
  scriptText
    (ui (resumeShell initialState (Resolved (serverError 404 "no such id"))
           (initialWorld 0)))
  = "# Error fetching script: Failed to fetch script (404): no such id".
Proof.
  refine (proj1 (proj2 (init_script_outcome initialState (initialWorld 0)))
            (serverError 404 "no such id") _).
  reflexivity.
Defined.

(** ** The rendered page and the clicks on it *)

Section ViewFacts.
Context {H : Host}.

(** X7: the render is consistent with itself and with the event loop.  Each
    of the three buttons wears the enabled style exactly when it is not
    disabled; the inputs are those of the form's fields, in their order;
    the Download button and the script panel are there exactly when there
    is a script, and then a click always saves a file; and an event of the
    loop is the handler of the rendered control, run when the page is live
    and the control enabled. *)
Theorem render_consistent (w : World) :
  let v := render (ui w) in
  (forall b, In b [fetchButton v; submitButton v; trainButton v] ->
     className b = buttonClass (negb (disabled b)))
  /\ map iname (inputs v) = map fst initialForm
  /\ (downloadButton v = None <-> scriptText (ui w) = "")
  /\ (scriptPanel v = None <-> scriptText (ui w) = "")
  /\ (forall tr, downloadButton v = Some tr ->
      In ClickAnchor tr /\ In (AppendAnchor (scriptFilename (ui w))) tr)
  /\ step w ClickFetchScript
     = (if isLive w && negb (disabled (fetchButton v))
        then Some (onClick (fetchButton v) w) else None)
  /\ step w ClickSubmit
     = (if isLive w && negb (disabled (submitButton v))
        then Some (onClick (submitButton v) w) else None)
  /\ step w ClickTrain
     = (if isLive w && negb (disabled (trainButton v))
        then Some (onClick (trainButton v) w) else None)
  /\ (forall i value, In i (inputs v) ->
      step w (ChangeInput (iname i) value)
      = if isLive w then Some (onChange i value w) else None)
  /\ (forall f, step w (SelectCsv f)
                = if isLive w then Some (onFile v f w) else None).
Proof.
  cbv zeta. repeat match goal with |- _ /\ _ => split end.
  - intros b [<- | [<- | [<- | []]]]; cbn [render className disabled fetchButton
      submitButton trainButton]; f_equal.
    + now rewrite negb_orb, negb_involutive.
    + now rewrite negb_orb, negb_involutive.
    + now rewrite negb_orb, negb_involutive.
  - reflexivity.
  - cbn [render downloadButton]. rewrite truthyStr_empty.
    destruct (truthyStr (scriptText (ui w))); split; congruence.
  - cbn [render scriptPanel]. rewrite truthyStr_empty.
    destruct (truthyStr (scriptText (ui w))); split; congruence.
  - cbn [render downloadButton]. unfold downloadScript. intros tr.
    destruct (truthyStr (scriptText (ui w))); [|discriminate].
    intros E. injection E as <-. cbn. auto.
  - cbn [step render fetchButton disabled onClick].
    rewrite negb_orb, negb_involutive, andb_assoc. reflexivity.
  - cbn [step render submitButton disabled onClick].
    rewrite negb_orb, negb_involutive, andb_assoc. reflexivity.
  - cbn [step render trainButton disabled onClick].
    rewrite negb_orb, negb_involutive, andb_assoc. reflexivity.
  - intros i value Hin. cbn [render inputs] in Hin.
    unfold renderCollectionInputs in Hin. apply in_map_iff in Hin.
    destruct Hin as (f & <- & _). reflexivity.
  - intros f. reflexivity.
Qed.

(** X11: a click on an enabled button never runs into the guard that the
    button's [disabled] attribute repeats.  Get Init Script and Submit
    always send their request; Start Model Training never raises the
    missing-file alert: it raises the missing-names alert, and changes
    nothing, exactly when [factoryName] is empty, and sends its request
    otherwise. *)
Theorem clicks_pass_guards (w w' : World) :
  reachable w ->
  (step w ClickFetchScript = Some w' ->
   log w' = (log w ++ [(clock w,
              Fetched (mkRequest GET Shell (factoryMedicineId (ui w)) None))])%list
   /\ factoryMedicineId (ui w) <> "")
  /\ (step w ClickSubmit = Some w' ->
      log w' = (log w ++ [(clock w,
                 Fetched (mkRequest POST Picron (factoryMedicineId (ui w))
                            (Some (collectionPayload (ui w)))))])%list
      /\ factoryMedicineId (ui w) <> "")
  /\ (step w ClickTrain = Some w' ->
      (factoryName (ui w) = ""
       /\ log w' = (log w ++ [(clock w,
            Alerted "Factory/medicine not set. Please set them on Home page.")])%list
       /\ ui w' = ui w /\ pending w' = pending w)
      \/ (factoryName (ui w) <> ""
          /\ log w' = (log w ++ [(clock w,
               Fetched (mkRequest POST Train (factoryMedicineId (ui w)) None))])%list
          /\ isTraining (ui w') = true)).
Proof.
  intros Hr. destruct (identityInv_reachable Hr) as [Hid _].
  unfold idInv, derivedId in Hid.
  repeat match goal with |- _ /\ _ => split end; cbn [step]; intros Hs.
  - destruct (isLive w); [|discriminate]. cbn [andb] in Hs.
    destruct (truthyStr (factoryMedicineId (ui w))) eqn:Ei; [|discriminate].
    destruct (isFetchingScript (ui w)); [discriminate|].
    injection Hs as <-. unfold fetchShellScript. rewrite Ei. split.
    + reflexivity.
    + intros E. apply truthyStr_empty in E. congruence.
  - destruct (isLive w); [|discriminate]. cbn [andb] in Hs.
    destruct (isSubmittingCollection (ui w)); [discriminate|]. cbn in Hs.
    destruct (truthyStr (factoryMedicineId (ui w))) eqn:Ei; [|discriminate].
    injection Hs as <-. unfold submitCollection. rewrite Ei. split.
    + reflexivity.
    + intros E. apply truthyStr_empty in E. congruence.
  - destruct (isLive w); [|discriminate]. cbn [andb] in Hs.
    unfold hasFile in Hs.
    destruct (csvFile (ui w)) as [file|] eqn:Ec; [|discriminate].
    destruct (isTraining (ui w)); [discriminate|].
    injection Hs as <-. unfold startModelTraining. rewrite Ec.
    destruct (truthyStr (factoryName (ui w))) eqn:Ef.
    + right. cbn [negb andb]. split; [|split; reflexivity].
      intros E. apply truthyStr_empty in E. congruence.
    + left. rewrite Hid. cbn [andb truthyStr negb].
      split; [now apply truthyStr_empty|]. repeat split.
Qed.
End ViewFacts.

Lemma render_consistent_witness :
  step (H := Sample.host) (final acmeTonic) (ChangeInput "quality" "7")
  = if isLive (final acmeTonic)
    then Some (handleCollectionChange (H := Sample.host) "quality" "7"
                 (final acmeTonic))
    else None.
Proof.
  refine (proj1 (proj2 (proj2 (proj2 (proj2 (proj2 (proj2 (proj2 (proj2
            (render_consistent (H := Sample.host) (final acmeTonic))))))))))
            (mkInput "Quality" "quality"
               (getProp "quality" (collectionForm (ui (final acmeTonic))))
               (handleCollectionChange (H := Sample.host) "quality"))
            "7" _).
  cbn [render inputs]. unfold renderCollectionInputs, FIELDS. cbn [map fst snd].
  do 5 right. left. reflexivity.
Defined.

Lemma clicks_pass_guards_witness :
  log (final (acmeAlone ++ [ClickTrain]))
  = [(0%Z, Fetched (mkRequest POST Train "" None))].
Proof.
  assert (Hr : reachable (H := Sample.host) (final acmeAlone)).
  { exists 0%Z, acmeAlone. vm_compute. reflexivity. }
  assert (Hs : step (H := Sample.host) (final acmeAlone) ClickTrain
               = Some (final (acmeAlone ++ [ClickTrain]))).
  { vm_compute. reflexivity. }
  destruct (proj2 (proj2 (@clicks_pass_guards Sample.host _
                            (final (acmeAlone ++ [ClickTrain])) Hr)) Hs)
    as [(E & _) | (_ & E & _)].
  - discriminate E.
  - exact E.
Defined.

(** ** What ends the polling, and what the filter does with odd records *)

Section OddAnswers.
Context {H : Host}.

Lemma statusValue_total pdata : exists st, statusValue pdata = Ok st.
Proof.
  unfold statusValue, readProp.
  destruct pdata as [| |b|n|s|items|props]; cbn; eauto;
    try (break_match; eauto; fail).
  destruct (getProp "status" props) as [a|];
    [destruct (nullish a); cbn; eauto|];
    destruct (getProp "status_code" props); cbn; eauto.
Qed.


Lemma geNum_earlier p s1 s2 :
  (s1 <= s2)%Z -> geNum p (num s2) = true -> geNum p (num s1) = true.
Proof.
  intros Hle. destruct p as [| | |q]; cbn; auto.
  rewrite !Qle_bool_iff. intros Hq.
  apply Qle_trans with (inject_Z s2); auto. now rewrite <- Zle_Qle.
Qed.

Lemma passes_earlier s1 s2 e :
  (0 < s1)%Z -> (s1 <= s2)%Z ->
  passes (Some s2) e = true -> passes (Some s1) e = true.
Proof.
  intros H0 Hle. unfold passes, keepEntry.
  assert (E1 : (s1 =? 0)%Z = false) by (apply Z.eqb_neq; lia).
  assert (E2 : (s2 =? 0)%Z = false) by (apply Z.eqb_neq; lia).
  rewrite E1, E2. destruct (entryTs e) as [ts|x]; auto.
  destruct (truthy ts); cbn [negb]; auto.
  destruct (parseTs ts) as [p|]; auto.
  destruct (truthyNum p); cbn [andb]; auto.
  destruct (geNum p (num s2)) eqn:E; [|discriminate].
  now rewrite (geNum_earlier _ Hle E).
Qed.

Lemma filterEntries_filter startTs entries kept :
  filterEntries startTs entries = Ok kept ->
  kept = filter (passes startTs) entries /\ allReturn startTs entries.
Proof.
  revert kept. induction entries as [|x rest IH]; simpl; intros kept Hf.
  - inversion Hf; subst. split; constructor.
  - unfold passes at 1.
    destruct (keepEntry startTs x) as [keep|] eqn:Ek; [|discriminate].
    destruct (filterEntries startTs rest) as [kept'|]; [|discriminate].
    inversion Hf; subst; clear Hf. destruct (IH kept' eq_refl) as [-> Hall].
    split; [destruct keep; reflexivity|]. constructor; eauto.
Qed.

Lemma filterEntries_returns startTs entries :
  allReturn startTs entries ->
  filterEntries startTs entries = Ok (filter (passes startTs) entries).
Proof.
  induction 1 as [|x rest [b Hb] _ IH]; simpl; auto.
  unfold passes at 1. rewrite Hb, IH. destruct b; reflexivity.
Qed.

Lemma filter_narrower (A : Type) (p q : A -> bool) (l : list A) :
  (forall x, q x = true -> p x = true) ->
  filter q (filter p l) = filter q l.
Proof.
  intros Hpq. induction l as [|x rest IH]; simpl; auto.
  destruct (p x) eqn:Ep; simpl.
  - destruct (q x); now rewrite IH.
  - destruct (q x) eqn:Eq; auto. apply Hpq in Eq. congruence.
Qed.

Lemma allReturn_filter startTs (p : JsVal -> bool) entries :
  allReturn startTs entries -> allReturn startTs (filter p entries).
Proof.
  unfold allReturn. rewrite !Forall_forall. intros Hall e Hin.
  apply filter_In in Hin. now apply Hall.
Qed.

(** X13: the filter as a whole.  What it returns is the records that pass,
    in the order of the response, each as often as it came; filtering the
    result again changes nothing; and a later start keeps a part of what an
    earlier one keeps: filtering by the later start what the earlier one
    kept gives what the later one keeps of the whole response. *)
Theorem filter_keeps_order (startTs : option Z) (entries kept : list JsVal) :
  filterEntries startTs entries = Ok kept ->
  kept = filter (passes startTs) entries
  /\ filterEntries startTs kept = Ok kept
  /\ (forall s1 s2 later, startTs = Some s1 -> (0 < s1)%Z -> (s1 <= s2)%Z ->
      filterEntries (Some s2) entries = Ok later ->
      filterEntries (Some s2) kept = Ok later /\ incl later kept).
Proof.
  intros Hf. destruct (filterEntries_filter _ _ Hf) as [Hk Hall].
  split; [exact Hk|]. split.
  - rewrite Hk at 1. rewrite filterEntries_returns
      by now apply allReturn_filter.
    rewrite filter_narrower by auto. now rewrite <- Hk.
  - intros s1 s2 later -> H0 Hle Hl.
    destruct (filterEntries_filter _ _ Hl) as [Hk2 Hall2].
    assert (Hn : filter (passes (Some s2)) kept = later).
    { rewrite Hk, Hk2. apply filter_narrower.
      intros x. now apply passes_earlier. }
    split.
    + rewrite Hk at 1. rewrite filterEntries_returns
        by now apply allReturn_filter.
      rewrite <- Hk. now rewrite Hn.
    + rewrite <- Hn. intros x Hin. apply filter_In in Hin. tauto.
Qed.

Lemma entryTs_throws_TypeError e x :
  entryTs e = Threw x -> ename x = "TypeError".
Proof.
  unfold entryTs. intros Hx.
  repeat (break_hyp Hx; try discriminate);
    inversion Hx; subst; eapply readProp_throws; eauto.
Qed.

Lemma filterEntries_TypeError startTs entries x :
  filterEntries startTs entries = Threw x -> ename x = "TypeError".
Proof.
  induction entries as [|e rest IH]; simpl; [discriminate|].
  destruct (keepEntry startTs e) as [keep|y] eqn:Ek.
  - destruct (filterEntries startTs rest) as [kept|z]; [discriminate|].
    intros E. injection E as <-. auto.
  - intros E. injection E as <-. unfold keepEntry in Ek.
    repeat (break_hyp Ek; try discriminate).
    injection Ek as <-. eapply entryTs_throws_TypeError; eauto.
Qed.

End OddAnswers.


Lemma filter_keeps_order_witness :
  filterEntries (H := Sample.host) (Some 1704067200000%Z) [newYearRecord]
  = Ok [newYearRecord].
Proof.
  refine (proj1 (proj2 (@filter_keeps_order Sample.host
                          (Some 1704067200000%Z)
                          [oldRecord; newYearRecord; garbledRecord]
                          [newYearRecord] _))).
  vm_compute. reflexivity.
Defined.


(** ** When the page goes away, and which pages share an identifier *)

Section Teardown.
Context {H : Host}.


Lemma split_at_underscore f1 m1 f2 m2 :
  mentions "_" f1 = false -> mentions "_" f2 = false ->
  f1 ++ "_" ++ m1 = f2 ++ "_" ++ m2 -> f1 = f2 /\ m1 = m2.
Proof.
  revert f2. induction f1 as [|a r1 IH]; intros [|b r2]; simpl;
    intros H1 H2 E.
  - injection E as ->. auto.
  - injection E as <- _. discriminate.
  - injection E as -> _. discriminate.
  - injection E as -> E. apply orb_false_iff in H1, H2.
    destruct (IH r2) as [-> ->]; tauto.
Qed.

Lemma mount_identifier f m t0 :
  f <> "" -> m <> "" ->
  factoryMedicineId (ui (mount (Some f) (Some m) (initialWorld t0)))
  = f ++ "_" ++ m.
Proof.
  intros Hf Hm. destruct f as [|a f]; [contradiction|].
  destruct m as [|b m]; [contradiction|]. reflexivity.
Qed.

(** X16: the identifier tells two pages apart only when the factory names
    hold no underscore.  If neither does, pages with the same identifier have
    the same two names; with an underscore, the names [a_b] and [c] give
    the identifier of [a] and [b_c]. *)
Theorem identity_collisions (t0 : Z) :
  (forall f1 m1 f2 m2,
     f1 <> "" -> m1 <> "" -> f2 <> "" -> m2 <> "" ->
     mentions "_" f1 = false -> mentions "_" f2 = false ->
     factoryMedicineId (ui (mount (Some f1) (Some m1) (initialWorld t0)))
     = factoryMedicineId (ui (mount (Some f2) (Some m2) (initialWorld t0))) ->
     f1 = f2 /\ m1 = m2)
  /\ factoryMedicineId (ui (mount (Some "a_b") (Some "c") (initialWorld t0)))
     = factoryMedicineId (ui (mount (Some "a") (Some "b_c") (initialWorld t0))).
Proof.
  split; [|reflexivity].
  intros f1 m1 f2 m2 Hf1 Hm1 Hf2 Hm2 H1 H2.
  rewrite !mount_identifier by assumption.
  now apply split_at_underscore.
Qed.

(** X17: a cycle of an earlier submission that is still in flight when Submit
    is clicked again adds its records to the new submission: the click
    empties the entries and records the new start, and when the old cycle's
    [/getdata] fetch ends, what it kept, filtered by the start timestamp
    of its own closure, is all there is in the entries. *)
Theorem late_cycle_joins_new_submission
  (w w1 : World) (i : nat) (old : State) (res : Response) (gd : JsVal)
  (kept : list JsVal) :
  nth_error (pending w) i = Some (AwaitGetdata old) ->
  step w ClickSubmit = Some w1 ->
  ok res = true -> json res = Ok gd ->
  filterEntries (collectionStartTs old) (asArray gd) = Ok kept ->
  collectedEntries (ui w1) = []
  /\ collectionStartTs (ui w1) = Some (clock w)
  /\ exists w2,
       step w1 (Settle i (Resolved res)) = Some w2
       /\ collectedEntries (ui w2) = kept
       /\ collectionStartTs (ui w2) = Some (clock w).
Proof.
  intros Hn Hs Hok Hj Hf. cbn [step] in Hs.
  destruct (isLive w && negb (isSubmittingCollection (ui w))
            && truthyStr (factoryMedicineId (ui w))) eqn:E; [|discriminate].
  apply andb_true_iff in E. destruct E as [_ Hid].
  injection Hs as <-. unfold submitCollection. rewrite Hid. cbn [negb].
  split; [reflexivity|]. split; [reflexivity|].
  cbn [step]. unfold fetch, seq. cbn [pending setState emit setPending].
  rewrite nth_error_app1 by (apply nth_error_Some; congruence).
  rewrite Hn. eexists. split; [reflexivity|]. cbn [resume]. split.
  - erewrite resumeGetdata_kept by eauto. reflexivity.
  - unfold resumeGetdata. rewrite Hok, Hj, Hf.
    destruct (nonEmpty kept); reflexivity.
Qed.
End Teardown.


Lemma identity_collisions_witness :
  "ACME" = "ACME" /\ "Tonic_1" = "Tonic_1".
Proof.
  refine (proj1 (identity_collisions 0) "ACME" "Tonic_1" "ACME" "Tonic_1"
            _ _ _ _ _ _ _); try discriminate; reflexivity.
Defined.

Lemma late_cycle_joins_new_submission_witness :
  collectedEntries (ui (final (submitted ++ [ClickSubmit]))) = []
  /\ collectionStartTs (ui (final (submitted ++ [ClickSubmit]))) = Some 0%Z
  /\ exists w2,
       step (H := Sample.host) (final (submitted ++ [ClickSubmit]))
         (Settle 0 (Resolved (okJson (JArr [oldRecord])))) = Some w2
       /\ collectedEntries (ui w2) = [oldRecord]
       /\ collectionStartTs (ui w2) = Some 0%Z.
Proof.
  refine (@late_cycle_joins_new_submission Sample.host (final submitted)
            (final (submitted ++ [ClickSubmit])) 0
            (ui (final (acmeTonic ++ [ChangeInput "dilution" "50"])))
            (okJson (JArr [oldRecord])) (JArr [oldRecord]) [oldRecord]
            _ _ _ _ _); vm_compute; reflexivity.
Defined.

(** ** The four steps of the wizard keep to their own state *)

Lemma keepsPart_refl p w : keepsPart p w w.
Proof. destruct p; repeat split. Qed.

Lemma keepsPart_trans p a b c :
  keepsPart p a b -> keepsPart p b c -> keepsPart p a c.
Proof. unfold keepsPart. destruct p; cbn; intuition congruence. Qed.

Lemma keeps_refl (A : Type) (f : World -> A) w : keeps f w w.
Proof. reflexivity. Qed.

Lemma keeps_trans (A : Type) (f : World -> A) a b c :
  keeps f a b -> keeps f b c -> keeps f a c.
Proof. unfold keeps. congruence. Qed.

Section Parts.
Context {H : Host}.

#[local] Hint Resolve keepsPart_refl keepsPart_trans keeps_refl keeps_trans
  : core.

(** What is left of a frame goal once it is split: a state setter, an
    effect, or the clearing of the timer. *)
Ltac part_prim :=
  try (intro; repeat split; reflexivity);
  try (intros w; unfold clearPolling; destruct (pollingRef w);
       repeat split; reflexivity).

Lemma resume_part p t o :
  partOfTask t <> p -> respects (keepsPart p) (resume t o).
Proof.
  destruct p, t; cbn [partOfTask]; try congruence; intros _;
    cbn [resume]; unfold_resume;
    unfold pollForDataAndStatus, singleIteration, fetch, alert;
    frame_split; part_prim.
Qed.

Lemma start_part p snap :
  (p <> Script -> respects (keepsPart p) (fetchShellScript snap))
  /\ (p <> Collection -> respects (keepsPart p) (submitCollection snap))
  /\ (p <> Training -> respects (keepsPart p) (startModelTraining snap))
  /\ (p <> Prediction -> respects (keepsPart p) (requestPredictionMode snap))
  /\ (forall t, respects (keepsPart p) (predictionCallback snap t))
  /\ respects (keepsPart p) (singleIteration snap)
  /\ (forall n v, p <> Collection ->
      respects (keepsPart p) (handleCollectionChange n v))
  /\ (forall f, p <> Training -> respects (keepsPart p) (handleCsvSelect f))
  /\ (forall f m, p <> Names -> respects (keepsPart p) (mount f m))
  /\ respects (keepsPart p) unmount.
Proof.
  repeat match goal with |- _ /\ _ => split end; intros;
    destruct p; try congruence;
    unfold_start; unfold unmount, fetch, alert; frame_split; part_prim.
  all: intros w; unfold mount, mountEffect, namesEffect, seq, skip;
    repeat (break_match; cbn); repeat split; reflexivity.
Qed.

Lemma step_part w e w' :
  step w e = Some w' ->
  forall p, partOfEvent w e <> Some p -> samePart p (ui w) (ui w').
Proof.
  intros Hs p Hp.
  pose proof (start_part p (ui w))
    as (S1 & S2 & S3 & S4 & _ & _ & S7 & S8 & S9 & S10).
  assert (Hne : forall q, partOfEvent w e = Some q -> p <> q) by congruence.
  step_inv e Hs; cbn [partOfEvent] in Hne;
    try (first [apply S1 | apply S2 | apply S3 | apply S4 | apply S7
               | apply S8 | apply S9 | apply S10 ];
         try (apply Hne; reflexivity); fail).
  - match goal with
    | E : nth_error (pending w) i = Some t |- _ => rewrite E in Hne
    end.
    cbn [option_map] in Hne.
    apply (@resume_part p t o (fun E => Hne _ eq_refl (eq_sym E))
             (setPending (removeNth i (pending w)) w)).
  - unfold seq.
    match goal with
    | |- context [singleIteration ?s (rearm ?id ?w0)] =>
        apply (proj1 (proj2 (proj2 (proj2 (proj2 (proj2 (start_part p s))))))
                 (rearm id w0))
    end.
  - match goal with
    | |- context [predictionCallback ?s ?t ?w0] =>
        apply (proj1 (proj2 (proj2 (proj2 (proj2 (start_part p s))))) t w0)
    end.
  - destruct p; repeat split.
Qed.

(** X18: an event writes only the state of its own step.  A click, a timer
    and the end of a fetch leave the identity and the state of the three
    other steps as they were: fetching the script and training never touch
    the collected entries, a submission never touches the predictions; the
    mount writes the identity only; the teardown and the passing of time
    write nothing of the state. *)
Theorem phases_independent (w : World) (e : Event) (w' : World) :
  step w e = Some w' ->
  forall p, partOfEvent w e <> Some p -> samePart p (ui w) (ui w').
Proof. apply step_part. Qed.

(** The fields of a payload whose form has the seven fields. *)
Lemma payload_fields snap :
  map fst (collectionForm snap) = map fst initialForm ->
  exists props,
    collectionPayload snap = JObj props
    /\ map fst props
       = ["taste_sweet"; "taste_salty"; "taste_bitter"; "taste_sour";
          "taste_umami"; "quality"; "dilution"; "status"; "factory"].
Proof.
  intros Hkeys. eexists. split; [reflexivity|].
  destruct (collectionForm snap) as [|[k1 v1] [|[k2 v2] [|[k3 v3]
    [|[k4 v4] [|[k5 v5] [|[k6 v6] [|[k7 v7] [|]]]]]]]];
    try discriminate.
  cbn in Hkeys. injection Hkeys as -> -> -> -> -> -> ->. reflexivity.
Qed.

Lemma resume_form t o : respects (keeps formOf) (resume t o).
Proof.
  destruct t; cbn [resume]; unfold_resume;
    unfold pollForDataAndStatus, singleIteration, fetch, alert;
    frame_split; part_prim.
Qed.

Lemma start_form snap :
  respects (keeps formOf) (fetchShellScript snap)
  /\ respects (keeps formOf) (submitCollection snap)
  /\ respects (keeps formOf) (startModelTraining snap)
  /\ respects (keeps formOf) (requestPredictionMode snap)
  /\ (forall t, respects (keeps formOf) (predictionCallback snap t))
  /\ respects (keeps formOf) (singleIteration snap)
  /\ (forall f, respects (keeps formOf) (handleCsvSelect f))
  /\ (forall f m, respects (keeps formOf) (mount f m))
  /\ respects (keeps formOf) unmount.
Proof.
  repeat match goal with |- _ /\ _ => split end; intros;
    unfold_start; unfold unmount, fetch, alert; frame_split; part_prim.
  intros w; unfold mount, mountEffect, namesEffect, seq, skip;
    repeat (break_match; cbn); reflexivity.
Qed.

Lemma step_form w e w' :
  step w e = Some w' -> fromPage e = true ->
  map fst (formOf w) = map fst initialForm ->
  map fst (formOf w') = map fst initialForm.
Proof.
  intros Hs Hp Hk.
  pose proof (start_form (ui w))
    as (S1 & S2 & S3 & S4 & _ & _ & S7 & S8 & S9).
  assert (Hsame : forall w1, keeps formOf w w1 ->
            map fst (formOf w1) = map fst initialForm).
  { unfold keeps. intros w1 ->. exact Hk. }
  step_inv e Hs;
    try (apply Hsame;
         first [apply S1 | apply S2 | apply S3 | apply S4 | apply S7
               | apply S8 | apply S9 | reflexivity]; fail).
  - unfold formOf, handleCollectionChange. cbn [setState ui collectionForm
      setCollectionForm]. rewrite setProp_keys; [exact Hk|].
    cbn [fromPage] in Hp. apply existsb_exists in Hp.
    destruct Hp as (k & Hin & Heq). apply String.eqb_eq in Heq. subst k.
    change (map fst FIELDS) with (map fst initialForm) in Hin.
    unfold formOf in Hk. rewrite <- Hk in Hin.
    clear - Hin. induction (collectionForm (ui w)) as [|[k v] rest IH];
      simpl in *; [contradiction|].
    destruct (String.eqb name k) eqn:E; [discriminate|].
    destruct Hin as [-> | Hin]; [now rewrite String.eqb_refl in E | auto].
  - apply Hsame.
    apply (resume_form t o (setPending (removeNth i (pending w)) w)).
Qed.

(** X19: edits through the rendered inputs never add a field to the form,
    drop one or reorder them.  After any run of events whose change events
    name rendered inputs, the form has its seven fields in their first
    order, every input shows a number, and the payload of a submission has
    the seven fields, then [status] and [factory]. *)
Theorem form_keeps_fields (t0 : Z) (es : list Event) (w : World) :
  run (initialWorld t0) es = Some w ->
  forallb fromPage es = true ->
  map fst (collectionForm (ui w)) = map fst initialForm
  /\ Forall (fun i => exists n, ivalue i = Some n) (inputs (render (ui w)))
  /\ exists props,
       collectionPayload (ui w) = JObj props
       /\ map fst props
          = ["taste_sweet"; "taste_salty"; "taste_bitter"; "taste_sour";
             "taste_umami"; "quality"; "dilution"; "status"; "factory"].
Proof.
  intros Hrun Hes.
  assert (Hk : map fst (formOf w) = map fst initialForm).
  { assert (H0 : map fst (formOf (initialWorld t0)) = map fst initialForm)
      by reflexivity.
    revert Hrun Hes H0. generalize (initialWorld t0) as w0.
    induction es as [|e es IH]; simpl; intros w0 Hrun Hes H0.
    - now inversion Hrun; subst.
    - destruct (step w0 e) as [w1|] eqn:E; [|discriminate].
      apply andb_true_iff in Hes. destruct Hes as [He Hes].
      apply (IH w1); auto. eapply step_form; eauto. }
  unfold formOf in Hk. split; [exact Hk|]. split.
  - cbn [render inputs]. unfold renderCollectionInputs.
    apply Forall_forall. intros i Hin. apply in_map_iff in Hin.
    destruct Hin as (f & <- & Hf). cbn [ivalue].
    assert (Hin : In (fst f) (map fst (collectionForm (ui w)))).
    { rewrite Hk. change (map fst initialForm) with (map fst FIELDS).
      now apply in_map. }
    clear - Hin. induction (collectionForm (ui w)) as [|[k v] rest IH];
      simpl in *; [contradiction|].
    destruct (String.eqb (fst f) k) eqn:E; [eauto|].
    destruct Hin as [-> | Hin]; [now rewrite String.eqb_refl in E | auto].
  - now apply payload_fields.
Qed.
End Parts.

Lemma phases_independent_witness :
  samePart Collection (ui (final oneCycle))
    (ui (final (oneCycle ++ [SelectCsv (Some "readings.csv")]))).
Proof.
  refine (@phases_independent Sample.host (final oneCycle)
            (SelectCsv (Some "readings.csv"))
            (final (oneCycle ++ [SelectCsv (Some "readings.csv")]))
            _ Collection _).
  - vm_compute. reflexivity.
  - discriminate.
Defined.

Lemma form_keeps_fields_witness :
  map fst (collectionForm (ui (final submitted))) = map fst initialForm.
Proof.
  refine (proj1 (@form_keeps_fields Sample.host 0 submitted (final submitted)
                   _ _)); vm_compute; reflexivity.
Defined.

(** ** One request per button *)

Section InFlight.
Context {H : Host}.

#[local] Hint Resolve keeps_refl keeps_trans : core.

Ltac busy_prim :=
  try (intros w0; unfold keeps, flagOf, waiting; cbn;
       rewrite ?filter_app; cbn; rewrite ?app_nil_r; reflexivity);
  try (intros w0; unfold keeps, clearPolling; destruct (pollingRef w0);
       reflexivity).

(** The end of a fetch parks no request of a button. *)
Lemma resume_waiting k t o : respects (keeps (waiting k)) (resume t o).
Proof.
  destruct k, t; cbn [resume]; unfold_resume;
    unfold pollForDataAndStatus, singleIteration, fetch, alert;
    frame_split; busy_prim.
Qed.

Lemma resume_flag k t o :
  awaits k t = false -> respects (keeps (flagOf k)) (resume t o).
Proof.
  destruct k, t; cbn [awaits]; try discriminate; intros _;
    cbn [resume]; unfold_resume;
    unfold pollForDataAndStatus, singleIteration, fetch, alert;
    frame_split; busy_prim.
Qed.

Lemma resume_clears k t o w :
  awaits k t = true -> flagOf k (resume t o w) = false.
Proof.
  destruct k, t; cbn [awaits]; try discriminate; intros _; reflexivity.
Qed.

Lemma start_waiting k snap :
  (k <> BusyScript -> respects (keeps (waiting k)) (fetchShellScript snap))
  /\ (k <> BusySubmit -> respects (keeps (waiting k)) (submitCollection snap))
  /\ (k <> BusyTrain -> respects (keeps (waiting k)) (startModelTraining snap))
  /\ respects (keeps (waiting k)) (requestPredictionMode snap)
  /\ (forall n v, respects (keeps (waiting k)) (handleCollectionChange n v))
  /\ (forall f, respects (keeps (waiting k)) (handleCsvSelect f))
  /\ (forall f m, respects (keeps (waiting k)) (mount f m))
  /\ respects (keeps (waiting k)) unmount.
Proof.
  repeat match goal with |- _ /\ _ => split end; intros;
    destruct k; try congruence;
    unfold_start; unfold unmount, fetch, alert; frame_split; busy_prim.
  all: intros w; unfold mount, mountEffect, namesEffect, seq, skip;
    repeat (break_match; cbn); reflexivity.
Qed.

Lemma start_flag k snap :
  (k <> BusyScript -> respects (keeps (flagOf k)) (fetchShellScript snap))
  /\ (k <> BusySubmit -> respects (keeps (flagOf k)) (submitCollection snap))
  /\ (k <> BusyTrain -> respects (keeps (flagOf k)) (startModelTraining snap))
  /\ respects (keeps (flagOf k)) (requestPredictionMode snap)
  /\ (forall n v, respects (keeps (flagOf k)) (handleCollectionChange n v))
  /\ (forall f, respects (keeps (flagOf k)) (handleCsvSelect f))
  /\ (forall f m, respects (keeps (flagOf k)) (mount f m))
  /\ respects (keeps (flagOf k)) unmount.
Proof.
  repeat match goal with |- _ /\ _ => split end; intros;
    destruct k; try congruence;
    unfold_start; unfold unmount, fetch, alert; frame_split; busy_prim.
  all: intros w; unfold mount, mountEffect, namesEffect, seq, skip;
    repeat (break_match; cbn); reflexivity.
Qed.

Lemma waiting_parked k t w :
  waiting k (setPending (pending w ++ [t]) w)
  = (waiting k w + if awaits k t then 1 else 0)%nat.
Proof.
  unfold waiting. cbn [pending setPending]. rewrite filter_app, length_app.
  cbn [filter]. destruct (awaits k t); reflexivity.
Qed.

(** A click that passes the guards parks one request and sets the flag. *)
Lemma fetchShellScript_busy snap w :
  truthyStr (factoryMedicineId snap) = true ->
  waiting BusyScript (fetchShellScript snap w) = S (waiting BusyScript w)
  /\ flagOf BusyScript (fetchShellScript snap w) = true.
Proof.
  intros Hid. unfold fetchShellScript. rewrite Hid. cbn [negb].
  split; [|reflexivity]. unfold waiting. cbn.
  rewrite filter_app, length_app. cbn. lia.
Qed.

Lemma submitCollection_busy snap w :
  truthyStr (factoryMedicineId snap) = true ->
  waiting BusySubmit (submitCollection snap w) = S (waiting BusySubmit w)
  /\ flagOf BusySubmit (submitCollection snap w) = true.
Proof.
  intros Hid. unfold submitCollection. rewrite Hid. cbn [negb].
  split; [|reflexivity]. unfold waiting. cbn.
  rewrite filter_app, length_app. cbn. lia.
Qed.

Lemma startModelTraining_busy snap w :
  (waiting BusyTrain (startModelTraining snap w) = waiting BusyTrain w
   /\ flagOf BusyTrain (startModelTraining snap w) = flagOf BusyTrain w)
  \/ (waiting BusyTrain (startModelTraining snap w) = S (waiting BusyTrain w)
      /\ flagOf BusyTrain (startModelTraining snap w) = true).
Proof.
  unfold startModelTraining.
  destruct (negb (truthyStr (factoryName snap))
            && negb (truthyStr (factoryMedicineId snap)));
    [left; split; reflexivity|].
  destruct (csvFile snap); [right | left; split; reflexivity].
  split; [|reflexivity]. unfold waiting. cbn.
  rewrite filter_app, length_app. cbn. lia.
Qed.

Lemma step_busyInv w e w' : busyInv w -> step w e = Some w' -> busyInv w'.
Proof.
  intros Hinv Hs k. specialize (Hinv k).
  pose proof (start_waiting k (ui w)) as (W1 & W2 & W3 & W4 & W5 & W6 & W7 & W8).
  pose proof (start_flag k (ui w)) as (F1 & F2 & F3 & F4 & F5 & F6 & F7 & F8).
  assert (Hsame : forall c, respects (keeps (waiting k)) c ->
            respects (keeps (flagOf k)) c ->
            waiting k (c w) = if flagOf k (c w) then 1%nat else 0%nat).
  { intros c Hw Hf. rewrite (Hw w), (Hf w). exact Hinv. }
  destruct e; cbn [step] in Hs.
  - destruct (phase w); try discriminate. injection Hs as <-.
    apply Hsame; auto.
  - destruct (isLive w); [|discriminate]. cbn [andb] in Hs.
    destruct (truthyStr (factoryMedicineId (ui w))) eqn:Ei; [|discriminate].
    destruct (isFetchingScript (ui w)) eqn:Ef; [discriminate|].
    injection Hs as <-.
    destruct k; try (apply Hsame; [apply W1 | apply F1]; discriminate).
    destruct (fetchShellScript_busy (ui w) w Ei) as [-> ->].
    unfold flagOf in Hinv. cbn [flag] in Hinv. rewrite Ef in Hinv.
    now rewrite Hinv.
  - destruct (isLive w); [|discriminate]. injection Hs as <-.
    apply Hsame; auto.
  - destruct (isLive w); [|discriminate]. cbn [andb] in Hs.
    destruct (isSubmittingCollection (ui w)) eqn:Ef; [discriminate|].
    cbn [negb andb] in Hs.
    destruct (truthyStr (factoryMedicineId (ui w))) eqn:Ei; [|discriminate].
    injection Hs as <-.
    destruct k; try (apply Hsame; [apply W2 | apply F2]; discriminate).
    destruct (submitCollection_busy (ui w) w Ei) as [-> ->].
    unfold flagOf in Hinv. cbn [flag] in Hinv. rewrite Ef in Hinv.
    now rewrite Hinv.
  - destruct (isLive w); [|discriminate]. injection Hs as <-.
    apply Hsame; auto.
  - destruct (isLive w); [|discriminate]. cbn [andb] in Hs.
    destruct (hasFile (ui w)); [|discriminate]. cbn [andb] in Hs.
    destruct (isTraining (ui w)) eqn:Ef; [discriminate|].
    injection Hs as <-.
    destruct k; try (apply Hsame; [apply W3 | apply F3]; discriminate).
    destruct (startModelTraining_busy (ui w) w) as [[-> ->] | [-> ->]];
      [exact Hinv|].
    unfold flagOf in Hinv. cbn [flag] in Hinv. rewrite Ef in Hinv.
    now rewrite Hinv.
  - destruct (isLive w); [|discriminate]. injection Hs as <-.
    apply Hsame; auto.
  - destruct (nth_error (pending w) i) as [t|] eqn:En; [|discriminate].
    injection Hs as <-.
    set (w0 := setPending (removeNth i (pending w)) w).
    pose proof (@removeNth_filter _ (awaits k) _ _ _ En) as Hrm.
    change (List.length (filter (awaits k) (removeNth i (pending w))))
      with (waiting k w0) in Hrm.
    change (List.length (filter (awaits k) (pending w)))
      with (waiting k w) in Hrm.
    assert (Hf0 : flagOf k w0 = flagOf k w) by reflexivity.
    rewrite (resume_waiting k t o w0).
    destruct (awaits k t) eqn:Ea.
    + rewrite (@resume_clears k t o w0 Ea).
      destruct (flagOf k w); lia.
    + rewrite (@resume_flag k t o Ea w0), Hf0.
      destruct (flagOf k w); lia.
  - destruct (findInterval id (intervals w)) as [iv|]; [|discriminate].
    destruct (Z.leb (idue iv) (clock w)); [|discriminate].
    injection Hs as <-.
    unfold singleIteration, rearm, fetch, seq, waiting, flagOf in *. cbn.
    rewrite filter_app. destruct k; cbn; rewrite app_nil_r; exact Hinv.
  - destruct (nth_error (timeouts w) i) as [t|]; [|discriminate].
    destruct (Z.leb (tdue t) (clock w)); [|discriminate].
    injection Hs as <-.
    unfold predictionCallback, fetch, seq, waiting, flagOf in *. cbn.
    rewrite filter_app. destruct k; cbn; rewrite app_nil_r; exact Hinv.
  - destruct (isLive w); [|discriminate]. injection Hs as <-.
    apply Hsame; auto.
  - injection Hs as <-. exact Hinv.
Qed.

Lemma busyInv_reachable w : reachable w -> busyInv w.
Proof.
  apply reachable_inv.
  - intros t0 k. destruct k; reflexivity.
  - intros w0 e w1. apply step_busyInv.
Qed.

Lemma step_scriptInv w e w' :
  scriptInv w -> step w e = Some w' -> scriptInv w'.
Proof.
  unfold scriptInv. intros Hinv Hs.
  destruct (partOfEvent w e) as [p|] eqn:Ep.
  - destruct p;
      try (assert (Hsp : samePart Script (ui w) (ui w'))
             by (apply (step_part _ _ Hs); rewrite Ep; discriminate);
           destruct Hsp as [-> ->]; exact Hinv).
    destruct e; cbn [partOfEvent] in Ep; try discriminate; cbn [step] in Hs.
    + destruct (isLive w && truthyStr (factoryMedicineId (ui w))
                && negb (isFetchingScript (ui w))) eqn:E; [|discriminate].
      apply andb_true_iff in E. destruct E as [E _].
      apply andb_true_iff in E. destruct E as [_ Ei].
      injection Hs as <-. unfold fetchShellScript. rewrite Ei. reflexivity.
    + destruct (nth_error (pending w) i) as [t|]; [|discriminate].
      injection Hs as <-. cbn [option_map] in Ep.
      destruct t; discriminate.
  - assert (Hsp : samePart Script (ui w) (ui w'))
      by (apply (step_part _ _ Hs); rewrite Ep; discriminate).
    destruct Hsp as [-> ->]. exact Hinv.
Qed.

Lemma scriptInv_reachable w : reachable w -> scriptInv w.
Proof.
  apply reachable_inv.
  - intros t0. discriminate.
  - intros w0 e w1. apply step_scriptInv.
Qed.

(** X9: no button has two requests in flight.  In every reachable state the
    fetching flag is set exactly while one [/shell] request is in flight,
    the submitting flag exactly while one submission POST is, the training
    flag exactly while one [/train] request is; there is never a second
    one; and while the script is fetched the script text is empty, so that
    neither the old script nor the Download button is shown. *)
Theorem one_request_in_flight (w : World) :
  reachable w ->
  (forall k, waiting k w = if flag k (ui w) then 1%nat else 0%nat)
  /\ (forall k, (waiting k w <= 1)%nat)
  /\ (isFetchingScript (ui w) = true ->
      scriptText (ui w) = ""
      /\ downloadButton (render (ui w)) = None
      /\ scriptPanel (render (ui w)) = None).
Proof.
  intros Hr. pose proof (busyInv_reachable Hr) as Hb.
  split; [exact Hb|]. split.
  - intros k. rewrite (Hb k). destruct (flagOf k w); lia.
  - intros Hf. pose proof (scriptInv_reachable Hr Hf) as Hs.
    cbn [render downloadButton scriptPanel]. rewrite Hs. auto.
Qed.
End InFlight.

Lemma one_request_in_flight_witness :
  waiting BusySubmit (final (acmeTonic ++ [ClickSubmit])) = 1%nat.
Proof.
  refine (proj1 (@one_request_in_flight Sample.host
                   (final (acmeTonic ++ [ClickSubmit])) _) BusySubmit).
  exists 0%Z, (acmeTonic ++ [ClickSubmit])%list. vm_compute. reflexivity.
Defined.

(** ** Every request carries the identifier of the page *)

Lemma keepsId_refl id w : keepsId id w w.
Proof. intros Hc. exact Hc. Qed.

Lemma keepsId_trans id a b c :
  keepsId id a b -> keepsId id b c -> keepsId id a c.
Proof. unfold keepsId. auto. Qed.

Lemma Forall_removeNth (A : Type) (P : A -> Prop) i (l : list A) :
  Forall P l -> Forall P (removeNth i l).
Proof.
  rewrite !Forall_forall. intros Hl x Hin. apply Hl.
  eapply In_removeNth; eauto.
Qed.

Lemma Forall_filter (A : Type) (P : A -> Prop) (p : A -> bool) (l : list A) :
  Forall P l -> Forall P (filter p l).
Proof.
  rewrite !Forall_forall. intros Hl x Hin. apply Hl.
  apply filter_In in Hin. tauto.
Qed.

Section Carried.
Context {H : Host}.
Variable id : string.

#[local] Hint Resolve keepsId_refl keepsId_trans : core.

Lemma carries_setState f :
  (forall s, factoryMedicineId (f s) = factoryMedicineId s) ->
  (forall s, scriptText (f s) = scriptText s \/ scriptText (f s) = ""
             \/ id <> "") ->
  respects (keepsId id) (setState f).
Proof.
  intros Hid Hsc w (H1 & H2 & H3 & H4 & H5 & H6).
  repeat split; cbn; auto.
  - now rewrite Hid.
  - intros Hne. destruct (Hsc (ui w)) as [E | [E | E]].
    + apply H2. now rewrite <- E.
    + congruence.
    + exact E.
Qed.

Lemma carries_emit e : effectOk id (0%Z, e) -> respects (keepsId id) (emit e).
Proof.
  intros He w (H1 & H2 & H3 & H4 & H5 & H6).
  repeat split; cbn; auto.
  apply Forall_app. split; auto.
Qed.

Lemma carries_park t :
  taskOk id t ->
  respects (keepsId id) (fun w => setPending (pending w ++ [t])%list w).
Proof.
  intros Ht w (H1 & H2 & H3 & H4 & H5 & H6).
  repeat split; cbn; auto.
  apply Forall_app. split; auto.
Qed.

Lemma carries_fetch r t :
  requestOk id r -> taskOk id t -> respects (keepsId id) (fetch r t).
Proof.
  intros Hr Ht. unfold fetch. apply respects_seq; [eauto | |].
  - now apply carries_emit.
  - now apply carries_park.
Qed.

Lemma carries_clearPolling : respects (keepsId id) clearPolling.
Proof.
  intros w (H1 & H2 & H3 & H4 & H5 & H6). unfold clearPolling.
  destruct (pollingRef w); [|repeat split; auto].
  repeat split; cbn; auto.
  - now apply Forall_filter.
  - apply Forall_app. split; auto. repeat constructor.
Qed.

Lemma carries_setInterval snap :
  snapOk id snap ->
  respects (keepsId id) (setInterval snap (fun i => setPollingRef (Some i))).
Proof.
  intros Hs w (H1 & H2 & H3 & H4 & H5 & H6).
  repeat split; cbn; auto.
  - apply Forall_app. split; auto.
  - apply Forall_app. split; auto. repeat constructor.
Qed.

Lemma carries_setTimeout snap startTs :
  snapOk id snap -> respects (keepsId id) (setTimeout snap startTs).
Proof.
  intros Hs w (H1 & H2 & H3 & H4 & H5 & H6).
  repeat split; cbn; auto.
  - apply Forall_app. split; auto.
  - apply Forall_app. split; auto. repeat constructor.
Qed.

Lemma carries_world w ph ref ivs tos ps nt c :
  carries id w ->
  Forall (taskOk id) ps ->
  Forall (fun iv => snapOk id (isnap iv)) ivs ->
  Forall (fun t => snapOk id (tsnap t)) tos ->
  carries id (mkWorld (ui w) ph ref ivs tos ps nt c (log w)).
Proof.
  intros (H1 & H2 & H3 & H4 & H5 & H6) Hp Hi Ht. repeat split; auto.
Qed.

Ltac carries_prim :=
  first
    [ apply carries_clearPolling
    | apply carries_setInterval; assumption
    | apply carries_setTimeout; assumption
    | apply carries_fetch; unfold requestOk, snapOk; cbn; auto; fail
    | apply carries_emit; exact I
    | apply carries_setState; [intros; reflexivity | intros; cbn; auto]
    | intros w0; cbv beta; apply carries_setState;
      [intros; reflexivity | intros; cbn; auto] ].

Lemma resume_carries t o :
  taskOk id t -> respects (keepsId id) (resume t o).
Proof.
  destruct t; cbn [taskOk resume]; intros Ht;
    try (assert (Hok : snapOk id snap) by exact Ht; destruct Ht as [Hs Hne]);
    unfold_resume; unfold pollForDataAndStatus, singleIteration, alert;
    frame_split; carries_prim.
Qed.

Lemma predictionTail_carries snap :
  snapOk id snap ->
  respects (keepsId id)
    (fun w =>
       let startTs := clock w in
       (setState (setPredictionStartTs (Some startTs)) ;;
        fetch (mkRequest POST Picron (factoryMedicineId snap)
                 (Some (predictionPayload snap)))
          (AwaitPredictPost snap startTs)) w).
Proof.
  intros Hok w. cbv zeta beta. destruct Hok as [Hs Hne].
  assert (Hok : snapOk id snap) by (split; assumption).
  apply (@respects_seq (keepsId id) (@keepsId_trans id)).
  - apply carries_setState; [intros; reflexivity | intros; cbn; auto].
  - apply carries_fetch; unfold requestOk, snapOk; cbn; auto.
Qed.

Lemma start_carries snap :
  factoryMedicineId snap = id ->
  respects (keepsId id) (fetchShellScript snap)
  /\ respects (keepsId id) (submitCollection snap)
  /\ respects (keepsId id) (startModelTraining snap)
  /\ respects (keepsId id) (requestPredictionMode snap)
  /\ (forall n v, respects (keepsId id) (handleCollectionChange n v))
  /\ (forall f, respects (keepsId id) (handleCsvSelect f))
  /\ respects (keepsId id) unmount.
Proof.
  intros Hs.
  assert (Hok : truthyStr (factoryMedicineId snap) = true -> snapOk id snap).
  { intros Ht. split; auto. intros E. apply truthyStr_empty in E.
    rewrite <- Hs in E. congruence. }
  repeat match goal with |- _ /\ _ => split end; intros;
    unfold_start; unfold unmount, alert;
    try (destruct (truthyStr (factoryMedicineId snap)) eqn:Et; cbn [negb];
         [destruct (Hok eq_refl) as [_ Hne] | ]);
    frame_split; try carries_prim.
  - now apply predictionTail_carries.
  - intros w Hc. destruct Hc as (H1 & H2 & H3 & H4 & H5 & H6).
    repeat split; auto.
  - intros w Hc. destruct Hc as (H1 & H2 & H3 & H4 & H5 & H6).
    repeat split; auto.
Qed.
End Carried.

Section CarriedSteps.
Context {H : Host}.

Lemma untouched_carries w :
  untouched w -> carries (factoryMedicineId (ui w)) w.
Proof.
  intros (Hp & Hi & Ht & Hl & Hs). unfold carries.
  rewrite Hp, Hi, Ht, Hl, Hs. repeat split; auto.
Qed.

Lemma mount_untouched f m w : untouched w -> untouched (mount f m w).
Proof.
  intros Hu. unfold mount, mountEffect, namesEffect, seq, skip.
  repeat (break_match; cbn); exact Hu.
Qed.

Lemma taskOk_closure id t : taskOk id t -> factoryMedicineId (closure t) = id.
Proof. destruct t; cbn; unfold snapOk; tauto. Qed.

Lemma step_carried w e w' :
  identityCarried w -> step w e = Some w' -> identityCarried w'.
Proof.
  unfold identityCarried. intros Hinv Hs.
  destruct (phase w) eqn:Ep.
  - (* before the mount *)
    destruct e; cbn [step] in Hs; unfold isLive in Hs; rewrite ?Ep in Hs;
      cbn [andb] in Hs; try discriminate.
    + injection Hs as <-. rewrite mount_phase.
      apply untouched_carries. now apply mount_untouched.
    + destruct Hinv as (Hp & _). rewrite Hp in Hs.
      destruct i; discriminate.
    + destruct Hinv as (_ & Hi & _). rewrite Hi in Hs. discriminate.
    + destruct Hinv as (_ & _ & Ht & _). rewrite Ht in Hs.
      destruct i; discriminate.
    + injection Hs as <-. cbn [phase setClock]. rewrite Ep. exact Hinv.
  - (* the page is live *)
    assert (Hgoal : carries (factoryMedicineId (ui w)) w' /\ phase w' <> Fresh).
    { split.
      - pose proof (@start_carries _ (factoryMedicineId (ui w)) (ui w) eq_refl)
          as (S1 & S2 & S3 & S4 & S5 & S6 & S7).
        destruct e; cbn [step] in Hs;
          repeat (break_hyp Hs; try discriminate);
          injection Hs as <-;
          try (first [apply S1 | apply S2 | apply S3 | apply S4 | apply S5
                     | apply S6 | apply S7]; exact Hinv).
        + apply resume_carries.
          * destruct Hinv as (_ & _ & Hp & _).
            rewrite Forall_forall in Hp. apply Hp.
            eapply nth_error_In; eauto.
          * apply carries_world; try apply Hinv.
            apply Forall_removeNth. apply Hinv.
        + unfold seq, singleIteration. apply carries_fetch.
          * destruct Hinv as (_ & _ & _ & Hi & _).
            rewrite Forall_forall in Hi.
            match goal with
            | E : findInterval _ _ = Some _ |- _ =>
                apply find_some in E; destruct E as [Hin _];
                destruct (Hi _ Hin) as [E1 E2]
            end.
            split; cbn; auto.
          * destruct Hinv as (_ & _ & _ & Hi & _).
            rewrite Forall_forall in Hi.
            match goal with
            | E : findInterval _ _ = Some _ |- _ =>
                apply find_some in E; destruct E as [Hin _];
                exact (Hi _ Hin)
            end.
          * unfold rearm. apply carries_world; try apply Hinv.
            destruct Hinv as (_ & _ & _ & Hi & _).
            rewrite Forall_forall in *. intros iv Hin.
            apply in_map_iff in Hin. destruct Hin as (iv0 & <- & Hin0).
            destruct (Pos.eqb (iid iv0) id); cbn; auto.
        + unfold predictionCallback.
          assert (Hok : snapOk (factoryMedicineId (ui w)) (tsnap t)).
          { destruct Hinv as (_ & _ & _ & _ & Ht & _).
            rewrite Forall_forall in Ht. apply Ht.
            eapply nth_error_In; eauto. }
          apply carries_fetch.
          * destruct Hok. split; cbn; auto.
          * exact Hok.
          * apply carries_world; try apply Hinv.
            apply Forall_removeNth. apply Hinv.
        + exact Hinv.
      - destruct (step_names _ _ Hs)
          as [(f & m & _ & Hp & _) | [_ [Hp | Hp]]]; congruence. }
    destruct Hgoal as [Hc Hp]. destruct Hc as (Hid & Hc).
    destruct (phase w'); [congruence | |]; rewrite Hid; split; auto.
  - (* the page is gone *)
    assert (Hgoal : carries (factoryMedicineId (ui w)) w' /\ phase w' <> Fresh).
    { split.
      - destruct e; cbn [step] in Hs; unfold isLive in Hs; rewrite ?Ep in Hs;
          cbn [andb] in Hs; try discriminate;
          repeat (break_hyp Hs; try discriminate);
          injection Hs as <-.
        + apply resume_carries.
          * destruct Hinv as (_ & _ & Hp & _).
            rewrite Forall_forall in Hp. apply Hp.
            eapply nth_error_In; eauto.
          * apply carries_world; try apply Hinv.
            apply Forall_removeNth. apply Hinv.
        + unfold seq, singleIteration. apply carries_fetch.
          * destruct Hinv as (_ & _ & _ & Hi & _).
            rewrite Forall_forall in Hi.
            match goal with
            | E : findInterval _ _ = Some _ |- _ =>
                apply find_some in E; destruct E as [Hin _];
                destruct (Hi _ Hin) as [E1 E2]
            end.
            split; cbn; auto.
          * destruct Hinv as (_ & _ & _ & Hi & _).
            rewrite Forall_forall in Hi.
            match goal with
            | E : findInterval _ _ = Some _ |- _ =>
                apply find_some in E; destruct E as [Hin _];
                exact (Hi _ Hin)
            end.
          * unfold rearm. apply carries_world; try apply Hinv.
            destruct Hinv as (_ & _ & _ & Hi & _).
            rewrite Forall_forall in *. intros iv Hin.
            apply in_map_iff in Hin. destruct Hin as (iv0 & <- & Hin0).
            destruct (Pos.eqb (iid iv0) id); cbn; auto.
        + unfold predictionCallback.
          assert (Hok : snapOk (factoryMedicineId (ui w)) (tsnap t)).
          { destruct Hinv as (_ & _ & _ & _ & Ht & _).
            rewrite Forall_forall in Ht. apply Ht.
            eapply nth_error_In; eauto. }
          apply carries_fetch.
          * destruct Hok. split; cbn; auto.
          * exact Hok.
          * apply carries_world; try apply Hinv.
            apply Forall_removeNth. apply Hinv.
        + exact Hinv.
      - destruct (step_names _ _ Hs)
          as [(f & m & _ & Hp & _) | [_ [Hp | Hp]]]; congruence. }
    destruct Hgoal as [Hc Hp]. destruct Hc as (Hid & Hc).
    destruct (phase w'); [congruence | |]; rewrite Hid; split; auto.
Qed.

Lemma carried_reachable w : reachable w -> identityCarried w.
Proof.
  apply reachable_inv.
  - intros t0. repeat split.
  - intros w0 e w1. apply step_carried.
Qed.

(** In a reachable world everything was made for the identifier of the
    state, and a script text is there only with an identifier. *)
Lemma carried_facts w :
  reachable w ->
  Forall (taskOk (factoryMedicineId (ui w))) (pending w)
  /\ Forall (effectOk (factoryMedicineId (ui w))) (log w)
  /\ (scriptText (ui w) <> "" -> factoryMedicineId (ui w) <> "").
Proof.
  intros Hr. pose proof (carried_reachable Hr) as Hc.
  unfold identityCarried in Hc.
  destruct (phase w).
  - destruct Hc as (Hp & _ & _ & Hl & Hs). rewrite Hp, Hl, Hs.
    repeat split; auto.
  - destruct Hc as (_ & Hs & Hp & _ & _ & Hl). auto.
  - destruct Hc as (_ & Hs & Hp & _ & _ & Hl). auto.
Qed.

(** An identifier that is not empty is the two names with an underscore. *)
Lemma identifier_of_names w :
  reachable w -> factoryMedicineId (ui w) <> "" ->
  factoryMedicineId (ui w) = factoryName (ui w) ++ "_" ++ medicineName (ui w)
  /\ factoryName (ui w) <> "" /\ medicineName (ui w) <> "".
Proof.
  intros Hr Hne. destruct (identityInv_reachable Hr) as [Hid _].
  unfold idInv, derivedId in Hid.
  destruct (truthyStr (factoryName (ui w))) eqn:Ef;
    [|cbn in Hid; congruence].
  destruct (truthyStr (medicineName (ui w))) eqn:Em;
    [|cbn in Hid; congruence].
  cbn in Hid. split; [exact Hid|].
  split; intros E; apply truthyStr_empty in E; congruence.
Qed.

(** X10: every request the page sends carries the identifier of the page.
    In every reachable state each request sent so far went to the
    [factoryMedicineId] of the state, and so will those of the functions
    still suspended; short of the training request it is never empty: it
    is the two names, both there, with an underscore between them. *)
Theorem requests_carry_identity (w : World) :
  reachable w ->
  (forall c r, In (c, Fetched r) (log w) ->
     rid r = factoryMedicineId (ui w)
     /\ (endpoint r <> Train ->
         rid r = factoryName (ui w) ++ "_" ++ medicineName (ui w)
         /\ factoryName (ui w) <> "" /\ medicineName (ui w) <> ""))
  /\ (forall t, In t (pending w) ->
      factoryMedicineId (closure t) = factoryMedicineId (ui w)).
Proof.
  intros Hr. destruct (carried_facts Hr) as (Hp & Hl & _).
  rewrite Forall_forall in Hp, Hl. split.
  - intros c r Hin. specialize (Hl _ Hin). cbn in Hl.
    destruct Hl as [Hrid Hne]. split; [exact Hrid|].
    intros Ht. rewrite Hrid. apply identifier_of_names; auto.
    destruct Hne; [contradiction | assumption].
  - intros t Hin. apply taskOk_closure. auto.
Qed.

(** X8: the script is saved under the name the instructions give.  In every
    reachable state with a script text the Download button is there and a
    click saves the text as [{factoryName}_{medicineName}.sh], never as
    [script.sh]; the panel shows the text with the commands for that file
    name, and its Copy button writes the text to the clipboard. *)
Theorem download_names_script (w : World) :
  reachable w -> scriptText (ui w) <> "" ->
  let file := (factoryName (ui w) ++ "_" ++ medicineName (ui w)) ++ ".sh" in
  downloadButton (render (ui w))
  = Some [CreateObjectURL [scriptText (ui w)] "text/x-sh;charset=utf-8";
          AppendAnchor file; ClickAnchor; RemoveAnchor; RevokeObjectURL]
  /\ exists panel,
       scriptPanel (render (ui w)) = Some panel
       /\ shown panel = scriptText (ui w)
       /\ instructions panel = "chmod +x " ++ file ++ LF ++ "./" ++ file
       /\ fst (onCopy panel) = [ClipboardWrite (scriptText (ui w))].
Proof.
  intros Hr Hs. cbv zeta.
  destruct (carried_facts Hr) as (_ & _ & Hid). specialize (Hid Hs).
  destruct (identifier_of_names Hr Hid) as (Hnames & _ & _).
  assert (Ht : truthyStr (scriptText (ui w)) = true).
  { destruct (scriptText (ui w)); [contradiction | reflexivity]. }
  assert (Hi : truthyStr (factoryMedicineId (ui w)) = true).
  { destruct (factoryMedicineId (ui w)); [contradiction | reflexivity]. }
  cbn [render downloadButton scriptPanel]. rewrite Ht. split.
  - unfold downloadScript, scriptFilename. rewrite Ht, Hi, Hnames.
    reflexivity.
  - eexists. split; [reflexivity|]. cbn [shown instructions onCopy].
    split; [reflexivity|]. split; [|reflexivity].
    unfold runHint. rewrite Hnames. now rewrite !append_assoc.
Qed.
End CarriedSteps.

Lemma requests_carry_identity_witness :
  rid (mkRequest GET Getdata "ACME_Tonic1" None)
  = factoryMedicineId (ui (final oneCycle)).
Proof.
  refine (proj1 (proj1 (@requests_carry_identity Sample.host (final oneCycle)
                          _) 0%Z _ _)).
  - exists 0%Z, oneCycle. vm_compute. reflexivity.
  - vm_compute. auto 10.
Defined.

Lemma download_names_script_witness :
  downloadButton (render (H := Sample.host) (ui (final scriptFetched)))
  = Some [CreateObjectURL ["echo start"] "text/x-sh;charset=utf-8";
          AppendAnchor "ACME_Tonic1.sh"; ClickAnchor; RemoveAnchor;
          RevokeObjectURL].
Proof.
  assert (Hr : reachable (H := Sample.host) (final scriptFetched)).
  { exists 0%Z, scriptFetched. vm_compute. reflexivity. }
  assert (Hs : scriptText (ui (final scriptFetched)) <> "").
  { vm_compute. discriminate. }
  pose proof (proj1 (download_names_script Hr Hs)) as E.
  vm_compute. vm_compute in E. exact E.
Defined.

(** ** The page never enters prediction mode by itself *)

Lemma keepsIdle_refl w : keepsIdle w w.
Proof. intros Hi. exact Hi. Qed.

Lemma keepsIdle_trans a b c : keepsIdle a b -> keepsIdle b c -> keepsIdle a c.
Proof. unfold keepsIdle. auto. Qed.

Section Idle.
Context {H : Host}.

#[local] Hint Resolve keepsIdle_refl keepsIdle_trans : core.

Lemma idle_setState f :
  (forall s, samePart Prediction s (f s)) -> respects keepsIdle (setState f).
Proof.
  intros Hf w (H1 & H2 & H3 & H4). repeat split; auto; cbn [ui setState];
    destruct (Hf (ui w)) as (E1 & E2 & E3 & E4);
    destruct H3 as (G1 & G2 & G3 & G4); congruence.
Qed.

Lemma idle_emit e :
  ofPrediction (0%Z, e) = false -> respects keepsIdle (emit e).
Proof.
  intros He w (H1 & H2 & H3 & H4). repeat split; auto; try apply H3.
  cbn [log emit]. rewrite forallb_app, H4. cbn [forallb].
  unfold ofPrediction in *. cbn [snd] in *. now rewrite He.
Qed.

Lemma idle_park t :
  predictionTask t = false ->
  respects keepsIdle (fun w => setPending (pending w ++ [t])%list w).
Proof.
  intros Ht w (H1 & H2 & H3 & H4). repeat split; auto; try apply H3.
  cbn [pending setPending]. rewrite forallb_app, H2. cbn. now rewrite Ht.
Qed.

Lemma idle_fetch r t :
  ofPrediction (0%Z, Fetched r) = false -> predictionTask t = false ->
  respects keepsIdle (fetch r t).
Proof.
  intros Hr Ht. unfold fetch. apply respects_seq; [eauto | |].
  - now apply idle_emit.
  - now apply idle_park.
Qed.

Lemma idle_clearPolling : respects keepsIdle clearPolling.
Proof.
  intros w (H1 & H2 & H3 & H4). unfold clearPolling.
  destruct (pollingRef w); [|repeat split; auto; apply H3].
  repeat split; auto; try apply H3.
  cbn. rewrite forallb_app, H4. reflexivity.
Qed.

Lemma idle_setInterval snap :
  respects keepsIdle (setInterval snap (fun i => setPollingRef (Some i))).
Proof.
  intros w (H1 & H2 & H3 & H4). repeat split; auto; try apply H3.
  cbn. rewrite forallb_app, H4. reflexivity.
Qed.

(** The payload of a submission sets [status: 1]. *)
Lemma collectionPayload_status snap :
  statusTwo (Some (collectionPayload snap)) = false.
Proof.
  unfold statusTwo, collectionPayload.
  rewrite getProp_setProp_other by discriminate.
  rewrite getProp_setProp_same. reflexivity.
Qed.

Ltac idle_prim :=
  first
    [ apply idle_clearPolling
    | apply idle_setInterval
    | apply idle_fetch; [first [reflexivity | apply collectionPayload_status]
                        | reflexivity]
    | apply idle_emit; reflexivity
    | apply idle_setState; intros; repeat split; reflexivity
    | intros w0; cbv beta; apply idle_setState; intros; repeat split;
      reflexivity ].

Lemma resume_idle t o :
  predictionTask t = false -> respects keepsIdle (resume t o).
Proof.
  destruct t; cbn [predictionTask resume]; try discriminate; intros _;
    unfold_resume; unfold pollForDataAndStatus, singleIteration, alert;
    frame_split; idle_prim.
Qed.

Lemma start_idle snap :
  respects keepsIdle (fetchShellScript snap)
  /\ respects keepsIdle (submitCollection snap)
  /\ respects keepsIdle (startModelTraining snap)
  /\ (forall n v, respects keepsIdle (handleCollectionChange n v))
  /\ (forall f, respects keepsIdle (handleCsvSelect f))
  /\ respects keepsIdle unmount
  /\ (forall f m, respects keepsIdle (mount f m)).
Proof.
  repeat match goal with |- _ /\ _ => split end; intros;
    unfold_start; unfold unmount, alert; frame_split; try idle_prim.
  - intros w Hi. exact Hi.
  - intros w (H1 & H2 & H3 & H4).
    unfold mount, mountEffect, namesEffect, seq, skip.
    repeat (break_match; cbn); repeat split; auto; apply H3.
Qed.

Lemma step_idle w e w' :
  notCall e = true -> idle w -> step w e = Some w' -> idle w'.
Proof.
  intros Hn Hi Hs.
  pose proof (start_idle (ui w)) as (S1 & S2 & S3 & S4 & S5 & S6 & S7).
  destruct e; try discriminate; cbn [step] in Hs;
    repeat (break_hyp Hs; try discriminate);
    injection Hs as <-;
    try (first [apply S1 | apply S2 | apply S3 | apply S4 | apply S5
               | apply S6 | apply S7]; exact Hi).
  - apply resume_idle.
    + destruct Hi as (_ & Hp & _).
      match goal with
      | E : nth_error (pending w) i = Some t |- _ =>
          pose proof (@nth_error_forallb _ _ _ _ _ Hp E) as Ht
      end.
      now apply negb_true_iff in Ht.
    + destruct Hi as (H1 & H2 & H3 & H4). repeat split; auto; try apply H3.
      cbn [pending setPending]. now apply removeNth_forallb.
  - unfold seq, singleIteration. apply idle_fetch; try reflexivity.
    destruct Hi as (H1 & H2 & H3 & H4). repeat split; auto; apply H3.
  - destruct Hi as (H1 & _). rewrite H1 in *.
    match goal with
    | E : nth_error [] _ = Some _ |- _ => destruct i; discriminate E
    end.
  - exact Hi.
Qed.

(** X20: the page as rendered never enters prediction mode.
    [requestPredictionMode] is bound to no control of the page, and nothing
    else starts the prediction step: after any run of events without a
    call of it no timeout is pending, no function of the prediction step
    is suspended, the prediction state is what it was at the start, and no
    request went to [/predict] or set [status: 2]. *)
Theorem prediction_never_starts (t0 : Z) (es : list Event) (w : World) :
  run (initialWorld t0) es = Some w ->
  forallb notCall es = true ->
  timeouts w = []
  /\ forallb (fun t => negb (predictionTask t)) (pending w) = true
  /\ isRequestingPrediction (ui w) = false
  /\ predictionStartTs (ui w) = None
  /\ predictions (ui w) = []
  /\ predictionMessage (ui w) = ""
  /\ (forall c r, In (c, Fetched r) (log w) ->
      endpoint r <> Predict /\ statusTwo (body r) = false)
  /\ (forall c ms, ~ In (c, TimeoutSet ms) (log w)).
Proof.
  intros Hrun Hes.
  assert (Hi : idle w).
  { assert (H0 : idle (initialWorld t0)) by (repeat split).
    revert Hrun Hes H0. generalize (initialWorld t0) as w0.
    induction es as [|e es IH]; simpl; intros w0 Hrun Hes H0.
    - now inversion Hrun; subst.
    - destruct (step w0 e) as [w1|] eqn:E; [|discriminate].
      apply andb_true_iff in Hes. destruct Hes as [He Hes].
      apply (IH w1); auto. eapply step_idle; eauto. }
  destruct Hi as (H1 & H2 & (G1 & G2 & G3 & G4) & H4).
  rewrite forallb_forall in H4.
  repeat match goal with |- _ /\ _ => split end; auto.
  - intros c r Hin. specialize (H4 _ Hin). apply negb_true_iff in H4.
    unfold ofPrediction in H4. cbn [snd] in H4.
    destruct (endpoint r); try discriminate; split; auto; discriminate.
  - intros c ms Hin. specialize (H4 _ Hin). discriminate.
Qed.
End Idle.

Lemma prediction_never_starts_witness :
  predictions (ui (final afterDone)) = []
  /\ timeouts (final afterDone) = [].
Proof.
  destruct (@prediction_never_starts Sample.host 0 afterDone (final afterDone))
    as (Ht & _ & _ & _ & Hp & _).
  - vm_compute. reflexivity.
  - reflexivity.
  - split; assumption.
Defined.

(** ** Failures of the polling, the script after a failed fetch, the
    entries over a run *)

Section Surface.
Context {H : Host}.

(** X21: the failures of the polling are never shown.  A non-2xx answer to
    either fetch of a cycle leaves no trace: nothing is logged and nothing
    changes, but that the cycle goes on to its status poll.  A fetch that
    was rejected, or a 2xx body that is not JSON, leaves one console
    warning.  Whatever way a polling fetch fails, the state of the page is
    as before and no alert is raised. *)
Theorem polling_failures_are_silent (snap : State) (w : World) :
  (forall res, ok res = false ->
     resumeGetdata snap (Resolved res) w
     = fetch (mkRequest GET Picron (factoryMedicineId snap) None)
         (AwaitStatus snap) w
     /\ resumeStatus snap (Resolved res) w = w)
  /\ (forall e,
      log (resumeGetdata snap (Rejected e) w)
      = (log w ++ [(clock w, ConsoleWarn "getdata fetch failed" e);
                   (clock w, Fetched (mkRequest GET Picron
                                        (factoryMedicineId snap) None))])%list
      /\ resumeStatus snap (Rejected e) w
         = emit (ConsoleWarn "picron status fetch failed" e) w)
  /\ (forall res e, ok res = true -> json res = Threw e ->
      log (resumeGetdata snap (Resolved res) w)
      = (log w ++ [(clock w, ConsoleWarn "getdata fetch failed" e);
                   (clock w, Fetched (mkRequest GET Picron
                                        (factoryMedicineId snap) None))])%list
      /\ resumeStatus snap (Resolved res) w
         = emit (ConsoleWarn "picron status fetch failed" e) w)
  /\ (forall o,
      failed o \/ (exists res e, o = Resolved res /\ json res = Threw e) ->
      ui (resumeGetdata snap o w) = ui w
      /\ ui (resumeStatus snap o w) = ui w
      /\ (forall c msg,
          In (c, Alerted msg) (log (resumeGetdata snap o w)) ->
          In (c, Alerted msg) (log w))
      /\ (forall c msg,
          In (c, Alerted msg) (log (resumeStatus snap o w)) ->
          In (c, Alerted msg) (log w))).
Proof.
  repeat match goal with |- _ /\ _ => split end.
  - intros res Hok. unfold resumeGetdata, resumeStatus. rewrite Hok.
    split; reflexivity.
  - intros e. unfold resumeGetdata, resumeStatus. split; [|reflexivity].
    cbn. now rewrite <- app_assoc.
  - intros res e Hok Hj. unfold resumeGetdata, resumeStatus. rewrite Hok, Hj.
    split; [|reflexivity]. cbn. now rewrite <- app_assoc.
  - intros o Hf.
    assert (Hcases : (exists res, o = Resolved res /\ ok res = false)
                     \/ (exists e, o = Rejected e)
                     \/ (exists res e, o = Resolved res /\ ok res = true
                                       /\ json res = Threw e)).
    { destruct Hf as [Hf | (res & e & -> & Hj)].
      - destruct o as [res|e]; cbn in Hf; eauto.
      - destruct (ok res) eqn:Hok; eauto 10. }
    unfold resumeGetdata, resumeStatus.
    destruct Hcases as [(res & -> & Hok) | [(e & ->) | (res & e & -> & Hok & Hj)]];
      rewrite ?Hok, ?Hj; cbn;
      repeat match goal with |- _ /\ _ => split end; try reflexivity;
      intros c msg Hin; unfold skip in Hin; cbn in Hin;
      rewrite ?in_app_iff in Hin; cbn in Hin; intuition discriminate.
Qed.

Lemma resumeShell_text snap o w :
  truthyStr (scriptText (ui (resumeShell snap o w))) = true.
Proof.
  unfold resumeShell, failShell.
  destruct o as [res|e]; [destruct (ok res); [destruct (text res) as [txt|e]|]|];
    cbn; try reflexivity.
  destruct (truthyStr txt) eqn:Et; [exact Et | reflexivity].
Qed.

(** X23: once a script fetch has ended there is a script text, whatever the
    end: the body, the placeholder for an empty body, or the error text;
    so the Download button is shown after a failed fetch as well, and a
    click then saves the error text, a comment line, as the script file. *)
Theorem failed_fetch_offers_download (snap : State) (o : Outcome) (w : World) :
  let s := ui (resumeShell snap o w) in
  scriptText s <> ""
  /\ downloadButton (render s)
     = Some [CreateObjectURL [scriptText s] "text/x-sh;charset=utf-8";
             AppendAnchor (scriptFilename s); ClickAnchor; RemoveAnchor;
             RevokeObjectURL]
  /\ (failed o ->
      exists e, scriptText s = "# Error fetching script: " ++ errText e).
Proof.
  cbv zeta. pose proof (resumeShell_text snap o w) as Ht.
  split; [|split].
  - intros E. rewrite E in Ht. discriminate.
  - cbn [render downloadButton]. unfold downloadScript. now rewrite Ht.
  - intros Hf. unfold resumeShell, failShell.
    destruct o as [res|e]; cbn in Hf; rewrite ?Hf; cbn [negb];
      eexists; reflexivity.
Qed.

Lemma resumeSubmit_entries snap o w :
  collectedEntries (ui (resumeSubmit snap o w)) = collectedEntries (ui w).
Proof.
  unfold resumeSubmit, pollForDataAndStatus, clearPolling.
  destruct o as [res|e]; [destruct (ok res)|]; cbn;
    try destruct (pollingRef w); reflexivity.
Qed.

Lemma step_entries w e w' :
  step w e = Some w' -> isSubmit e = false ->
  exists added,
    collectedEntries (ui w') = (collectedEntries (ui w) ++ added)%list.
Proof.
  intros Hs He.
  assert (Hsame : collectedEntries (ui w') = collectedEntries (ui w) ->
                  exists added,
                    collectedEntries (ui w')
                    = (collectedEntries (ui w) ++ added)%list).
  { intros ->. exists []. now rewrite app_nil_r. }
  destruct (partOfEvent w e) as [p|] eqn:Ep.
  - destruct p;
      try (apply Hsame;
           assert (Hsp : samePart Collection (ui w) (ui w'))
             by (apply (step_part _ _ Hs); rewrite Ep; discriminate);
           apply Hsp).
    destruct e; cbn [partOfEvent] in Ep; try discriminate;
      cbn [step] in Hs; repeat (break_hyp Hs; try discriminate);
      injection Hs as <-; try (apply Hsame; reflexivity).
    cbn [option_map] in Ep. destruct t; try discriminate; cbn [resume].
    + apply Hsame. cbn [resume]. now rewrite resumeSubmit_entries.
    + exact (resumeGetdata_entries snap o
               (setPending (removeNth i (pending w)) w)).
    + apply Hsame. cbn [resume]. now rewrite resumeStatus_ui.
  - apply Hsame.
    assert (Hsp : samePart Collection (ui w) (ui w'))
      by (apply (step_part _ _ Hs); rewrite Ep; discriminate).
    apply Hsp.
Qed.

(** X22: between two clicks on Submit the entries only grow.  Over any run
    of events without a click on Submit the entries at the end are the
    entries at the start followed by what the polling cycles appended;
    nothing is dropped, replaced or reordered. *)
Theorem entries_only_grow (w : World) (es : list Event) (w' : World) :
  run w es = Some w' ->
  forallb (fun e => negb (isSubmit e)) es = true ->
  exists added,
    collectedEntries (ui w') = (collectedEntries (ui w) ++ added)%list.
Proof.
  revert w. induction es as [|e es IH]; simpl; intros w Hrun Hes.
  - inversion Hrun; subst. exists []. now rewrite app_nil_r.
  - destruct (step w e) as [w1|] eqn:E; [|discriminate].
    apply andb_true_iff in Hes. destruct Hes as [He Hes].
    apply negb_true_iff in He.
    destruct (step_entries _ _ E He) as [a1 H1].
    destruct (IH w1 Hrun Hes) as [a2 H2].
    exists (a1 ++ a2)%list. now rewrite H2, H1, app_assoc.
Qed.

(** X26: the recomputation of the identifier changes nothing.  In every
    reachable state the effect on the two names, run with the names of
    that state, leaves the world as it is: after the mount the identifier
    is already the one it would write. *)
Theorem recomputation_changes_nothing (w : World) :
  reachable w -> namesEffect (ui w) w = w.
Proof.
  intros Hr. destruct (identityInv_reachable Hr) as [Hid _].
  unfold idInv, derivedId in Hid. unfold namesEffect.
  destruct (truthyStr (factoryName (ui w))
            && truthyStr (medicineName (ui w))); [|reflexivity].
  unfold setState. rewrite <- Hid.
  destruct w as [s ph r ivs tos ps nt c l]. destruct s. reflexivity.
Qed.
End Surface.

Lemma polling_failures_are_silent_witness :
  resumeStatus (H := Sample.host) initialState
    (Resolved (serverError 503 "unavailable")) (final oneCycle)
  = final oneCycle.
Proof.
  refine (proj2 (proj1 (@polling_failures_are_silent Sample.host initialState
                          (final oneCycle))
                   (serverError 503 "unavailable") _)).
  reflexivity.
Defined.

Lemma failed_fetch_offers_download_witness :
  exists e,
    scriptText
      (ui (resumeShell initialState (Resolved (serverError 404 "no such id"))
             (initialWorld 0)))
    = "# Error fetching script: " ++ errText e.
Proof.
  refine (proj2 (proj2 (@failed_fetch_offers_download Sample.host initialState
                          (Resolved (serverError 404 "no such id"))
                          (initialWorld 0))) _).
  reflexivity.
Defined.

Lemma entries_only_grow_witness :
  exists added,
    collectedEntries (ui (final afterDone))
    = (collectedEntries (ui (final submitted)) ++ added)%list.
Proof.
  refine (@entries_only_grow Sample.host (final submitted)
            [Settle 0 noData; Settle 0 doneAnswer] (final afterDone) _ _).
  - vm_compute. reflexivity.
  - reflexivity.
Defined.

Lemma recomputation_changes_nothing_witness :
  namesEffect (ui (final acmeTonic)) (final acmeTonic) = final acmeTonic.
Proof.
  refine (@recomputation_changes_nothing Sample.host (final acmeTonic) _).
  exists 0%Z, acmeTonic. vm_compute. reflexivity.
Defined.

(** ** The order of the fetches of a cycle, and of the ends of fetches *)

Lemma Part_eq_dec (p q : Part) : {p = q} + {p <> q}.
Proof. decide equality. Defined.

Lemma samePart_sym p s s' : samePart p s s' -> samePart p s' s.
Proof. destruct p; cbn; intuition congruence. Qed.

Lemma samePart_trans p a b c :
  samePart p a b -> samePart p b c -> samePart p a c.
Proof. destruct p; cbn; intuition congruence. Qed.

(** A state is its five parts. *)
Lemma state_parts s s' : (forall p, samePart p s s') -> s' = s.
Proof.
  intros Hp.
  destruct (Hp Names) as (N1 & N2 & N3).
  destruct (Hp Script) as (S1 & S2).
  destruct (Hp Collection) as (C1 & C2 & C3 & C4).
  destruct (Hp Training) as (T1 & T2 & T3).
  destruct (Hp Prediction) as (P1 & P2 & P3 & P4).
  destruct s, s'. cbn in *. subst. reflexivity.
Qed.

Section Order.
Context {H : Host}.

#[local] Hint Resolve keeps_refl keeps_trans : core.

Ltac counts_prim :=
  try (intros w0; unfold keeps, pollCounts, inFlight, count, fetch, seq;
       cbn; rewrite ?filter_app; cbn; rewrite ?app_nil_r; reflexivity);
  try (intros w0; unfold keeps, pollCounts, inFlight, count, clearPolling;
       destruct (pollingRef w0); cbn;
       rewrite ?filter_app; cbn; rewrite ?app_nil_r; reflexivity).

Lemma resume_counts t o :
  awaitsGetdata t = false -> awaitsSubmit t = false ->
  respects (keeps pollCounts) (resume t o).
Proof.
  destruct t; cbn [awaitsGetdata awaitsSubmit]; try discriminate;
    intros _ _; cbn [resume]; unfold_resume; unfold alert;
    frame_split; counts_prim.
Qed.

Lemma start_counts snap :
  respects (keeps pollCounts) (fetchShellScript snap)
  /\ respects (keeps pollCounts) (submitCollection snap)
  /\ respects (keeps pollCounts) (startModelTraining snap)
  /\ respects (keeps pollCounts) (requestPredictionMode snap)
  /\ (forall n v, respects (keeps pollCounts) (handleCollectionChange n v))
  /\ (forall f, respects (keeps pollCounts) (handleCsvSelect f))
  /\ (forall f m, respects (keeps pollCounts) (mount f m))
  /\ respects (keeps pollCounts) unmount.
Proof.
  repeat match goal with |- _ /\ _ => split end; intros;
    unfold_start; unfold unmount, alert; frame_split; counts_prim.
  intros w; unfold mount, mountEffect, namesEffect, seq, skip;
    repeat (break_match; cbn); reflexivity.
Qed.

(** A cycle starts: one more call to [/getdata], one more cycle waiting. *)
Lemma singleIteration_counts snap w :
  cycleInv w -> cycleInv (singleIteration snap w).
Proof.
  unfold cycleInv, singleIteration, fetch, seq, inFlight, count. cbn.
  rewrite !filter_app, !length_app. cbn. lia.
Qed.

Lemma clearPolling_counts w : cycleInv w -> cycleInv (clearPolling w).
Proof.
  unfold cycleInv, clearPolling, inFlight, count.
  destruct (pollingRef w); cbn; auto.
  rewrite !filter_app, !length_app. cbn. lia.
Qed.

Lemma resumeSubmit_counts snap o w :
  cycleInv w -> cycleInv (resumeSubmit snap o w).
Proof.
  intros Hc. unfold resumeSubmit, seq.
  assert (Hset : forall w1, cycleInv w1 ->
            cycleInv (setState (setIsSubmittingCollection false) w1))
    by (intros w1 H1; exact H1).
  apply Hset.
  destruct o as [res|e]; [destruct (ok res); cbn [negb]|].
  - unfold pollForDataAndStatus, seq.
    assert (Hi : forall w1, cycleInv w1 ->
              cycleInv (setInterval snap (fun i => setPollingRef (Some i)) w1)).
    { intros w1. unfold cycleInv, inFlight, count. cbn.
      rewrite !filter_app, !length_app. cbn. lia. }
    apply Hi. apply singleIteration_counts. now apply clearPolling_counts.
  - unfold failSubmit, alert, seq, cycleInv, inFlight, count in *. cbn.
    rewrite !filter_app, !length_app. cbn. lia.
  - unfold failSubmit, alert, seq, cycleInv, inFlight, count in *. cbn.
    rewrite !filter_app, !length_app. cbn. lia.
Qed.

(** The [/getdata] fetch of a cycle ends: one status poll more. *)
Lemma resumeGetdata_counts snap o w :
  count isStatusCall (log (resumeGetdata snap o w))
  = S (count isStatusCall (log w))
  /\ inFlight (resumeGetdata snap o w) = inFlight w
  /\ count isGetdataCall (log (resumeGetdata snap o w))
     = count isGetdataCall (log w).
Proof.
  unfold resumeGetdata.
  match goal with
  | |- context [seq ?a _] =>
      assert (Ha : respects (keeps pollCounts) a)
        by (frame_split; counts_prim);
      specialize (Ha w); unfold seq; generalize dependent (a w)
  end.
  intros w1 Ha. unfold keeps, pollCounts in Ha. injection Ha as H1 H2 H3.
  rewrite <- H1, <- H2, <- H3.
  unfold fetch, seq, inFlight, count. cbn.
  rewrite !filter_app, !length_app. cbn. repeat split; lia.
Qed.

Lemma step_cycleInv w e w' : cycleInv w -> step w e = Some w' -> cycleInv w'.
Proof.
  intros Hinv Hs.
  pose proof (start_counts (ui w)) as (S1 & S2 & S3 & S4 & S5 & S6 & S7 & S8).
  assert (Hsame : forall w1, keeps pollCounts w w1 -> cycleInv w1).
  { unfold keeps, pollCounts, cycleInv in *. intros w1 E.
    injection E as -> -> ->. exact Hinv. }
  destruct e; cbn [step] in Hs;
    repeat (break_hyp Hs; try discriminate);
    injection Hs as <-;
    try (apply Hsame;
         first [apply S1 | apply S2 | apply S3 | apply S4 | apply S5
               | apply S6 | apply S7 | apply S8 | reflexivity]; fail).
  - match goal with
    | E : nth_error (pending w) i = Some t |- _ =>
        pose proof (@removeNth_filter _ awaitsGetdata _ _ _ E) as Hrm
    end.
    set (w0 := setPending (removeNth i (pending w)) w).
    change (List.length (filter awaitsGetdata (removeNth i (pending w))))
      with (inFlight w0) in Hrm.
    change (List.length (filter awaitsGetdata (pending w)))
      with (inFlight w) in Hrm.
    destruct (awaitsGetdata t) eqn:Eg.
    + destruct t; try discriminate. cbn [resume].
      destruct (resumeGetdata_counts snap o w0) as (Hc1 & Hc2 & Hc3).
      unfold cycleInv in *. rewrite Hc1, Hc2, Hc3.
      change (log w0) with (log w). lia.
    + assert (H0 : cycleInv w0).
      { unfold cycleInv in *. change (log w0) with (log w). lia. }
      destruct (awaitsSubmit t) eqn:Es.
      * destruct t; try discriminate. cbn [resume].
        now apply resumeSubmit_counts.
      * pose proof (resume_counts t o Eg Es w0) as Hk.
        unfold keeps, pollCounts, cycleInv in *.
        injection Hk as -> -> ->. exact H0.
  - unfold seq. apply singleIteration_counts.
    unfold cycleInv, rearm, inFlight in *. exact Hinv.
  - unfold predictionCallback, fetch, seq, cycleInv, inFlight, count in *.
    cbn. rewrite !filter_app, !length_app. cbn. lia.
Qed.

Lemma cycleInv_reachable w : reachable w -> cycleInv w.
Proof.
  apply reachable_inv.
  - intros t0. reflexivity.
  - intros w0 e w1. apply step_cycleInv.
Qed.

(** X25: within a cycle the status poll comes after the [/getdata] fetch,
    once.  In every reachable state the status polls made and the cycles
    still waiting for [/getdata] add up to the calls to [/getdata] made:
    a cycle polls the status only when its [/getdata] fetch has ended, and
    then it does, however that fetch ended. *)
Theorem cycle_order (w : World) :
  reachable w ->
  (count isStatusCall (log w) + inFlight w = count isGetdataCall (log w))%nat
  /\ (count isStatusCall (log w) <= count isGetdataCall (log w))%nat
  /\ (forall i snap o w',
      nth_error (pending w) i = Some (AwaitGetdata snap) ->
      step w (Settle i o) = Some w' ->
      count isStatusCall (log w') = S (count isStatusCall (log w))
      /\ count isGetdataCall (log w') = count isGetdataCall (log w)
      /\ S (inFlight w') = inFlight w).
Proof.
  intros Hr. pose proof (cycleInv_reachable Hr) as Hc. unfold cycleInv in Hc.
  split; [exact Hc|]. split; [lia|].
  intros i snap o w' Hn Hs. cbn [step] in Hs. rewrite Hn in Hs.
  injection Hs as <-. cbn [resume].
  destruct (resumeGetdata_counts snap o
              (setPending (removeNth i (pending w)) w)) as (H1 & H2 & H3).
  pose proof (@removeNth_filter _ awaitsGetdata _ _ _ Hn) as Hrm.
  cbn [awaitsGetdata] in Hrm. rewrite H1, H2, H3.
  unfold inFlight. cbn [pending setPending log].
  repeat split. lia.
Qed.

(** The state after the end of a fetch is a function of the state before:
    the timers, the log, the clock and the other fetches play no part. *)
Lemma resume_ui t o w : ui (resume t o w) = ui (resume t o (blank (ui w))).
Proof.
  destruct t; cbn [resume]; unfold_resume;
    unfold pollForDataAndStatus, clearPolling, singleIteration, fetch, alert,
      seq, skip;
    repeat (break_match; cbn; try reflexivity).
Qed.

Lemma resume_local t o s s' :
  samePart (partOfTask t) s s' ->
  samePart (partOfTask t) (ui (resume t o (blank s)))
    (ui (resume t o (blank s'))).
Proof.
  destruct t; cbn [partOfTask samePart resume]; unfold_resume;
    unfold pollForDataAndStatus, clearPolling, singleIteration, fetch, alert,
      seq, skip;
    intros Hp; decompose [and] Hp; clear Hp;
    repeat (break_match; cbn; try (repeat split; congruence)).
Qed.

Lemma resume_commute_part t1 o1 t2 o2 w p :
  partOfTask t1 <> partOfTask t2 ->
  samePart p (ui (resume t2 o2 (resume t1 o1 w)))
    (ui (resume t1 o1 (resume t2 o2 w))).
Proof.
  intros Hne.
  assert (Hkeep : forall t o q x, partOfTask t <> q ->
            samePart q (ui x) (ui (resume t o x))).
  { intros t o q x Hq. exact (@resume_part _ q t o Hq x). }
  assert (Hown : forall ta oa tb ob,
            partOfTask ta <> partOfTask tb ->
            samePart (partOfTask ta) (ui (resume tb ob (resume ta oa w)))
              (ui (resume ta oa (resume tb ob w)))).
  { intros ta oa tb ob Hab.
    apply samePart_trans with (ui (resume ta oa w)).
    - apply samePart_sym. apply Hkeep. congruence.
    - rewrite (resume_ui ta oa w), (resume_ui ta oa (resume tb ob w)).
      apply resume_local. apply Hkeep. congruence. }
  destruct (Part_eq_dec p (partOfTask t1)) as [-> | H1].
  - now apply Hown.
  - destruct (Part_eq_dec p (partOfTask t2)) as [-> | H2].
    + apply samePart_sym. apply Hown. congruence.
    + apply samePart_trans with (ui w).
      * apply samePart_sym.
        apply samePart_trans with (ui (resume t1 o1 w));
          apply Hkeep; congruence.
      * apply samePart_trans with (ui (resume t2 o2 w));
          apply Hkeep; congruence.
Qed.

(** X24: the ends of two fetches of different steps commute.  When a script
    fetch, a training request, a fetch of the collection and one of the
    prediction are in flight together, the state of the page after two of
    them have ended does not depend on which ended first. *)
Theorem independent_fetches_commute
  (t1 t2 : Task) (o1 o2 : Outcome) (w : World) :
  partOfTask t1 <> partOfTask t2 ->
  ui (resume t1 o1 (resume t2 o2 w)) = ui (resume t2 o2 (resume t1 o1 w)).
Proof.
  intros Hne. apply state_parts. intros p.
  now apply resume_commute_part.
Qed.
End Order.

Lemma cycle_order_witness :
  (count isStatusCall (log (final overlappingCycles))
   + inFlight (final overlappingCycles)
   = count isGetdataCall (log (final overlappingCycles)))%nat.
Proof.
  refine (proj1 (@cycle_order Sample.host (final overlappingCycles) _)).
  exists 0%Z, overlappingCycles. vm_compute. reflexivity.
Defined.

Lemma independent_fetches_commute_witness :
  ui (resume (H := Sample.host) (AwaitShell initialState)
        (Resolved (okScript "echo start"))
        (resume (H := Sample.host) (AwaitTrain initialState)
           (Resolved (serverError 500 "bad csv")) (initialWorld 0)))
  = ui (resume (H := Sample.host) (AwaitTrain initialState)
          (Resolved (serverError 500 "bad csv"))
          (resume (H := Sample.host) (AwaitShell initialState)
             (Resolved (okScript "echo start")) (initialWorld 0))).
Proof.
  refine (@independent_fetches_commute Sample.host (AwaitShell initialState)
            (AwaitTrain initialState) _ _ (initialWorld 0) _).
  discriminate.
Defined.

(** ** What the page shows after the mount, and while it trains *)

Section Shown.
Context {H : Host}.

(** X27: what the mount makes of local storage.  A key that is missing and a
    key that holds the empty string are the same: the name is empty.  The
    identifier is set exactly when both names are there; without it the
    header reads [not set] and Get Init Script and Submit are disabled;
    with it they are enabled.  The mount touches nothing else: no request
    is sent, no timer is set, and the rest of the state is the initial
    one. *)
Theorem mount_reads_storage (f m : option string) (t0 : Z) :
  let w := mount f m (initialWorld t0) in
  let v := render (ui w) in
  factoryName (ui w) = orEmpty f
  /\ medicineName (ui w) = orEmpty m
  /\ orEmpty None = "" /\ orEmpty (Some "") = ""
  /\ factoryMedicineId (ui w) = derivedId (orEmpty f) (orEmpty m)
  /\ (orEmpty f = "" \/ orEmpty m = "" ->
      headerId v = "not set"
      /\ disabled (fetchButton v) = true /\ disabled (submitButton v) = true)
  /\ (orEmpty f <> "" -> orEmpty m <> "" ->
      headerId v = orEmpty f ++ "_" ++ orEmpty m
      /\ disabled (fetchButton v) = false
      /\ disabled (submitButton v) = false)
  /\ log w = [] /\ pending w = [] /\ intervals w = [] /\ timeouts w = []
  /\ (forall p, p <> Names -> samePart p initialState (ui w)).
Proof.
  cbv zeta.
  assert (Hf : factoryName (ui (mount f m (initialWorld t0))) = orEmpty f).
  { unfold mount, mountEffect, namesEffect, seq, skip.
    repeat (break_match; cbn); reflexivity. }
  assert (Hm : medicineName (ui (mount f m (initialWorld t0))) = orEmpty m).
  { unfold mount, mountEffect, namesEffect, seq, skip.
    repeat (break_match; cbn); reflexivity. }
  assert (Hid : factoryMedicineId (ui (mount f m (initialWorld t0)))
                = derivedId (orEmpty f) (orEmpty m)).
  { pose proof (@mount_idInv f m (initialWorld t0) eq_refl) as Hi.
    unfold idInv in Hi. now rewrite Hi, Hf, Hm. }
  assert (Hrest : forall p, p <> Names ->
            samePart p initialState (ui (mount f m (initialWorld t0)))).
  { intros p Hp.
    pose proof (start_part p initialState)
      as (_ & _ & _ & _ & _ & _ & _ & _ & S9 & _).
    exact (S9 f m Hp (initialWorld t0)). }
  repeat match goal with |- _ /\ _ => split end;
    try reflexivity; try assumption.
  - intros He.
    assert (Hd : derivedId (orEmpty f) (orEmpty m) = "").
    { unfold derivedId.
      destruct He as [E | E]; apply truthyStr_empty in E; rewrite E;
        [|rewrite andb_false_r]; reflexivity. }
    cbn [render headerId fetchButton submitButton disabled].
    rewrite Hid, Hd. cbn. split; [reflexivity|]. split; [reflexivity|].
    apply orb_true_r.
  - intros Ef Em.
    assert (Hd : derivedId (orEmpty f) (orEmpty m)
                 = orEmpty f ++ "_" ++ orEmpty m).
    { unfold derivedId.
      destruct (truthyStr (orEmpty f)) eqn:Tf;
        [|apply truthyStr_empty in Tf; contradiction].
      destruct (truthyStr (orEmpty m)) eqn:Tm;
        [|apply truthyStr_empty in Tm; contradiction].
      reflexivity. }
    assert (Ht : truthyStr (orEmpty f ++ "_" ++ orEmpty m) = true).
    { destruct (orEmpty f); [contradiction | reflexivity]. }
    destruct (Hrest Script) as (_ & Hfl); [discriminate|].
    destruct (Hrest Collection) as (_ & Hsu & _); [discriminate|].
    cbn [render headerId fetchButton submitButton disabled].
    rewrite Hid, Hd, Ht, Hfl, Hsu. repeat split.
  - unfold mount, mountEffect, namesEffect, seq, skip.
    repeat (break_match; cbn); reflexivity.
  - unfold mount, mountEffect, namesEffect, seq, skip.
    repeat (break_match; cbn); reflexivity.
  - unfold mount, mountEffect, namesEffect, seq, skip.
    repeat (break_match; cbn); reflexivity.
  - unfold mount, mountEffect, namesEffect, seq, skip.
    repeat (break_match; cbn); reflexivity.
Qed.

Lemma resumeTrain_message snap o w :
  truthyStr (trainMessage (ui (resumeTrain snap o w))) = true.
Proof.
  unfold resumeTrain, failTrain.
  destruct o as [res|e]; [destruct (ok res)|]; reflexivity.
Qed.

Lemma step_trainInv w e w' : trainInv w -> step w e = Some w' -> trainInv w'.
Proof.
  unfold trainInv. intros Hinv Hs.
  assert (Hsame : samePart Training (ui w) (ui w') ->
                  isTraining (ui w') = true -> trainMessage (ui w') = "").
  { intros (_ & -> & ->). exact Hinv. }
  destruct (partOfEvent w e) as [p|] eqn:Ep.
  - destruct p;
      try (apply Hsame; apply (step_part _ _ Hs); rewrite Ep; discriminate).
    destruct e; cbn [partOfEvent] in Ep; try discriminate; cbn [step] in Hs;
      repeat (break_hyp Hs; try discriminate); injection Hs as <-.
    + exact Hinv.
    + unfold startModelTraining.
      repeat (break_match; try exact Hinv). reflexivity.
    + cbn [option_map] in Ep. destruct t; discriminate.
  - apply Hsame. apply (step_part _ _ Hs). rewrite Ep. discriminate.
Qed.

Lemma trainInv_reachable w : reachable w -> trainInv w.
Proof.
  apply reachable_inv.
  - intros t0. discriminate.
  - intros w0 e w1. apply step_trainInv.
Qed.

(** X28: the training message over a request.  In every reachable state
    the message is empty while the training request is in flight, and the
    button then reads [Starting training...] and is disabled; when the
    request has ended, however it ended, there is a message and the flag is
    cleared. *)
Theorem training_message_lifecycle (w : World) :
  reachable w ->
  (isTraining (ui w) = true ->
   trainMessage (ui w) = ""
   /\ trainText (render (ui w)) = ""
   /\ caption (trainButton (render (ui w))) = "Starting training..."
   /\ disabled (trainButton (render (ui w))) = true
   /\ step w ClickTrain = None)
  /\ (forall i snap o w',
      nth_error (pending w) i = Some (AwaitTrain snap) ->
      step w (Settle i o) = Some w' ->
      trainMessage (ui w') <> "" /\ isTraining (ui w') = false).
Proof.
  intros Hr. split.
  - intros Ht. pose proof (trainInv_reachable Hr Ht) as Hm.
    cbn [render trainText trainButton caption disabled step].
    rewrite Hm, Ht. repeat split.
    + apply orb_true_r.
    + now rewrite !andb_false_r.
  - intros i snap o w' Hn Hs. cbn [step] in Hs. rewrite Hn in Hs.
    injection Hs as <-. cbn [resume]. split.
    + intros E.
      pose proof (resumeTrain_message snap o
                    (setPending (removeNth i (pending w)) w)) as Hm.
      rewrite E in Hm. discriminate.
    + unfold resumeTrain, seq. reflexivity.
Qed.
End Shown.

Lemma mount_reads_storage_witness :
  headerId (render (H := Sample.host)
              (ui (mount (Some "ACME") (Some "") (initialWorld 0))))
  = "not set".
Proof.
  refine (proj1 (proj1 (proj2 (proj2 (proj2 (proj2 (proj2
            (@mount_reads_storage Sample.host (Some "ACME") (Some "") 0))))))
            _)).
  right. reflexivity.
Defined.

Lemma training_message_lifecycle_witness :
  trainMessage (ui (final (acmeAlone ++ [ClickTrain]))) = "".
Proof.
  refine (proj1 (proj1 (@training_message_lifecycle Sample.host
                          (final (acmeAlone ++ [ClickTrain])) _) _)).
  - exists 0%Z, (acmeAlone ++ [ClickTrain])%list. vm_compute. reflexivity.
  - reflexivity.
Defined.

(** ** The closures of a collection *)

Lemma addsOnly_refl o w : addsOnly o w w.
Proof. intros s Hin. now left. Qed.

Lemma addsOnly_trans o a b c : addsOnly o a b -> addsOnly o b c -> addsOnly o a c.
Proof.
  intros Hab Hbc s Hin. destruct (Hbc s Hin) as [Hb | Ho]; auto.
Qed.

Section StaleClosures.
Context {H : Host}.

#[local] Hint Resolve addsOnly_refl addsOnly_trans keeps_refl keeps_trans
  : core.

Lemma closures_clearPolling o : respects (addsOnly o) clearPolling.
Proof.
  intros w s. unfold clearPolling, closures.
  destruct (pollingRef w); cbn; auto.
  rewrite !in_app_iff. intros [Hin | Hin]; auto. left. right.
  apply in_map_iff in Hin. destruct Hin as (iv & <- & Hiv).
  apply filter_In in Hiv. apply in_map. tauto.
Qed.

(** What is left of a frame goal on the closures: a state setter, an
    effect, a function that is suspended, a timer that is set. *)
Ltac closure_prim :=
  try apply closures_clearPolling;
  try (intros w s; unfold closures; cbn;
       rewrite ?flat_map_app, ?map_app, ?in_app_iff; cbn;
       intuition (subst; auto); fail).

Lemma resume_closures t o : respects (addsOnly (pollSnap t)) (resume t o).
Proof.
  destruct t; cbn [resume pollSnap]; unfold_resume;
    unfold pollForDataAndStatus, singleIteration, fetch, alert;
    frame_split; closure_prim.
Qed.

Lemma start_closures o snap :
  respects (addsOnly o) (fetchShellScript snap)
  /\ respects (addsOnly (Some snap)) (submitCollection snap)
  /\ respects (addsOnly o) (startModelTraining snap)
  /\ respects (addsOnly o) (requestPredictionMode snap)
  /\ (forall t, respects (addsOnly o) (predictionCallback snap t))
  /\ respects (addsOnly (Some snap)) (singleIteration snap)
  /\ (forall n v, respects (addsOnly o) (handleCollectionChange n v))
  /\ (forall f, respects (addsOnly o) (handleCsvSelect f))
  /\ (forall f m, respects (addsOnly o) (mount f m))
  /\ respects (addsOnly o) unmount.
Proof.
  repeat match goal with |- _ /\ _ => split end; intros;
    unfold_start; unfold unmount, fetch, alert; frame_split; closure_prim.
  intros w s; unfold mount, mountEffect, namesEffect, seq, skip;
    repeat (break_match; cbn); auto.
Qed.

Lemma closures_removeNth i w s :
  In s (closures (setPending (removeNth i (pending w)) w)) -> In s (closures w).
Proof.
  unfold closures. cbn. rewrite !in_app_iff. intros [Hin | Hin]; auto.
  left. apply in_flat_map in Hin. destruct Hin as (t & Ht & Hs).
  apply in_flat_map. exists t. split; [|exact Hs].
  eapply In_removeNth; eauto.
Qed.

Lemma closures_pending w t s :
  In t (pending w) -> pollSnap t = Some s -> In s (closures w).
Proof.
  intros Hin Hp. unfold closures. apply in_or_app. left.
  apply in_flat_map. exists t. split; [exact Hin|]. rewrite Hp. now left.
Qed.

Lemma closures_rearm id w s :
  In s (closures (rearm id w)) -> In s (closures w).
Proof.
  unfold closures, rearm. cbn. rewrite !in_app_iff. intros [Hin | Hin]; auto.
  right. rewrite map_map in Hin. apply in_map_iff in Hin.
  destruct Hin as (iv & <- & Hiv). destruct (Pos.eqb (iid iv) id); cbn;
    now apply in_map.
Qed.

(** An event gives the functions of the collection no new state to hold,
    but for the click on Submit, whose handler holds the state of the
    render it was clicked in. *)
Lemma step_closures w e w' :
  step w e = Some w' ->
  addsOnly (if isSubmit e then Some (ui w) else None) w w'.
Proof.
  intros Hs.
  pose proof (start_closures None (ui w))
    as (S1 & S2 & S3 & S4 & _ & _ & S7 & S8 & S9 & S10).
  step_inv e Hs; cbn [isSubmit];
    try (first [apply S1 | apply S2 | apply S3 | apply S4 | apply S7
               | apply S8 | apply S9 | apply S10 ]; fail).
  - intros s Hin. left.
    destruct (resume_closures t o (setPending (removeNth i (pending w)) w) s Hin)
      as [Hold | Hnew].
    + now apply closures_removeNth in Hold.
    + eapply closures_pending; [eapply nth_error_In|]; eauto.
  - intros s Hin. left. unfold seq in Hin.
    match type of Hin with
    | context [singleIteration ?sn (rearm ?id ?w0)] =>
        destruct (proj1 (proj2 (proj2 (proj2 (proj2 (proj2
                    (start_closures None sn))))))
                    (rearm id w0) s Hin) as [Hold | Hnew]
    end.
    + now apply closures_rearm in Hold.
    + injection Hnew as <-.
      match goal with
      | E : findInterval _ _ = Some _ |- _ =>
          apply find_some in E; destruct E as [Hiv _]
      end.
      unfold closures. apply in_or_app. right. now apply in_map.
  - intros s Hin. left.
    match type of Hin with
    | context [predictionCallback ?sn ?ts ?w0] =>
        destruct (proj1 (proj2 (proj2 (proj2 (proj2
                    (start_closures None sn))))) ts w0 s Hin)
          as [Hold | Hnew]; [exact Hold | discriminate]
    end.
  - intros s Hin. now left.
Qed.

Lemma resume_start t o : respects (keeps startOf) (resume t o).
Proof.
  destruct t; cbn [resume]; unfold_resume;
    unfold pollForDataAndStatus, singleIteration, fetch, alert;
    frame_split;
    try (intro; reflexivity);
    try (intros w; unfold clearPolling; destruct (pollingRef w); reflexivity).
Qed.

Lemma start_start snap :
  respects (keeps startOf) (fetchShellScript snap)
  /\ respects (keeps startOf) (startModelTraining snap)
  /\ respects (keeps startOf) (requestPredictionMode snap)
  /\ (forall t, respects (keeps startOf) (predictionCallback snap t))
  /\ respects (keeps startOf) (singleIteration snap)
  /\ (forall n v, respects (keeps startOf) (handleCollectionChange n v))
  /\ (forall f, respects (keeps startOf) (handleCsvSelect f))
  /\ (forall f m, respects (keeps startOf) (mount f m))
  /\ respects (keeps startOf) unmount.
Proof.
  repeat match goal with |- _ /\ _ => split end; intros;
    unfold_start; unfold unmount, fetch, alert; frame_split;
    try (intro; reflexivity);
    try (intros w; unfold clearPolling; destruct (pollingRef w); reflexivity).
  intros w; unfold mount, mountEffect, namesEffect, seq, skip;
    repeat (break_match; cbn); reflexivity.
Qed.

(** Only the click on Submit writes the start timestamp. *)
Lemma step_start w e w' :
  step w e = Some w' -> isSubmit e = false -> startOf w' = startOf w.
Proof.
  intros Hs He.
  pose proof (start_start (ui w))
    as (S1 & S2 & S3 & _ & _ & S6 & S7 & S8 & S9).
  step_inv e Hs; try discriminate;
    try (first [apply S1 | apply S2 | apply S3 | apply S6 | apply S7
               | apply S8 | apply S9 | reflexivity]; fail).
  apply (resume_start t o (setPending (removeNth i (pending w)) w)).
Qed.

Lemma submit_start w w1 :
  step w ClickSubmit = Some w1 -> startOf w1 = Some (clock w).
Proof.
  intros Hs. cbn [step] in Hs.
  destruct (isLive w && negb (isSubmittingCollection (ui w))
            && truthyStr (factoryMedicineId (ui w))) eqn:E; [|discriminate].
  apply andb_true_iff in E. destruct E as [_ Hid].
  injection Hs as <-. unfold submitCollection. rewrite Hid. reflexivity.
Qed.

Lemma step_firstInv w e w' : firstInv w -> step w e = Some w' -> firstInv w'.
Proof.
  intros Hinv Hs Hnone s Hin.
  destruct (isSubmit e) eqn:He.
  - destruct e; try discriminate.
    rewrite (@submit_start w w' Hs) in Hnone. discriminate.
  - rewrite (@step_start w e w' Hs He) in Hnone.
    pose proof (@step_closures w e w' Hs s Hin) as Hc. rewrite He in Hc.
    destruct Hc as [Hold | Hnew]; [auto | discriminate].
Qed.

Lemma firstInv_reachable w : reachable w -> firstInv w.
Proof.
  apply reachable_inv.
  - intros t0 _ s Hin. contradiction.
  - intros w0 e w1. apply step_firstInv.
Qed.

(** Short of a new click on Submit, the functions of the collection go on
    with the states they hold and the start timestamp stays. *)
Lemma run_closures es : forall w w',
  forallb (fun e => negb (isSubmit e)) es = true ->
  run w es = Some w' ->
  startOf w' = startOf w
  /\ forall s, In s (closures w') -> In s (closures w).
Proof.
  induction es as [|e rest IH]; simpl; intros w w' Hes Hr.
  - inversion Hr; subst. auto.
  - apply andb_true_iff in Hes. destruct Hes as [He Hrest].
    apply negb_true_iff in He.
    destruct (step w e) as [w1|] eqn:Es; [|discriminate].
    destruct (IH w1 w' Hrest Hr) as [Hst Hcl]. split.
    + rewrite Hst. exact (@step_start w e w1 Es He).
    + intros s Hin. pose proof (@step_closures w e w1 Es s (Hcl s Hin)) as Hc.
      rewrite He in Hc. destruct Hc as [Hold | Hnew]; [auto | discriminate].
Qed.

(** X1: the collection filter compares with the [collectionStartTs] of the
    render in which Submit was clicked, not with the one that click
    records.  The click records the time and parks a function that holds
    the state of before; the polling that a 2xx answer starts holds that
    state too, in its first cycle and in the interval, whose every firing
    starts a cycle with it; until the next click no function of the
    collection comes to hold another state, while the state keeps the
    recorded start.  So on a first submission, where the state of before
    holds [null], every cycle appends every record of its [/getdata]
    answer, whatever its timestamp. *)
Theorem stale_start_timestamp (w : World) (w1 : World) :
  step w ClickSubmit = Some w1 ->
  collectionStartTs (ui w1) = Some (clock w)
  /\ pending w1 = (pending w ++ [AwaitSubmit (ui w)])%list
  /\ (forall res w2, ok res = true ->
      pending (resumeSubmit (ui w) (Resolved res) w2)
      = (pending w2 ++ [AwaitGetdata (ui w)])%list
      /\ pollingRef (resumeSubmit (ui w) (Resolved res) w2)
         = Some (nextTimer w2)
      /\ In (mkInterval (nextTimer w2) (ui w) (clock w2 + PERIOD))
           (intervals (resumeSubmit (ui w) (Resolved res) w2)))
  /\ (forall w2 id iv w3,
      findInterval id (intervals w2) = Some iv ->
      step w2 (IntervalFires id) = Some w3 ->
      pending w3 = (pending w2 ++ [AwaitGetdata (isnap iv)])%list)
  /\ (forall es w2,
      forallb (fun e => negb (isSubmit e)) es = true ->
      run w1 es = Some w2 ->
      collectionStartTs (ui w2) = Some (clock w)
      /\ forall s, In s (closures w2) -> In s (closures w) \/ s = ui w)
  /\ (collectionStartTs (ui w) = None ->
      forall res gd w2, ok res = true -> json res = Ok gd ->
      collectedEntries (ui (resumeGetdata (ui w) (Resolved res) w2))
      = (collectedEntries (ui w2) ++ asArray gd)%list)
  /\ (reachable w -> collectionStartTs (ui w) = None ->
      forall es w2,
      forallb (fun e => negb (isSubmit e)) es = true ->
      run w1 es = Some w2 ->
      forall i snap res gd,
      nth_error (pending w2) i = Some (AwaitGetdata snap) ->
      ok res = true -> json res = Ok gd ->
      exists w3,
        step w2 (Settle i (Resolved res)) = Some w3
        /\ collectedEntries (ui w3)
           = (collectedEntries (ui w2) ++ asArray gd)%list).
Proof.
  intros Hs. pose proof (@submit_start w w1 Hs) as Hstart.
  pose proof (@step_closures w ClickSubmit w1 Hs) as Hcl1.
  cbn [isSubmit] in Hcl1.
  assert (Hall : forall snap, collectionStartTs snap = None ->
            forall res gd w2, ok res = true -> json res = Ok gd ->
            collectedEntries (ui (resumeGetdata snap (Resolved res) w2))
            = (collectedEntries (ui w2) ++ asArray gd)%list).
  { intros snap Hnone res gd w2 Hok Hj. unfold resumeGetdata.
    rewrite Hok, Hj, Hnone, filterEntries_unset.
    destruct (asArray gd); cbn; auto. now rewrite app_nil_r. }
  assert (Hheld : forall es w2,
            forallb (fun e => negb (isSubmit e)) es = true ->
            run w1 es = Some w2 ->
            forall s, In s (closures w2) -> In s (closures w) \/ s = ui w).
  { intros es w2 Hes Hrun s Hin.
    destruct (@run_closures es w1 w2 Hes Hrun) as [_ Hsub].
    destruct (Hcl1 s (Hsub s Hin)) as [Hold | Hnew]; auto.
    right. now injection Hnew. }
  split; [exact Hstart|]. split.
  { cbn [step] in Hs.
    destruct (isLive w && negb (isSubmittingCollection (ui w))
              && truthyStr (factoryMedicineId (ui w))) eqn:E; [|discriminate].
    apply andb_true_iff in E. destruct E as [_ Hid].
    injection Hs as <-. unfold submitCollection. rewrite Hid. reflexivity. }
  split.
  { intros res w2 Hok.
    unfold resumeSubmit, pollForDataAndStatus, clearPolling.
    rewrite Hok. cbn [negb]. unfold seq. cbv beta.
    destruct (pollingRef w2); cbn; repeat split;
      apply in_or_app; right; now left. }
  split.
  { intros w2 id iv w3 Hf Hfire. cbn [step] in Hfire. rewrite Hf in Hfire.
    destruct (Z.leb (idue iv) (clock w2)); [|discriminate].
    injection Hfire as <-. reflexivity. }
  split.
  { intros es w2 Hes Hrun. split; [|now apply Hheld with es].
    destruct (@run_closures es w1 w2 Hes Hrun) as [Hst _].
    unfold startOf in *. congruence. }
  split; [intros Hnone; now apply Hall|].
  intros Hr Hnone es w2 Hes Hrun i snap res gd Hn Hok Hj.
  assert (Hin : In snap (closures w2)).
  { eapply closures_pending; [eapply nth_error_In; eauto | reflexivity]. }
  assert (Hsnap : collectionStartTs snap = None).
  { destruct (Hheld es w2 Hes Hrun snap Hin) as [Hold | ->]; [|exact Hnone].
    exact (@firstInv_reachable w Hr Hnone snap Hold). }
  eexists. split; [cbn [step]; rewrite Hn; reflexivity|].
  exact (Hall snap Hsnap res gd (setPending (removeNth i (pending w2)) w2)
           Hok Hj).
Qed.
End StaleClosures.

Lemma stale_start_timestamp_witness :
  collectionStartTs
    (ui (final (acmeTonic ++ [Tick 1704067200000; ClickSubmit])))
  = Some 1704067200000%Z
  /\ collectedEntries (ui (final twoCycles)) = [oldRecord; oldRecord].
Proof.
  split; [|vm_compute; reflexivity].
  refine (proj1 (@stale_start_timestamp Sample.host
                   (final (acmeTonic ++ [Tick 1704067200000]))
                   (final (acmeTonic ++ [Tick 1704067200000; ClickSubmit]))
                   _)).
  vm_compute. reflexivity.
Defined.
